(** * Expense tracker: the record stores and the analytics layer

    A shallow embedding of the services of the expense tracker
    (expense-data.ts in its mock-store and its API-backed version,
    income-data.ts and analytics-data.ts), of the grouping helpers of the
    daily view (daily-transactions.tsx), and the properties of their
    filtering, aggregation and store operations.

    Conventions of the embedding.
    - A JavaScript number is a [number]: an exact rational, an infinity or
      NaN.  Rounding of IEEE doubles and the sign of zero are outside the
      model; division by zero and NaN propagation are inside it.  The
      amount of a stored record is a finite number, a [Q].
    - A JavaScript string is a [string] of 8-bit characters; case mapping
      is the ASCII one.
    - A rejected promise (a thrown TypeError) is the [Throw] of [result].
    - The module-level arrays of the services are passed explicitly; a
      function that changes one returns the new array.
    - A plain object used as a dictionary is an insertion-ordered
      association list ([obj]); keys are category names, dates and months.
      A key that is a property name of Object.prototype ([inherited]) is
      outside the model: a theorem about what a dictionary holds assumes
      that its keys are not inherited ([plain_key], or calendar dates).
      The days of [getDailySpending] are array indices: [own_entries]
      lists such keys first, in ascending order. *)

From Stdlib Require Import List String Ascii Bool Arith ZArith QArith Lia.
From Stdlib Require Import Permutation Sorted Setoid Morphisms.
From Stdlib Require Import DecimalString Decimal DecimalZ DecimalPos.
Import ListNotations.

Set Implicit Arguments.

(* ================================================================== *)
(** * The JavaScript runtime the services rely on *)
(* ================================================================== *)

Module JS.

(** ** Numbers *)

Inductive number : Type :=
| Fin (q : Q)
| Infinity (negative : bool)
| NaN.

Definition zero : number := Fin 0.

Definition neg (a : number) : number :=
  match a with
  | Fin q => Fin (- q)
  | Infinity s => Infinity (negb s)
  | NaN => NaN
  end.

Definition add (a b : number) : number :=
  match a, b with
  | Fin x, Fin y => Fin (x + y)
  | Fin _, Infinity s | Infinity s, Fin _ => Infinity s
  | Infinity s, Infinity t => if Bool.eqb s t then Infinity s else NaN
  | _, _ => NaN
  end.

Definition sub (a b : number) : number := add a (neg b).

Definition Qneg_bool (q : Q) : bool := negb (Qle_bool 0 q).

Definition mul (a b : number) : number :=
  match a, b with
  | Fin x, Fin y => Fin (x * y)
  | Fin x, Infinity s | Infinity s, Fin x =>
      if Qeq_bool x 0 then NaN else Infinity (xorb s (Qneg_bool x))
  | Infinity s, Infinity t => Infinity (xorb s t)
  | _, _ => NaN
  end.

Definition div (a b : number) : number :=
  match a, b with
  | Fin x, Fin y =>
      if Qeq_bool y 0
      then (if Qeq_bool x 0 then NaN else Infinity (Qneg_bool x))
      else Fin (x / y)
  | Fin _, Infinity _ => Fin 0
  | Infinity s, Fin y => Infinity (xorb s (Qneg_bool y))
  | _, _ => NaN
  end.

(** The outcome of comparing two numbers; [None] when either is NaN. *)
Definition cmp (a b : number) : option comparison :=
  match a, b with
  | Fin x, Fin y => Some (x ?= y)%Q
  | Fin _, Infinity s => Some (if s then Gt else Lt)
  | Infinity s, Fin _ => Some (if s then Lt else Gt)
  | Infinity s, Infinity t =>
      Some (if Bool.eqb s t then Eq else if s then Lt else Gt)
  | _, _ => None
  end.

(** [a > b], [a >= b], [a <= b]. *)
Definition gt (a b : number) : bool :=
  match cmp a b with Some Gt => true | _ => false end.
Definition ge (a b : number) : bool :=
  match cmp a b with Some Gt | Some Eq => true | _ => false end.
Definition le (a b : number) : bool :=
  match cmp a b with Some Lt | Some Eq => true | _ => false end.

(** ToBoolean of a number: [0] and [NaN] are falsy. *)
Definition truthy (a : number) : bool :=
  match a with
  | Fin q => negb (Qeq_bool q 0)
  | Infinity _ => true
  | NaN => false
  end.

Definition is_finite (a : number) : bool :=
  match a with
  | Fin _ => true
  | _ => false
  end.

(** [x || 0] for a property read [x] of a dictionary of numbers. *)
Definition or_zero (x : option number) : number :=
  match x with
  | Some a => if truthy a then a else zero
  | None => zero
  end.

Definition of_nat (n : nat) : number := Fin (inject_Z (Z.of_nat n)).
Definition of_Z (z : Z) : number := Fin (inject_Z z).

(** ** Exceptions *)

Inductive exn : Type := TypeError.

Inductive result (A : Type) : Type :=
| Ok (a : A)
| Throw (e : exn).

Arguments Ok {A} a.
Arguments Throw {A} e.

Definition bind {A B : Type} (r : result A) (k : A -> result B) : result B :=
  match r with
  | Ok a => k a
  | Throw e => Throw e
  end.

(** try { body } catch (error) { handler } *)
Definition try_catch {A : Type} (body : result A) (handler : A) : A :=
  match body with
  | Ok a => a
  | Throw _ => handler
  end.

(** ** Strings *)

Definition is_upper (c : ascii) : bool :=
  (("A" <=? c) && (c <=? "Z"))%char.

Definition lower_char (c : ascii) : ascii :=
  if is_upper c then ascii_of_N (N_of_ascii c + 32) else c.

Fixpoint toLowerCase (s : string) : string :=
  match s with
  | EmptyString => EmptyString
  | String c s' => String (lower_char c) (toLowerCase s')
  end.

(** [s.includes(q)] *)
Fixpoint includes (s q : string) : bool :=
  String.prefix q s ||
  match s with
  | EmptyString => false
  | String _ s' => includes s' q
  end.

(** [a <= b] and [a >= b] on strings: code units, lexicographically. *)
Definition str_le (a b : string) : bool := String.leb a b.
Definition str_ge (a b : string) : bool := String.leb b a.

(** [a.localeCompare(b)], for the strings the services compare with it
    (dates and months: digits and hyphens), where the collation order is
    the code-unit order. *)
Definition localeCompare (a b : string) : number :=
  match String.compare a b with
  | Lt => Fin (-1)
  | Eq => Fin 0
  | Gt => Fin 1
  end.

(** ToBoolean of an optional string, keeping the value when truthy:
    [undefined] and the empty string are falsy. *)
Definition truthy_string (o : option string) : option string :=
  match o with
  | Some s => if (s =? "")%string then None else Some s
  | None => None
  end.

(** [String(n)] for an integer [n]. *)
Definition String_of_Z (n : Z) : string :=
  NilZero.string_of_int (Z.to_int n).

(** [s.substring(0, 7)] *)
Definition substring_0_7 (s : string) : string := String.substring 0 7 s.

(** ** Dates

    [new Date(s).getTime()] for a date-only string [YYYY-MM-DD], which
    ECMAScript reads as midnight UTC of that day; any other string is
    outside the date shape of the records and yields NaN here. *)

Definition digit (c : ascii) : option Z :=
  let n := Z.of_N (N_of_ascii c) in
  if (48 <=? n)%Z && (n <=? 57)%Z then Some (n - 48)%Z else None.

Definition is_hyphen (c : ascii) : bool := (c =? "-")%char.

Definition InLeapYear (y : Z) : bool :=
  ((y mod 4 =? 0) && (negb (y mod 100 =? 0) || (y mod 400 =? 0)))%Z.

Definition DaysInMonth (y m : Z) : Z :=
  if (m =? 2)%Z then (if InLeapYear y then 29 else 28)
  else if ((m =? 4) || (m =? 6) || (m =? 9) || (m =? 11))%Z then 30
  else 31.

Definition DayFromYear (y : Z) : Z :=
  (365 * (y - 1970) + (y - 1969) / 4 - (y - 1901) / 100 + (y - 1601) / 400)%Z.

(** Days of the year before the first of month [m] (1 to 12). *)
Definition DaysBeforeMonth (y m : Z) : Z :=
  (match m with
   | 1 => 0 | 2 => 31 | 3 => 59 | 4 => 90 | 5 => 120 | 6 => 151
   | 7 => 181 | 8 => 212 | 9 => 243 | 10 => 273 | 11 => 304 | _ => 334
   end
   + (if InLeapYear y && (2 <? m) then 1 else 0))%Z.

Definition MakeDay (y m d : Z) : Z :=
  (DayFromYear y + DaysBeforeMonth y m + d - 1)%Z.

Definition msPerDay : Z := 86400000.

Definition two_digits (a b : ascii) : option Z :=
  match digit a, digit b with
  | Some x, Some y => Some (10 * x + y)%Z
  | _, _ => None
  end.

Definition four_digits (a b c d : ascii) : option Z :=
  match two_digits a b, two_digits c d with
  | Some x, Some y => Some (100 * x + y)%Z
  | _, _ => None
  end.

(** The year, month and day of a well-formed calendar date. *)
Definition parse_date (s : string) : option (Z * Z * Z) :=
  match s with
  | String y1 (String y2 (String y3 (String y4 (String h1
      (String m1 (String m2 (String h2 (String d1 (String d2 EmptyString))))))))) =>
      match four_digits y1 y2 y3 y4, two_digits m1 m2, two_digits d1 d2 with
      | Some y, Some m, Some d =>
          if is_hyphen h1 && is_hyphen h2
             && (1 <=? m)%Z && (m <=? 12)%Z
             && (1 <=? d)%Z && (d <=? DaysInMonth y m)%Z
          then Some (y, m, d) else None
      | _, _, _ => None
      end
  | _ => None
  end.

(** The calendar fields of a well-formed date. *)
Definition calendar (y m d : Z) : Prop :=
  (0 <= y <= 9999 /\ 1 <= m <= 12 /\ 1 <= d <= DaysInMonth y m)%Z.

(** The date as one number, [YYYYMMDD]. *)
Definition date_number (ymd : Z * Z * Z) : Z :=
  let '(y, m, d) := ymd in (y * 10000 + m * 100 + d)%Z.

Definition is_iso_date (s : string) : bool :=
  match parse_date s with Some _ => true | None => false end.

(** Milliseconds since the epoch of a well-formed date. *)
Definition time_of (s : string) : option Z :=
  match parse_date s with
  | Some (y, m, d) => Some (MakeDay y m d * msPerDay)%Z
  | None => None
  end.

Definition Date_getTime (s : string) : number :=
  match time_of s with
  | Some t => of_Z t
  | None => NaN
  end.

(** ** Arrays *)

Section Arrays.
Variable A : Type.

(** [comparefn x y > 0]: [x] has to come after [y].  A NaN from
    [comparefn] counts as [0]. *)
Definition after (comparefn : A -> A -> number) (x y : A) : bool :=
  gt (comparefn x y) zero.

(** [Array.prototype.sort(comparefn)]: a stable sort, here by insertion. *)
Fixpoint insert (comparefn : A -> A -> number) (x : A) (l : list A) : list A :=
  match l with
  | [] => [x]
  | y :: l' =>
      if after comparefn x y then y :: insert comparefn x l' else x :: l
  end.

Definition sort (comparefn : A -> A -> number) (l : list A) : list A :=
  fold_right (insert comparefn) [] l.

(** A list in which no element has to come after a later one. *)
Definition ordered (comparefn : A -> A -> number) (l : list A) : Prop :=
  StronglySorted (fun x y => after comparefn x y = false) l.

(** [findIndex]: the first index whose element satisfies [p], or [-1]. *)
Fixpoint findIndex (p : A -> bool) (l : list A) : Z :=
  match l with
  | [] => (-1)%Z
  | x :: l' =>
      if p x then 0%Z
      else let i := findIndex p l' in
           if (i =? -1)%Z then (-1)%Z else (i + 1)%Z
  end.

(** [l[i]] *)
Definition index (l : list A) (i : Z) : option A :=
  if (i <? 0)%Z then None else nth_error l (Z.to_nat i).

(** [l[i] = v], for an index of the array or its length (an index
    beyond that would leave holes, which a list does not have). *)
Fixpoint set_nth (l : list A) (i : nat) (v : A) : list A :=
  match l, i with
  | [], O => [v]
  | [], S _ => []
  | _ :: l', O => v :: l'
  | x :: l', S i' => x :: set_nth l' i' v
  end.

Definition set_index (l : list A) (i : Z) (v : A) : list A :=
  if (i <? 0)%Z then l else set_nth l (Z.to_nat i) v.

(** The position a relative index of [slice] and [splice] denotes. *)
Definition relative (len : nat) (i : Z) : nat :=
  if (i <? 0)%Z then Z.to_nat (Z.max (Z.of_nat len + i) 0)
  else Nat.min (Z.to_nat i) len.

(** [l.splice(start, 1)]: the array without the element at [start]. *)
Definition splice1 (l : list A) (start : Z) : list A :=
  let s := relative (List.length l) start in
  firstn s l ++ skipn (S s) l.

(** [l.slice(0, end)] *)
Definition slice0 (l : list A) (end_ : Z) : list A :=
  firstn (relative (List.length l) end_) l.

(** [l.reduce((sum, x) => sum + f(x), 0)] *)
Definition reduce_sum (f : A -> number) (l : list A) : number :=
  fold_left (fun sum x => add sum (f x)) l zero.

(** [l.filter(p)] for a callback that may throw. *)
Fixpoint filter_throwing (p : A -> result bool) (l : list A) : result (list A) :=
  match l with
  | [] => Ok []
  | x :: l' =>
      bind (p x) (fun b =>
      bind (filter_throwing p l') (fun r =>
      Ok (if b then x :: r else r)))
  end.
End Arrays.

(** ** Plain objects as dictionaries: keys in insertion order *)

Section Objects.
Variable V : Type.

Definition obj : Type := list (string * V).

(** [o[k]] for a key that is not inherited from [Object.prototype]: the
    own property, if any. *)
Fixpoint get (o : obj) (k : string) : option V :=
  match o with
  | [] => None
  | (k', v) :: o' => if (k' =? k)%string then Some v else get o' k
  end.

(** [o[k] = v]: the key keeps its place when it is already there. *)
Fixpoint set (o : obj) (k : string) (v : V) : obj :=
  match o with
  | [] => [(k, v)]
  | (k', v') :: o' =>
      if (k' =? k)%string then (k', v) :: o' else (k', v') :: set o' k v
  end.

(** [Object.entries(o)] *)
Definition entries (o : obj) : list (string * V) := o.
End Objects.

(** ** Strings and integers *)

(** [s.split(c)] for a separator [c] of one character. *)
Fixpoint split_on (c : ascii) (s : string) : list string :=
  match s with
  | EmptyString => [EmptyString]
  | String a s' =>
      if (a =? c)%char then EmptyString :: split_on c s'
      else
        match split_on c s' with
        | piece :: pieces => String a piece :: pieces
        | [] => [String a EmptyString]
        end
  end.

(** The first [n] characters of [fill] repeated; [cur] is what is left of
    the copy being read. *)
Fixpoint cycle (fill cur : string) (n : nat) : string :=
  match n with
  | O => EmptyString
  | S n' =>
      match cur with
      | String c cur' => String c (cycle fill cur' n')
      | EmptyString =>
          match fill with
          | String c fill' => String c (cycle fill fill' n')
          | EmptyString => EmptyString
          end
      end
  end.

(** [s.padStart(targetLength, padString)] *)
Definition padStart (s : string) (targetLength : nat) (padString : string) : string :=
  let len := String.length s in
  if (targetLength <=? len)%nat then s
  else (cycle padString padString (targetLength - len) ++ s)%string.

(** White space of the 8-bit characters: tab, line feed, vertical tab,
    form feed, carriage return, space and no-break space. *)
Definition is_white (c : ascii) : bool :=
  let n := N_of_ascii c in
  ((9 <=? n) && (n <=? 13) || (n =? 32) || (n =? 160))%N.

Fixpoint trimStart (s : string) : string :=
  match s with
  | String c s' => if is_white c then trimStart s' else s
  | EmptyString => EmptyString
  end.

Definition hex_digit (c : ascii) : option Z :=
  let n := Z.of_N (N_of_ascii c) in
  if (48 <=? n)%Z && (n <=? 57)%Z then Some (n - 48)%Z
  else if (65 <=? n)%Z && (n <=? 70)%Z then Some (n - 55)%Z
  else if (97 <=? n)%Z && (n <=? 102)%Z then Some (n - 87)%Z
  else None.

(** The value of the longest prefix of digits; [acc] is [None] until a
    digit has been read. *)
Fixpoint digits_prefix (digit_of : ascii -> option Z) (radix : Z) (s : string)
  (acc : option Z) : option Z :=
  match s with
  | String c s' =>
      match digit_of c with
      | Some v =>
          digits_prefix digit_of radix s'
            (Some (match acc with Some n => n * radix + v | None => v end)%Z)
      | None => acc
      end
  | EmptyString => acc
  end.

(** [parseInt(x)] for [x] a string or [undefined]; [None] is NaN.  The
    integer is exact: the rounding of integers beyond 2^53 is outside the
    model. *)
Definition parseInt (x : option string) : option Z :=
  let s := match x with Some s => s | None => "undefined"%string end in
  let s := trimStart s in
  let '(negative, s) :=
    match s with
    | String c s' =>
        if (c =? "-")%char then (true, s')
        else if (c =? "+")%char then (false, s')
        else (false, s)
    | EmptyString => (false, s)
    end in
  let '(hex, s) :=
    match s with
    | String c (String x s') =>
        if (c =? "0")%char && ((x =? "x")%char || (x =? "X")%char)
        then (true, s') else (false, s)
    | _ => (false, s)
    end in
  match
    if hex then digits_prefix hex_digit 16 s None
    else digits_prefix digit 10 s None
  with
  | Some n => Some (if negative then - n else n)%Z
  | None => None
  end.

(** The number an integer result stands for, and the property key it
    makes: [String(n)]. *)
Definition number_of_int (n : option Z) : number :=
  match n with
  | Some z => of_Z z
  | None => NaN
  end.

Definition key_of_int (n : option Z) : string :=
  match n with
  | Some z => String_of_Z z
  | None => "NaN"%string
  end.

(** The value of a string of digits. *)
Fixpoint digits_value (s : string) (acc : Z) : option Z :=
  match s with
  | EmptyString => Some acc
  | String c s' =>
      match digit c with
      | Some v => digits_value s' (10 * acc + v)%Z
      | None => None
      end
  end.

(** The array index a property key denotes: a canonical decimal below
    [2^32 - 1]. *)
Definition array_index (k : string) : option Z :=
  match k with
  | EmptyString => None
  | _ =>
      match digits_value k 0 with
      | Some n =>
          if (String_of_Z n =? k)%string && (n <? 4294967295)%Z then Some n else None
      | None => None
      end
  end.

(** [Object.entries(o)] for an object whose keys may be array indices:
    those come first, in ascending order, then the other keys in
    insertion order. *)
Definition own_entries (V : Type) (o : obj V) : list (string * V) :=
  let is_index (kv : string * V) :=
    match array_index (fst kv) with Some _ => true | None => false end in
  let index_of (kv : string * V) :=
    match array_index (fst kv) with Some n => n | None => 0%Z end in
  sort (fun a b => of_Z (index_of a - index_of b)) (List.filter is_index o)
  ++ List.filter (fun kv => negb (is_index kv)) o.

(** The property names every plain object inherits from
    [Object.prototype].  Under such a key [o[k]] reads the inherited
    function (or, for [__proto__], the prototype) where [get] finds
    nothing, and an assignment to [__proto__] does not store: the
    dictionaries above stand for the objects of the services under the
    other keys only, and what is proved of a dictionary is proved for keys
    that are not inherited. *)
Definition prototype_names : list string :=
  [ "constructor"; "hasOwnProperty"; "isPrototypeOf"; "propertyIsEnumerable";
    "toLocaleString"; "toString"; "valueOf"; "__proto__";
    "__defineGetter__"; "__defineSetter__"; "__lookupGetter__";
    "__lookupSetter__" ]%string.

Definition inherited (k : string) : bool :=
  existsb (fun name => (name =? k)%string) prototype_names.

End JS.

(* ================================================================== *)
(** * expense-data.ts, the mock store *)
(* ================================================================== *)

Module ExpenseData.
Import JS.

(** An expense as the store holds it at run time.  The constant field
    [type: "expense"] is left out.  The interface declares [description]
    a string; the search of the API-backed service reads it with [?.],
    so a record may lack it, which is [None] here. *)
Record Expense : Type := {
  id : string;
  amount : Q;
  date : string;
  category : string;
  description : option string
}.

Record ExpenseFilter : Type := {
  startDate : option string;
  endDate : option string;
  filter_category : option string;
  minAmount : option Q;
  maxAmount : option Q;
  searchQuery : option string
}.

Record ExpenseSummary : Type := {
  totalExpenses : number;
  averageExpense : number;
  expenseCount : nat;
  byCategory : obj number;
  byMonth : obj number
}.

(** The comparator of the final sort: most recent first. *)
Definition by_date_desc (a b : Expense) : number :=
  sub (Date_getTime (date b)) (Date_getTime (date a)).

(** The callback of the search filter:
    [e.description.toLowerCase().includes(query) ||
     e.category.toLowerCase().includes(query)]. *)
Definition matches_query (query : string) (e : Expense) : result bool :=
  match description e with
  | None => Throw TypeError
  | Some d =>
      Ok (includes (toLowerCase d) query
          || includes (toLowerCase (category e)) query)
  end.

(** [getExpenses(filter)] over the store [expenses]: a copy of the store,
    narrowed by each field of the filter that is truthy (for the amounts:
    not [undefined]), then sorted.  The result is a rejected promise when
    the search callback throws. *)
Definition getExpenses (expenses : list Expense) (filter : option ExpenseFilter)
  : result (list Expense) :=
  let filtered := expenses in
  bind
    match filter with
    | None => Ok filtered
    | Some filter =>
        let filtered :=
          match truthy_string (startDate filter) with
          | Some startDate => List.filter (fun e => str_ge (date e) startDate) filtered
          | None => filtered
          end in
        let filtered :=
          match truthy_string (endDate filter) with
          | Some endDate => List.filter (fun e => str_le (date e) endDate) filtered
          | None => filtered
          end in
        let filtered :=
          match truthy_string (filter_category filter) with
          | Some c =>
              List.filter
                (fun e => (toLowerCase (category e) =? toLowerCase c)%string) filtered
          | None => filtered
          end in
        let filtered :=
          match minAmount filter with
          | Some m => List.filter (fun e => ge (Fin (amount e)) (Fin m)) filtered
          | None => filtered
          end in
        let filtered :=
          match maxAmount filter with
          | Some m => List.filter (fun e => le (Fin (amount e)) (Fin m)) filtered
          | None => filtered
          end in
        match truthy_string (searchQuery filter) with
        | Some q =>
            let query := toLowerCase q in
            filter_throwing (matches_query query) filtered
        | None => Ok filtered
        end
    end
    (fun filtered => Ok (sort by_date_desc filtered)).

(** The argument of [addExpense]: an expense without its id. *)
Record NewExpense : Type := {
  new_amount : Q;
  new_date : string;
  new_category : string;
  new_description : option string
}.

(** [now] is the reading of [Date.now()]. *)
Definition addExpense (now : Z) (expense : NewExpense) (expenses : list Expense)
  : Expense * list Expense :=
  let newExpense :=
    {| id := String_of_Z now;
       amount := new_amount expense;
       date := new_date expense;
       category := new_category expense;
       description := new_description expense |} in
  (newExpense, expenses ++ [newExpense]).

(** The argument of [updateExpense]: the fields to overwrite.  [Partial]
    lets a key be there with the value [undefined]; for the description
    that is [Some None]. *)
Record ExpenseUpdates : Type := {
  upd_amount : option Q;
  upd_date : option string;
  upd_category : option string;
  upd_description : option (option string)
}.

(** [{ ...e, ...updates }] *)
Definition spread (e : Expense) (updates : ExpenseUpdates) : Expense :=
  {| id := id e;
     amount := match upd_amount updates with Some a => a | None => amount e end;
     date := match upd_date updates with Some d => d | None => date e end;
     category := match upd_category updates with Some c => c | None => category e end;
     description :=
       match upd_description updates with Some d => d | None => description e end |}.

(** [updateExpense(id, updates)]: the updated record or [null], and the
    store afterwards.  [findIndex] returned the index, so the read at it
    finds a record. *)
Definition updateExpense (id0 : string) (updates : ExpenseUpdates)
  (expenses : list Expense) : option Expense * list Expense :=
  let index := findIndex (fun e => (id e =? id0)%string) expenses in
  if (index =? -1)%Z then (None, expenses)
  else
    match JS.index expenses index with
    | Some e =>
        let e' := spread e updates in
        (Some e', set_index expenses index e')
    | None => (None, expenses)
    end.

(** [deleteExpense(id)]: whether a record was removed, and the store
    afterwards. *)
Definition deleteExpense (id0 : string) (expenses : list Expense)
  : bool * list Expense :=
  let index := findIndex (fun e => (id e =? id0)%string) expenses in
  if (index =? -1)%Z then (false, expenses)
  else (true, splice1 expenses index).

(** One pass of [forEach] adding [val x] under [key x]:
    [o[k] = (o[k] || 0) + v], for keys that are not inherited (under an
    inherited key the read is not a number). *)
Definition tally (A : Type) (key : A -> string) (val : A -> number)
  (l : list A) (o : obj number) : obj number :=
  fold_left
    (fun o x => set o (key x) (add (or_zero (get o (key x))) (val x)))
    l o.

(** The body of [getExpenseSummary] once the filtered expenses are there. *)
Definition summarize (filtered : list Expense) : ExpenseSummary :=
  let totalExpenses := reduce_sum (fun e => Fin (amount e)) filtered in
  {| totalExpenses := totalExpenses;
     averageExpense :=
       if (0 <? List.length filtered)%nat
       then div totalExpenses (of_nat (List.length filtered)) else zero;
     expenseCount := List.length filtered;
     byCategory := tally category (fun e => Fin (amount e)) filtered [];
     byMonth :=
       tally (fun e => substring_0_7 (date e)) (fun e => Fin (amount e))
         filtered [] |}.

Definition getExpenseSummary (expenses : list Expense) (filter : option ExpenseFilter)
  : result ExpenseSummary :=
  bind (getExpenses expenses filter) (fun filtered => Ok (summarize filtered)).

(** [ids.includes(id)] *)
Definition includes_id (ids : list string) (id0 : string) : bool :=
  existsb (fun i => (i =? id0)%string) ids.

(** [deleteExpenses(ids)]: the number of records removed, and the store
    afterwards. *)
Definition deleteExpenses (ids : list string) (expenses : list Expense)
  : Z * list Expense :=
  let initialLength := List.length expenses in
  let expenses := List.filter (fun e => negb (includes_id ids (id e))) expenses in
  ((Z.of_nat initialLength - Z.of_nat (List.length expenses))%Z, expenses).

(** [getRecentExpenses(limit)]; the default limit is [5]. *)
Definition getRecentExpenses (limit : option Z) (expenses : list Expense)
  : list Expense :=
  let limit := match limit with Some n => n | None => 5%Z end in
  let sorted := sort by_date_desc expenses in
  slice0 sorted limit.

(** One round of the loop of [getExpensesByDate]:
    [if (!grouped[d]) grouped[d] = []; grouped[d].push(expense)].  After
    the first statement the key is there, so the [push] finds its array. *)
Definition push_by_date (grouped : obj (list Expense)) (expense : Expense)
  : obj (list Expense) :=
  let grouped :=
    match get grouped (date expense) with
    | Some _ => grouped
    | None => set grouped (date expense) []
    end in
  match get grouped (date expense) with
  | Some l => set grouped (date expense) (l ++ [expense])
  | None => grouped
  end.

(** [getExpensesByDate(filter)] *)
Definition getExpensesByDate (expenses : list Expense) (filter : option ExpenseFilter)
  : result (obj (list Expense)) :=
  bind (getExpenses expenses filter) (fun filtered =>
    Ok (fold_left push_by_date filtered [])).

End ExpenseData.

(* ================================================================== *)
(** * expense-data.ts, the API-backed service *)
(* ================================================================== *)

Module ExpenseDataApi.
Import JS.
Import ExpenseData.

(** What [fetch] and [response.json()] delivered. *)
Inductive response : Type :=
| NetworkError
| NotOk
| Json (expenses : list Expense).

Definition matches_query (query : string) (e : Expense) : bool :=
  (match description e with
   | Some d => includes (toLowerCase d) query
   | None => false
   end || false)
  || includes (toLowerCase (category e)) query.

(** [signed_in] tells whether [getUserSession()] returned a user. *)
Definition getExpenses (signed_in : bool) (r : response)
  (filter : option ExpenseFilter) : list Expense :=
  if negb signed_in then []
  else
    try_catch
      match r with
      | NetworkError => Throw TypeError
      | NotOk => Ok []
      | Json expenses =>
          let expenses :=
            match filter with
            | None => expenses
            | Some filter =>
                let expenses :=
                  match truthy_string (startDate filter) with
                  | Some startDate =>
                      List.filter (fun e => str_ge (date e) startDate) expenses
                  | None => expenses
                  end in
                let expenses :=
                  match truthy_string (endDate filter) with
                  | Some endDate =>
                      List.filter (fun e => str_le (date e) endDate) expenses
                  | None => expenses
                  end in
                let expenses :=
                  match truthy_string (filter_category filter) with
                  | Some c =>
                      List.filter
                        (fun e => (toLowerCase (category e) =? toLowerCase c)%string)
                        expenses
                  | None => expenses
                  end in
                let expenses :=
                  match minAmount filter with
                  | Some m => List.filter (fun e => ge (Fin (amount e)) (Fin m)) expenses
                  | None => expenses
                  end in
                let expenses :=
                  match maxAmount filter with
                  | Some m => List.filter (fun e => le (Fin (amount e)) (Fin m)) expenses
                  | None => expenses
                  end in
                match truthy_string (searchQuery filter) with
                | Some q =>
                    let query := toLowerCase q in
                    List.filter (matches_query query) expenses
                | None => expenses
                end
            end in
          Ok (sort by_date_desc expenses)
      end
      [].

(** [getExpenseSummary(filter)], [getRecentExpenses(limit)] and
    [getExpensesByDate(filter)] of the API-backed service: the bodies of
    the mock store over the fetched expenses. *)
Definition getExpenseSummary (signed_in : bool) (r : response)
  (filter : option ExpenseFilter) : ExpenseSummary :=
  summarize (getExpenses signed_in r filter).

Definition getRecentExpenses (signed_in : bool) (r : response) (limit : option Z)
  : list Expense :=
  let limit := match limit with Some n => n | None => 5%Z end in
  slice0 (getExpenses signed_in r None) limit.

Definition getExpensesByDate (signed_in : bool) (r : response)
  (filter : option ExpenseFilter) : obj (list Expense) :=
  fold_left push_by_date (getExpenses signed_in r filter) [].

End ExpenseDataApi.

(* ================================================================== *)
(** * income-data.ts *)
(* ================================================================== *)

Module IncomeData.
Import JS.

Inductive Source : Type := Salary | Freelance | Investments | Other.

Definition source_name (s : Source) : string :=
  match s with
  | Salary => "Salary"
  | Freelance => "Freelance"
  | Investments => "Investments"
  | Other => "Other"
  end.

Record Income : Type := {
  id : string;
  amount : Q;
  date : string;
  source : Source;
  description : string
}.

Record IncomeFilter : Type := {
  startDate : option string;
  endDate : option string;
  filter_source : option string;
  minAmount : option Q;
  maxAmount : option Q
}.

Record IncomeSummary : Type := {
  totalIncome : number;
  averageIncome : number;
  incomeCount : nat;
  bySource : obj number;
  byMonth : obj number
}.

Definition by_date_desc (a b : Income) : number :=
  sub (Date_getTime (date b)) (Date_getTime (date a)).

(** [getIncome(filter)] over the store [incomeData]; no callback of it
    can throw. *)
Definition getIncome (incomeData : list Income) (filter : option IncomeFilter)
  : list Income :=
  let filtered := incomeData in
  let filtered :=
    match filter with
    | None => filtered
    | Some filter =>
        let filtered :=
          match truthy_string (startDate filter) with
          | Some startDate => List.filter (fun i => str_ge (date i) startDate) filtered
          | None => filtered
          end in
        let filtered :=
          match truthy_string (endDate filter) with
          | Some endDate => List.filter (fun i => str_le (date i) endDate) filtered
          | None => filtered
          end in
        let filtered :=
          match truthy_string (filter_source filter) with
          | Some s =>
              List.filter
                (fun i => (toLowerCase (source_name (source i)) =? toLowerCase s)%string)
                filtered
          | None => filtered
          end in
        let filtered :=
          match minAmount filter with
          | Some m => List.filter (fun i => ge (Fin (amount i)) (Fin m)) filtered
          | None => filtered
          end in
        match maxAmount filter with
        | Some m => List.filter (fun i => le (Fin (amount i)) (Fin m)) filtered
        | None => filtered
        end
    end in
  sort by_date_desc filtered.

Record NewIncome : Type := {
  new_amount : Q;
  new_date : string;
  new_source : Source;
  new_description : string
}.

Definition addIncome (now : Z) (income : NewIncome) (incomeData : list Income)
  : Income * list Income :=
  let newIncome :=
    {| id := String_of_Z now;
       amount := new_amount income;
       date := new_date income;
       source := new_source income;
       description := new_description income |} in
  (newIncome, incomeData ++ [newIncome]).

Record IncomeUpdates : Type := {
  upd_amount : option Q;
  upd_date : option string;
  upd_source : option Source;
  upd_description : option string
}.

Definition spread (i : Income) (updates : IncomeUpdates) : Income :=
  {| id := id i;
     amount := match upd_amount updates with Some a => a | None => amount i end;
     date := match upd_date updates with Some d => d | None => date i end;
     source := match upd_source updates with Some s => s | None => source i end;
     description :=
       match upd_description updates with Some d => d | None => description i end |}.

Definition updateIncome (id0 : string) (updates : IncomeUpdates)
  (incomeData : list Income) : option Income * list Income :=
  let index := findIndex (fun i => (id i =? id0)%string) incomeData in
  if (index =? -1)%Z then (None, incomeData)
  else
    match JS.index incomeData index with
    | Some i =>
        let i' := spread i updates in
        (Some i', set_index incomeData index i')
    | None => (None, incomeData)
    end.

Definition deleteIncome (id0 : string) (incomeData : list Income)
  : bool * list Income :=
  let index := findIndex (fun i => (id i =? id0)%string) incomeData in
  if (index =? -1)%Z then (false, incomeData)
  else (true, splice1 incomeData index).

(** The body of [getIncomeSummary] once the filtered income is there. *)
Definition summarize (filtered : list Income) : IncomeSummary :=
  let totalIncome := reduce_sum (fun i => Fin (amount i)) filtered in
  {| totalIncome := totalIncome;
     averageIncome :=
       if (0 <? List.length filtered)%nat
       then div totalIncome (of_nat (List.length filtered)) else zero;
     incomeCount := List.length filtered;
     bySource :=
       ExpenseData.tally (fun i => source_name (source i)) (fun i => Fin (amount i))
         filtered [];
     byMonth :=
       ExpenseData.tally (fun i => substring_0_7 (date i)) (fun i => Fin (amount i))
         filtered [] |}.

Definition getIncomeSummary (incomeData : list Income) (filter : option IncomeFilter)
  : IncomeSummary :=
  summarize (getIncome incomeData filter).

(** [getRecentIncome(limit)]; the default limit is [5]. *)
Definition getRecentIncome (limit : option Z) (incomeData : list Income)
  : list Income :=
  let limit := match limit with Some n => n | None => 5%Z end in
  let sorted := sort by_date_desc incomeData in
  slice0 sorted limit.

End IncomeData.

(* ================================================================== *)
(** * analytics-data.ts *)
(* ================================================================== *)

Module Analytics.
Import JS.

Record BalanceSummary : Type := {
  totalIncome : number;
  totalExpenses : number;
  balance : number;
  savingsRate : number
}.

Record SpendingByCategory : Type := {
  category : string;
  amount : number;
  percentage : number;
  color : string
}.

Record TrendDataPoint : Type := {
  date : string;
  income : number;
  expenses : number;
  trend_balance : number
}.

Record TopCategory : Type := {
  name : string;
  top_amount : number
}.

Record MonthlyBreakdown : Type := {
  month : string;
  month_income : number;
  month_expenses : number;
  savings : number;
  topCategories : list TopCategory
}.

Definition categoryColors : obj string :=
  [ ("Groceries", "#10b981"); ("Rent", "#6366f1"); ("Transportation", "#f59e0b");
    ("Utilities", "#8b5cf6"); ("Entertainment", "#ec4899"); ("Dining", "#f97316");
    ("Healthcare", "#ef4444"); ("Shopping", "#06b6d4"); ("Subscriptions", "#84cc16") ]%string.

Definition hundred : number := Fin 100.

(** [getBalanceSummary(expenseFilter, incomeFilter)] *)
Definition getBalanceSummary
  (expenses : list ExpenseData.Expense) (incomeData : list IncomeData.Income)
  (expenseFilter : option ExpenseData.ExpenseFilter)
  (incomeFilter : option IncomeData.IncomeFilter) : result BalanceSummary :=
  bind (ExpenseData.getExpenseSummary expenses expenseFilter) (fun expenseSummary =>
    let incomeSummary := IncomeData.getIncomeSummary incomeData incomeFilter in
    let balance :=
      sub (IncomeData.totalIncome incomeSummary)
          (ExpenseData.totalExpenses expenseSummary) in
    let savingsRate :=
      if gt (IncomeData.totalIncome incomeSummary) zero
      then mul (div (sub (IncomeData.totalIncome incomeSummary)
                         (ExpenseData.totalExpenses expenseSummary))
                    (IncomeData.totalIncome incomeSummary))
               hundred
      else zero in
    Ok {| totalIncome := IncomeData.totalIncome incomeSummary;
          totalExpenses := ExpenseData.totalExpenses expenseSummary;
          balance := balance;
          savingsRate := savingsRate |}).

(** The comparator [(a, b) => b.amount - a.amount]. *)
Definition by_amount_desc (a b : SpendingByCategory) : number :=
  sub (amount b) (amount a).

(** [getSpendingByCategory(filter)] *)
Definition getSpendingByCategory
  (expenses : list ExpenseData.Expense) (filter : option ExpenseData.ExpenseFilter)
  : result (list SpendingByCategory) :=
  bind (ExpenseData.getExpenseSummary expenses filter) (fun summary =>
    let total := ExpenseData.totalExpenses summary in
    Ok (sort by_amount_desc
          (map (fun '(category, amount) =>
                  {| category := category;
                     amount := amount;
                     percentage :=
                       if gt total zero then mul (div amount total) hundred else zero;
                     color :=
                       match truthy_string (get categoryColors category) with
                       | Some c => c
                       | None => "#64748b"%string
                       end |})
               (entries (ExpenseData.byCategory summary))))).

(** The filter of [getSpendingTrends]: an object read both as an expense
    filter and as an income filter. *)
Record TrendFilter : Type := {
  startDate : option string;
  endDate : option string;
  filter_category : option string;
  filter_source : option string;
  minAmount : option Q;
  maxAmount : option Q;
  searchQuery : option string
}.

Definition as_ExpenseFilter (f : TrendFilter) : ExpenseData.ExpenseFilter :=
  {| ExpenseData.startDate := startDate f;
     ExpenseData.endDate := endDate f;
     ExpenseData.filter_category := filter_category f;
     ExpenseData.minAmount := minAmount f;
     ExpenseData.maxAmount := maxAmount f;
     ExpenseData.searchQuery := searchQuery f |}.

Definition as_IncomeFilter (f : TrendFilter) : IncomeData.IncomeFilter :=
  {| IncomeData.startDate := startDate f;
     IncomeData.endDate := endDate f;
     IncomeData.filter_source := filter_source f;
     IncomeData.minAmount := minAmount f;
     IncomeData.maxAmount := maxAmount f |}.

(** A value of [dataByDate]. *)
Record DayData : Type := {
  day_income : number;
  day_expenses : number
}.

(** [if (!o[k]) o[k] = fresh], for a key that is not inherited (an
    inherited key reads as truthy and gets no entry). *)
Definition ensure (V : Type) (o : obj V) (k : string) (fresh : V) : obj V :=
  match get o k with
  | Some _ => o
  | None => set o k fresh
  end.

(** [o[k] = f(o[k])] for a key that is there. *)
Definition modify (V : Type) (o : obj V) (k : string) (f : V -> V) : obj V :=
  match get o k with
  | Some v => set o k (f v)
  | None => o
  end.

Definition add_day_expense (dataByDate : obj DayData) (e : ExpenseData.Expense)
  : obj DayData :=
  let dataByDate :=
    ensure dataByDate (ExpenseData.date e) {| day_income := zero; day_expenses := zero |} in
  modify dataByDate (ExpenseData.date e)
    (fun d => {| day_income := day_income d;
                 day_expenses := add (day_expenses d) (Fin (ExpenseData.amount e)) |}).

Definition add_day_income (dataByDate : obj DayData) (i : IncomeData.Income)
  : obj DayData :=
  let dataByDate :=
    ensure dataByDate (IncomeData.date i) {| day_income := zero; day_expenses := zero |} in
  modify dataByDate (IncomeData.date i)
    (fun d => {| day_income := add (day_income d) (Fin (IncomeData.amount i));
                 day_expenses := day_expenses d |}).

Definition by_date_asc (a b : TrendDataPoint) : number :=
  localeCompare (date a) (date b).

(** [getSpendingTrends(filter)] *)
Definition getSpendingTrends
  (expenses : list ExpenseData.Expense) (incomeData : list IncomeData.Income)
  (filter : option TrendFilter) : result (list TrendDataPoint) :=
  bind (ExpenseData.getExpenses expenses (option_map as_ExpenseFilter filter))
    (fun expenses =>
    let income := IncomeData.getIncome incomeData (option_map as_IncomeFilter filter) in
    let dataByDate : obj DayData := [] in
    let dataByDate := fold_left add_day_expense expenses dataByDate in
    let dataByDate := fold_left add_day_income income dataByDate in
    Ok (sort by_date_asc
          (map (fun '(date, data) =>
                  {| date := date;
                     income := day_income data;
                     expenses := day_expenses data;
                     trend_balance := sub (day_income data) (day_expenses data) |})
               (entries dataByDate)))).

(** An entry of [getDailySpending]. *)
Record DailySpending : Type := {
  day : number;
  day_amount : number
}.

(** [parseInt(e.date.split("-")[2])] *)
Definition day_of (e : ExpenseData.Expense) : option Z :=
  parseInt (nth_error (split_on "-" (ExpenseData.date e)) 2).

(** The comparator [(a, b) => a.day - b.day]. *)
Definition by_day_asc (a b : DailySpending) : number :=
  sub (day a) (day b).

(** [getDailySpending(year, month)], for integers [year] and [month]. *)
Definition getDailySpending (expenses : list ExpenseData.Expense) (year month : Z)
  : result (list DailySpending) :=
  let startDate :=
    (String_of_Z year ++ "-" ++ padStart (String_of_Z month) 2 "0" ++ "-01")%string in
  let endDate :=
    (String_of_Z year ++ "-" ++ padStart (String_of_Z month) 2 "0" ++ "-31")%string in
  bind
    (ExpenseData.getExpenses expenses
       (Some {| ExpenseData.startDate := Some startDate;
                ExpenseData.endDate := Some endDate;
                ExpenseData.filter_category := None;
                ExpenseData.minAmount := None;
                ExpenseData.maxAmount := None;
                ExpenseData.searchQuery := None |}))
    (fun expenses =>
    let dailyData : obj number :=
      ExpenseData.tally (fun e => key_of_int (day_of e))
        (fun e => Fin (ExpenseData.amount e)) expenses [] in
    Ok (sort by_day_asc
          (map (fun '(day, amount) =>
                  {| day := number_of_int (parseInt (Some day));
                     day_amount := amount |})
               (own_entries dailyData)))).

(** A value of [dataByMonth]. *)
Record MonthData : Type := {
  m_income : number;
  m_expenses : number;
  m_categories : obj number
}.

Definition fresh_month : MonthData :=
  {| m_income := zero; m_expenses := zero; m_categories := [] |}.

Definition add_month_expense (dataByMonth : obj MonthData) (e : ExpenseData.Expense)
  : obj MonthData :=
  let month := substring_0_7 (ExpenseData.date e) in
  let dataByMonth := ensure dataByMonth month fresh_month in
  let dataByMonth :=
    modify dataByMonth month
      (fun d => {| m_income := m_income d;
                   m_expenses := add (m_expenses d) (Fin (ExpenseData.amount e));
                   m_categories := m_categories d |}) in
  modify dataByMonth month
    (fun d => {| m_income := m_income d;
                 m_expenses := m_expenses d;
                 m_categories :=
                   set (m_categories d) (ExpenseData.category e)
                     (add (or_zero (get (m_categories d) (ExpenseData.category e)))
                          (Fin (ExpenseData.amount e))) |}).

Definition add_month_income (dataByMonth : obj MonthData) (i : IncomeData.Income)
  : obj MonthData :=
  let month := substring_0_7 (IncomeData.date i) in
  let dataByMonth := ensure dataByMonth month fresh_month in
  modify dataByMonth month
    (fun d => {| m_income := add (m_income d) (Fin (IncomeData.amount i));
                 m_expenses := m_expenses d;
                 m_categories := m_categories d |}).

Definition by_top_amount_desc (a b : TopCategory) : number :=
  sub (top_amount b) (top_amount a).

Definition by_month_desc (a b : MonthlyBreakdown) : number :=
  localeCompare (month b) (month a).

(** [months] is the argument when given; the default is [6]. *)
Definition getMonthlyBreakdown
  (expenses : list ExpenseData.Expense) (incomeData : list IncomeData.Income)
  (months : option Z) : result (list MonthlyBreakdown) :=
  let months := match months with Some n => n | None => 6%Z end in
  bind (ExpenseData.getExpenses expenses None) (fun expenses =>
    let income := IncomeData.getIncome incomeData None in
    let dataByMonth : obj MonthData := [] in
    let dataByMonth := fold_left add_month_expense expenses dataByMonth in
    let dataByMonth := fold_left add_month_income income dataByMonth in
    Ok (slice0
          (sort by_month_desc
             (map (fun '(month, data) =>
                     {| month := month;
                        month_income := m_income data;
                        month_expenses := m_expenses data;
                        savings := sub (m_income data) (m_expenses data);
                        topCategories :=
                          slice0
                            (sort by_top_amount_desc
                               (map (fun '(name, amount) =>
                                       {| name := name; top_amount := amount |})
                                    (entries (m_categories data))))
                            3 |})
                  (entries dataByMonth)))
          months)).

End Analytics.

(* ================================================================== *)
(** * daily-transactions.tsx: the day sections *)
(* ================================================================== *)

Module DailyTransactions.
Import JS.

(** [groupByDate(expenses)]; the loop is the one of [getExpensesByDate]. *)
Definition groupByDate (expenses : list ExpenseData.Expense)
  : obj (list ExpenseData.Expense) :=
  fold_left ExpenseData.push_by_date expenses [].

(** The comparator [(a, b) => new Date(b).getTime() - new Date(a).getTime()]. *)
Definition by_time_desc (a b : string) : number :=
  sub (Date_getTime b) (Date_getTime a).

(** [Object.keys(groupedExpenses).sort(...)] *)
Definition sortedDates (groupedExpenses : obj (list ExpenseData.Expense))
  : list string :=
  sort by_time_desc (map fst (own_entries groupedExpenses)).

(** [dayExpenses.reduce((sum, e) => sum + e.amount, 0)] *)
Definition dayTotal (dayExpenses : list ExpenseData.Expense) : number :=
  reduce_sum (fun e => Fin (ExpenseData.amount e)) dayExpenses.

End DailyTransactions.

(* ================================================================== *)
(** * Records of the mock stores, for the examples *)
(* ================================================================== *)

Module Samples.
Import JS.
Local Open Scope string_scope.

Definition expense (id0 : string) (a : Q) (d c text : string) : ExpenseData.Expense :=
  {| ExpenseData.id := id0; ExpenseData.amount := a; ExpenseData.date := d;
     ExpenseData.category := c; ExpenseData.description := Some text |}.

Definition rent := expense "1" 1200 "2026-02-01" "Rent" "Monthly apartment rent".
Definition groceries := expense "2" (171 # 2) "2026-02-02" "Groceries" "Weekly grocery shopping".
Definition uber := expense "3" 45 "2026-02-03" "Transportation" "Uber rides".
Definition electricity := expense "4" 120 "2026-02-03" "Utilities" "Electricity bill".
Definition jacket := expense "15" 180 "2026-01-25" "Shopping" "Winter jacket".

Definition expenses : list ExpenseData.Expense :=
  [rent; groceries; uber; electricity; jacket].

Definition income (id0 : string) (a : Q) (d : string) (s : IncomeData.Source)
  (text : string) : IncomeData.Income :=
  {| IncomeData.id := id0; IncomeData.amount := a; IncomeData.date := d;
     IncomeData.source := s; IncomeData.description := text |}.

Definition salary := income "1" 5500 "2026-02-01" IncomeData.Salary "Monthly salary".
Definition freelance := income "2" 800 "2026-02-05" IncomeData.Freelance "Web development project".
Definition december_salary := income "7" 5500 "2025-12-01" IncomeData.Salary "Monthly salary".

Definition incomeData : list IncomeData.Income :=
  [salary; freelance; december_salary].

(** [{ category: c }] *)
Definition only_category (c : string) : ExpenseData.ExpenseFilter :=
  {| ExpenseData.startDate := None; ExpenseData.endDate := None;
     ExpenseData.filter_category := Some c; ExpenseData.minAmount := None;
     ExpenseData.maxAmount := None; ExpenseData.searchQuery := None |}.

(** [{ searchQuery: q }] *)
Definition only_search (q : string) : ExpenseData.ExpenseFilter :=
  {| ExpenseData.startDate := None; ExpenseData.endDate := None;
     ExpenseData.filter_category := None; ExpenseData.minAmount := None;
     ExpenseData.maxAmount := None; ExpenseData.searchQuery := Some q |}.

(** [{ startDate: "2026-02-01", minAmount: 100, searchQuery: "RENT" }] *)
Definition february_large : ExpenseData.ExpenseFilter :=
  {| ExpenseData.startDate := Some "2026-02-01"; ExpenseData.endDate := None;
     ExpenseData.filter_category := None; ExpenseData.minAmount := Some 100%Q;
     ExpenseData.maxAmount := None; ExpenseData.searchQuery := Some "RENT" |}.

(** [{ description: undefined }] *)
Definition drop_description : ExpenseData.ExpenseUpdates :=
  {| ExpenseData.upd_amount := None; ExpenseData.upd_date := None;
     ExpenseData.upd_category := None; ExpenseData.upd_description := Some None |}.

(** The store after [updateExpense("1", { description: undefined })]. *)
Definition after_dropping_description : list ExpenseData.Expense :=
  snd (ExpenseData.updateExpense "1" drop_description [rent]).

(** The argument of an [addExpense]. *)
Definition coffee : ExpenseData.NewExpense :=
  {| ExpenseData.new_amount := 4; ExpenseData.new_date := "2026-02-09";
     ExpenseData.new_category := "Dining"; ExpenseData.new_description := Some "Coffee" |}.

Definition tea : ExpenseData.NewExpense :=
  {| ExpenseData.new_amount := 3; ExpenseData.new_date := "2026-02-09";
     ExpenseData.new_category := "Dining"; ExpenseData.new_description := Some "Tea" |}.

End Samples.

(* ================================================================== *)
(** * What the specification says of filters and records *)
(* ================================================================== *)

Module FilterSpec.
Import JS.

(** The description of a record, a missing one read as the empty string. *)
Definition description_text (e : ExpenseData.Expense) : string :=
  match ExpenseData.description e with
  | Some d => d
  | None => EmptyString
  end.

(** The constraint a text field of a filter imposes; [None] imposes none. *)
Definition text_constraint (field : option string) (holds : string -> bool) : bool :=
  match field with
  | Some s => holds s
  | None => true
  end.

Definition amount_constraint (field : option Q) (holds : Q -> bool) : bool :=
  match field with
  | Some m => holds m
  | None => true
  end.

(** The conjunction an expense filter stands for: dates as inclusive
    bounds in the order of the strings, the category equal up to case,
    amounts as inclusive bounds, the query a substring, up to case, of
    the description or of the category.  [given] tells which text fields
    count as given. *)
Definition conjunction (given : option string -> option string)
  (filter : option ExpenseData.ExpenseFilter) (e : ExpenseData.Expense) : bool :=
  match filter with
  | None => true
  | Some f =>
      text_constraint (given (ExpenseData.startDate f))
        (fun s => String.leb s (ExpenseData.date e))
      && text_constraint (given (ExpenseData.endDate f))
           (fun s => String.leb (ExpenseData.date e) s)
      && text_constraint (given (ExpenseData.filter_category f))
           (fun c => (toLowerCase (ExpenseData.category e) =? toLowerCase c)%string)
      && amount_constraint (ExpenseData.minAmount f)
           (fun m => Qle_bool m (ExpenseData.amount e))
      && amount_constraint (ExpenseData.maxAmount f)
           (fun m => Qle_bool (ExpenseData.amount e) m)
      && text_constraint (given (ExpenseData.searchQuery f))
           (fun q => includes (toLowerCase (description_text e)) (toLowerCase q)
                     || includes (toLowerCase (ExpenseData.category e)) (toLowerCase q))
  end.

(** Every field of the filter that is there counts. *)
Definition satisfies_present := conjunction (fun field => field).

(** A text field counts when it is there and not the empty string. *)
Definition satisfies := conjunction truthy_string.

(** The same for income: dates, source and amounts. *)
Definition income_satisfies
  (filter : option IncomeData.IncomeFilter) (i : IncomeData.Income) : bool :=
  match filter with
  | None => true
  | Some f =>
      text_constraint (truthy_string (IncomeData.startDate f))
        (fun s => String.leb s (IncomeData.date i))
      && text_constraint (truthy_string (IncomeData.endDate f))
           (fun s => String.leb (IncomeData.date i) s)
      && text_constraint (truthy_string (IncomeData.filter_source f))
           (fun c => (toLowerCase (IncomeData.source_name (IncomeData.source i))
                      =? toLowerCase c)%string)
      && amount_constraint (IncomeData.minAmount f)
           (fun m => Qle_bool m (IncomeData.amount i))
      && amount_constraint (IncomeData.maxAmount f)
           (fun m => Qle_bool (IncomeData.amount i) m)
  end.

(** An expense that has its description. *)
Definition described (e : ExpenseData.Expense) : Prop :=
  ExpenseData.description e <> None.

(** A fully populated expense: a calendar date and a description. *)
Definition expense_ok (e : ExpenseData.Expense) : Prop :=
  is_iso_date (ExpenseData.date e) = true /\ described e.

Definition income_ok (i : IncomeData.Income) : Prop :=
  is_iso_date (IncomeData.date i) = true.

(** An expense with a calendar date. *)
Definition expense_dated (e : ExpenseData.Expense) : Prop :=
  is_iso_date (ExpenseData.date e) = true.

(** Most recent first, in the order of the date strings. *)
Definition expenses_descending (l : list ExpenseData.Expense) : Prop :=
  StronglySorted
    (fun a b => String.leb (ExpenseData.date b) (ExpenseData.date a) = true) l.

(** The records of one date, in the order of the list. *)
Definition on_date (d : string) (l : list ExpenseData.Expense)
  : list ExpenseData.Expense :=
  List.filter (fun e => (ExpenseData.date e =? d)%string) l.

End FilterSpec.

(* ================================================================== *)
(** * What the specification says of sums *)
(* ================================================================== *)

Module AggregateSpec.
Import JS.

(** The sum of a list of amounts. *)
Definition sumQ (l : list Q) : Q := fold_right Qplus 0 l.

(** The number [n] is finite and has the value [q]. *)
Definition num_is (n : number) (q : Q) : Prop :=
  match n with
  | Fin x => x == q
  | _ => False
  end.

(** The sum of [val] over the elements of [l] whose key is [k]. *)
Definition group_sum (A : Type) (key : A -> string) (val : A -> Q)
  (k : string) (l : list A) : Q :=
  sumQ (map val (List.filter (fun x => (key x =? k)%string) l)).

(** The keys of a dictionary, in its order. *)
Definition keys (V : Type) (o : obj V) : list string := map fst o.

(** The value of a finite number. *)
Definition value (n : number) : Q :=
  match n with
  | Fin q => q
  | _ => 0
  end.

(** The sum of the finite values of a dictionary. *)
Definition obj_sum (o : obj number) : Q :=
  sumQ (map (fun kv => value (snd kv)) o).

(** Every value of the dictionary is finite. *)
Definition obj_finite (o : obj number) : Prop :=
  Forall (fun kv => is_finite (snd kv) = true) o.

(** The sum of the amounts of the expenses, and of the income, that a
    filter keeps. *)
Definition expense_total (expenses : list ExpenseData.Expense)
  (filter : option ExpenseData.ExpenseFilter) : Q :=
  sumQ (map ExpenseData.amount (List.filter (FilterSpec.satisfies filter) expenses)).

Definition income_total (incomeData : list IncomeData.Income)
  (filter : option IncomeData.IncomeFilter) : Q :=
  sumQ (map IncomeData.amount
          (List.filter (FilterSpec.income_satisfies filter) incomeData)).

(** The summary of no record. *)
Definition empty_expense_summary : ExpenseData.ExpenseSummary :=
  {| ExpenseData.totalExpenses := Fin 0;
     ExpenseData.averageExpense := Fin 0;
     ExpenseData.expenseCount := 0;
     ExpenseData.byCategory := [];
     ExpenseData.byMonth := [] |}.

Definition empty_income_summary : IncomeData.IncomeSummary :=
  {| IncomeData.totalIncome := Fin 0;
     IncomeData.averageIncome := Fin 0;
     IncomeData.incomeCount := 0;
     IncomeData.bySource := [];
     IncomeData.byMonth := [] |}.

(** The month of a date: its first seven characters. *)
Definition month_of (d : string) : string := substring_0_7 d.

(** What [dataByDate] holds after reading the expenses [es] and the
    income [ys]: one key for each of their dates, and under it the sums of
    the amounts of that date. *)
Definition day_table (es : list ExpenseData.Expense) (ys : list IncomeData.Income)
  (o : obj Analytics.DayData) : Prop :=
  NoDup (keys o)
  /\ (forall k, In k (keys o) <->
                In k (map ExpenseData.date es) \/ In k (map IncomeData.date ys))
  /\ (forall k d, get o k = Some d ->
        num_is (Analytics.day_expenses d)
          (group_sum ExpenseData.date ExpenseData.amount k es)
        /\ num_is (Analytics.day_income d)
             (group_sum IncomeData.date IncomeData.amount k ys)).

(** A point of the trend of the expenses [es] and the income [ys]: the
    sums of the amounts of its date, and their difference. *)
Definition trend_point (es : list ExpenseData.Expense) (ys : list IncomeData.Income)
  (p : Analytics.TrendDataPoint) : Prop :=
  num_is (Analytics.income p)
    (group_sum IncomeData.date IncomeData.amount (Analytics.date p) ys)
  /\ num_is (Analytics.expenses p)
       (group_sum ExpenseData.date ExpenseData.amount (Analytics.date p) es)
  /\ Analytics.trend_balance p = sub (Analytics.income p) (Analytics.expenses p).

(** Strictly ascending, and strictly descending, in the order of the
    keys. *)
Definition ascending (A : Type) (key : A -> string) (l : list A) : Prop :=
  StronglySorted (fun a b => String.ltb (key a) (key b) = true) l.

Definition descending (A : Type) (key : A -> string) (l : list A) : Prop :=
  StronglySorted (fun a b => String.ltb (key b) (key a) = true) l.

(** What a tally holds after reading [p]: one key for each key of [p],
    and under it the sum of the values of that key. *)
Definition tallied (A : Type) (key : A -> string) (val : A -> Q)
  (p : list A) (o : obj number) : Prop :=
  NoDup (keys o)
  /\ (forall k, In k (keys o) <-> In k (map key p))
  /\ (forall k n, get o k = Some n -> num_is n (group_sum key val k p)).

Definition expense_month (e : ExpenseData.Expense) : string :=
  month_of (ExpenseData.date e).

Definition income_month (i : IncomeData.Income) : string :=
  month_of (IncomeData.date i).

(** The expenses of the month [m]. *)
Definition in_month (m : string) (es : list ExpenseData.Expense)
  : list ExpenseData.Expense :=
  List.filter (fun e => (expense_month e =? m)%string) es.

(** What [dataByMonth] holds after reading the expenses [es] and the
    income [ys]: one key for each of their months, and under it the sums
    of the amounts of that month and the tally of its expenses by
    category. *)
Definition month_table (es : list ExpenseData.Expense) (ys : list IncomeData.Income)
  (o : obj Analytics.MonthData) : Prop :=
  NoDup (keys o)
  /\ (forall k, In k (keys o) <->
                In k (map expense_month es) \/ In k (map income_month ys))
  /\ (forall k d, get o k = Some d ->
        num_is (Analytics.m_expenses d) (group_sum expense_month ExpenseData.amount k es)
        /\ num_is (Analytics.m_income d) (group_sum income_month IncomeData.amount k ys)
        /\ tallied ExpenseData.category ExpenseData.amount (in_month k es)
             (Analytics.m_categories d)).



(** The count [getMonthlyBreakdown] is asked for; [6] when none is given. *)
Definition requested (months : option Z) : Z :=
  match months with
  | Some n => n
  | None => 6%Z
  end.

(** A key that a plain object does not inherit: under it the object
    holds what was stored under it, and nothing before that. *)
Definition plain_key (k : string) : Prop := inherited k = false.

(** Records whose categories, months and dates are such keys. *)
Definition plain_categories (es : list ExpenseData.Expense) : Prop :=
  Forall (fun e => plain_key (ExpenseData.category e)) es.

Definition plain_expense_months (es : list ExpenseData.Expense) : Prop :=
  Forall (fun e => plain_key (expense_month e)) es.

Definition plain_income_months (ys : list IncomeData.Income) : Prop :=
  Forall (fun i => plain_key (income_month i)) ys.

Definition plain_expense_dates (es : list ExpenseData.Expense) : Prop :=
  Forall (fun e => plain_key (ExpenseData.date e)) es.

Definition plain_income_dates (ys : list IncomeData.Income) : Prop :=
  Forall (fun i => plain_key (IncomeData.date i)) ys.

End AggregateSpec.

(* ================================================================== *)
(** * What the further properties speak of *)
(* ================================================================== *)

Module StoreSpec.
Import JS.

(** Calls of [addExpense] one after the other, each with the clock
    reading it gets. *)
Definition add_each (calls : list (Z * ExpenseData.NewExpense))
  (expenses : list ExpenseData.Expense) : list ExpenseData.Expense :=
  fold_left (fun stored call => snd (ExpenseData.addExpense (fst call) (snd call) stored))
    calls expenses.

(** [deleteExpense] for each id in turn, counting the calls that return
    [true]. *)
Definition delete_each (ids : list string) (expenses : list ExpenseData.Expense)
  : Z * list ExpenseData.Expense :=
  fold_left
    (fun '(n, stored) id0 =>
       let (removed, stored) := ExpenseData.deleteExpense id0 stored in
       ((if removed then n + 1 else n)%Z, stored))
    ids (0%Z, expenses).

End StoreSpec.

Module RecentSpec.
Import JS.

(** The limit [getRecentExpenses] and [getRecentIncome] work with; [5]
    when none is given. *)
Definition limit_of (limit : option Z) : Z :=
  match limit with
  | Some n => n
  | None => 5%Z
  end.

(** [out] holds the [n] latest of [l], or all of [l] when there are fewer:
    most recent first, and no record left out is later than one of
    [out]. *)
Definition latest (A : Type) (date : A -> string) (n : Z) (l out : list A) : Prop :=
  List.length out = Nat.min (Z.to_nat n) (List.length l)
  /\ StronglySorted (fun a b => String.leb (date b) (date a) = true) out
  /\ exists rest,
       Permutation (out ++ rest) l
       /\ forall x y, In x out -> In y rest -> String.leb (date y) (date x) = true.

End RecentSpec.

Module GroupSpec.
Import JS.
Import AggregateSpec.

(** What the loop of [getExpensesByDate] holds after reading [p]: one key
    for each date of [p], and under it the records of that date in the
    order of [p]. *)
Definition grouped_by_date (p : list ExpenseData.Expense)
  (o : obj (list ExpenseData.Expense)) : Prop :=
  NoDup (keys o)
  /\ (forall k, In k (keys o) <-> In k (map ExpenseData.date p))
  /\ (forall k l, get o k = Some l -> l = FilterSpec.on_date k p /\ l <> []).

(** The groups one after the other. *)
Definition flatten (o : obj (list ExpenseData.Expense)) : list ExpenseData.Expense :=
  List.concat (map snd o).

(** The groups of a list that is sorted by date are its runs: laid end to
    end they are the list, and their keys are strictly descending. *)
Definition runs_by_date (p : list ExpenseData.Expense)
  (o : obj (list ExpenseData.Expense)) : Prop :=
  flatten o = p
  /\ Forall (fun kv => snd kv <> []
                       /\ Forall (fun e => ExpenseData.date e = fst kv) (snd kv)) o
  /\ StronglySorted (fun a b => String.ltb (fst b) (fst a) = true) o.

End GroupSpec.

Module DailySpec.
Import JS.

(** The expense is dated the day [d] of the month [month] of [year]. *)
Definition on_day (year month d : Z) (e : ExpenseData.Expense) : bool :=
  match parse_date (ExpenseData.date e) with
  | Some (y, m, d') => ((y =? year) && (m =? month) && (d' =? d))%Z
  | None => false
  end.

(** An entry of [getDailySpending] for the expenses of a month: a day on
    which there is an expense, with the sum of the amounts of that day. *)
Definition day_entry (expenses : list ExpenseData.Expense) (year month : Z)
  (entry : Analytics.DailySpending) : Prop :=
  exists d,
    (1 <= d <= 31)%Z
    /\ Analytics.day entry = of_Z d
    /\ (exists e, In e expenses /\ on_day year month d e = true)
    /\ AggregateSpec.num_is (Analytics.day_amount entry)
         (AggregateSpec.sumQ
            (map ExpenseData.amount (List.filter (on_day year month d) expenses))).

(** The filter [getDailySpending] passes to [getExpenses]. *)
Definition month_filter (year month : Z) : ExpenseData.ExpenseFilter :=
  {| ExpenseData.startDate :=
       Some (String_of_Z year ++ "-" ++ padStart (String_of_Z month) 2 "0" ++ "-01")%string;
     ExpenseData.endDate :=
       Some (String_of_Z year ++ "-" ++ padStart (String_of_Z month) 2 "0" ++ "-31")%string;
     ExpenseData.filter_category := None;
     ExpenseData.minAmount := None;
     ExpenseData.maxAmount := None;
     ExpenseData.searchQuery := None |}.

(** The decimal digit [k], in front of the digits [l], and as a
    character. *)
Definition digit_uint (k : Z) (l : uint) : uint :=
  match k with
  | 0 => D0 l | 1 => D1 l | 2 => D2 l | 3 => D3 l | 4 => D4 l
  | 5 => D5 l | 6 => D6 l | 7 => D7 l | 8 => D8 l | _ => D9 l
  end%Z.

Definition digit_char (k : Z) : ascii :=
  match k with
  | 0 => "0" | 1 => "1" | 2 => "2" | 3 => "3" | 4 => "4"
  | 5 => "5" | 6 => "6" | 7 => "7" | 8 => "8" | _ => "9"
  end%Z%char.

(** The check behind the keys of the days: the text of a day of a month
    reads back as the day and is an array index. *)
Definition day_key_ok (d : Z) : bool :=
  match parseInt (Some (String_of_Z d)), array_index (String_of_Z d) with
  | Some n, Some i => ((n =? d) && (i =? d))%Z
  | _, _ => false
  end.

Definition days : list Z := map Z.of_nat (seq 1 31).

End DailySpec.

Module CoverSpec.
Import JS.

(** The months in which there is an expense or an income, each once. *)
Definition months_on_record (expenses : list ExpenseData.Expense)
  (incomeData : list IncomeData.Income) : list string :=
  nodup string_dec
    (map AggregateSpec.expense_month expenses
     ++ map AggregateSpec.income_month incomeData).

End CoverSpec.

(* ================================================================== *)
(** * Facts about the runtime *)
(* ================================================================== *)

Module JSFacts.
Import JS.

(** ** Numbers *)

Lemma gt_Fin (x y : Q) : gt (Fin x) (Fin y) = true <-> (y < x)%Q.
Proof.
  unfold gt, cmp. rewrite Qlt_alt, <- (Qcompare_antisym x y).
  destruct (x ?= y)%Q; simpl; split; congruence.
Qed.

Lemma gt_Fin_false (x y : Q) : gt (Fin x) (Fin y) = false <-> (x <= y)%Q.
Proof.
  rewrite <- not_true_iff_false, gt_Fin. split.
  - apply Qnot_lt_le.
  - intros H1 H2. exact (Qlt_not_le _ _ H2 H1).
Qed.

Lemma ge_Fin (x y : Q) : ge (Fin x) (Fin y) = true <-> (y <= x)%Q.
Proof.
  unfold ge, cmp. rewrite Qle_alt, <- (Qcompare_antisym x y).
  destruct (x ?= y)%Q; simpl; split; congruence.
Qed.

Lemma le_Fin (x y : Q) : le (Fin x) (Fin y) = true <-> (x <= y)%Q.
Proof.
  unfold le, cmp. rewrite Qle_alt.
  destruct (x ?= y)%Q; simpl; split; congruence.
Qed.

Lemma gt_NaN_l (b : number) : gt NaN b = false.
Proof. reflexivity. Qed.

Lemma sub_Fin (x y : Q) : sub (Fin x) (Fin y) = Fin (x + - y).
Proof. reflexivity. Qed.

(** The sign of a difference of finite numbers. *)
Lemma gt_sub_zero (x y : Q) :
  gt (sub (Fin x) (Fin y)) zero = true <-> (y < x)%Q.
Proof.
  rewrite sub_Fin. unfold zero. rewrite gt_Fin.
  split; intro H.
  - apply Qplus_lt_l with (z := - y). now rewrite Qplus_opp_r.
  - apply Qplus_lt_l with (z := - y) in H. now rewrite Qplus_opp_r in H.
Qed.

(** ** Sorting *)

Section Sort.
Variable A : Type.
Variable comparefn : A -> A -> number.

Local Abbreviation after := (JS.after comparefn).
Local Abbreviation ordered := (JS.ordered comparefn).

Lemma insert_perm (x : A) (l : list A) :
  Permutation (insert comparefn x l) (x :: l).
Proof.
  induction l as [|y l IH]; simpl.
  - apply Permutation_refl.
  - destruct (after x y).
    + eapply perm_trans; [apply perm_skip, IH | apply perm_swap].
    + apply Permutation_refl.
Qed.

Lemma sort_perm (l : list A) : Permutation (sort comparefn l) l.
Proof.
  induction l as [|x l IH]; simpl.
  - apply perm_nil.
  - eapply perm_trans; [apply insert_perm | apply perm_skip, IH].
Qed.

Lemma sort_In (l : list A) (x : A) : In x (sort comparefn l) <-> In x l.
Proof.
  split; apply Permutation_in; [apply sort_perm | apply Permutation_sym, sort_perm].
Qed.

Lemma sort_Forall (P : A -> Prop) (l : list A) :
  Forall P l -> Forall P (sort comparefn l).
Proof.
  intro H. eapply Permutation_Forall; [apply Permutation_sym, sort_perm | exact H].
Qed.

Lemma sort_length (l : list A) : List.length (sort comparefn l) = List.length l.
Proof. apply Permutation_length, sort_perm. Qed.

(** Stability: a class of elements none of which has to come after
    another keeps its order. *)
Lemma filter_insert (p : A -> bool) (x : A) (l : list A) :
  (forall y, In y l -> p x = true -> p y = true -> after x y = false) ->
  List.filter p (insert comparefn x l) = List.filter p (x :: l).
Proof.
  induction l as [|y l IH]; intro H; simpl.
  - reflexivity.
  - destruct (after x y) eqn:E.
    + simpl. rewrite IH by (intros; apply H; simpl; auto).
      simpl. destruct (p x) eqn:Px; [|reflexivity].
      destruct (p y) eqn:Py; [|reflexivity].
      assert (after x y = false) by (apply H; simpl; auto).
      congruence.
    + reflexivity.
Qed.

Lemma filter_sort (p : A -> bool) (l : list A) :
  (forall x y, In x l -> In y l -> p x = true -> p y = true -> after x y = false) ->
  List.filter p (sort comparefn l) = List.filter p l.
Proof.
  induction l as [|x l IH]; intro H; simpl.
  - reflexivity.
  - rewrite filter_insert.
    + simpl. rewrite IH; [reflexivity|].
      intros; apply H; simpl; auto.
    + intros y Hy. apply H; simpl; auto.
      right. now apply sort_In.
Qed.

Lemma sort_ordered_id (l : list A) : ordered l -> sort comparefn l = l.
Proof.
  induction 1 as [|x l Hl IH Hx]; simpl.
  - reflexivity.
  - rewrite IH. destruct l as [|y l']; simpl; [reflexivity|].
    inversion Hx as [|? ? Hxy _]; subst.
    now rewrite Hxy.
Qed.

(** On a domain where the comparator is consistent the result is
    ordered. *)
Variable ok : A -> Prop.
Hypothesis after_asym :
  forall x y, ok x -> ok y -> after x y = true -> after y x = false.
Hypothesis not_after_trans :
  forall x y z, ok x -> ok y -> ok z ->
    after x y = false -> after y z = false -> after x z = false.

Lemma insert_ordered (x : A) (l : list A) :
  ok x -> Forall ok l -> ordered l -> ordered (insert comparefn x l).
Proof.
  intros Hx Hok Hl. induction Hl as [|y l Hl IH Hy]; simpl.
  - constructor; constructor.
  - inversion Hok as [|? ? Hoky Hokl]; subst.
    destruct (after x y) eqn:E.
    + constructor; [now apply IH|].
      eapply Permutation_Forall; [apply Permutation_sym, insert_perm|].
      constructor; [|exact Hy].
      now apply after_asym.
    + constructor; [now constructor|].
      constructor; [exact E|].
      rewrite Forall_forall in *. intros z Hz.
      apply not_after_trans with (y := y); auto.
Qed.

Lemma sort_ordered (l : list A) : Forall ok l -> ordered (sort comparefn l).
Proof.
  induction 1 as [|x l Hx Hl IH]; simpl.
  - constructor.
  - apply insert_ordered; auto. now apply sort_Forall.
Qed.
End Sort.

End JSFacts.

(** ** Dates: the order of the strings is the order of the days *)

Module DateFacts.
Import JS.
Local Open Scope Z_scope.

Lemma digit_spec (c : ascii) (v : Z) :
  digit c = Some v -> Z.of_N (N_of_ascii c) = v + 48 /\ 0 <= v <= 9.
Proof.
  unfold digit. cbv zeta.
  destruct (48 <=? Z.of_N (N_of_ascii c)) eqn:E1; [|discriminate].
  destruct (Z.of_N (N_of_ascii c) <=? 57) eqn:E2; [|discriminate].
  simpl. intro H. injection H as <-.
  apply Z.leb_le in E1, E2. lia.
Qed.

Lemma digit_compare (c1 c2 : ascii) (v1 v2 : Z) :
  digit c1 = Some v1 -> digit c2 = Some v2 ->
  Ascii.compare c1 c2 = (v1 ?= v2).
Proof.
  intros H1 H2. apply digit_spec in H1, H2.
  unfold Ascii.compare. rewrite <- N2Z.inj_compare.
  destruct H1 as [-> _], H2 as [-> _].
  rewrite (Z.add_comm v1), (Z.add_comm v2). apply Z.add_compare_mono_l.
Qed.

Lemma leap_cases (y : Z) :
  (InLeapYear y = true /\ y mod 4 = 0 /\ (y mod 100 <> 0 \/ y mod 400 = 0)) \/
  (InLeapYear y = false /\ (y mod 4 <> 0 \/ (y mod 100 = 0 /\ y mod 400 <> 0))).
Proof.
  unfold InLeapYear.
  destruct (Z.eqb_spec (y mod 4) 0), (Z.eqb_spec (y mod 100) 0),
    (Z.eqb_spec (y mod 400) 0); simpl; tauto.
Qed.

Lemma DayFromYear_succ (y : Z) :
  DayFromYear (y + 1) = DayFromYear y + 365 + (if InLeapYear y then 1 else 0).
Proof.
  unfold DayFromYear.
  replace (y + 1 - 1970) with (y - 1970 + 1) by lia.
  replace (y + 1 - 1969) with (y - 1968) by lia.
  replace (y + 1 - 1901) with (y - 1900) by lia.
  replace (y + 1 - 1601) with (y - 1600) by lia.
  destruct (leap_cases y) as [[-> H]|[-> H]];
    Z.div_mod_to_equations; lia.
Qed.

Lemma DayFromYear_mono (y1 y2 : Z) :
  y1 <= y2 -> DayFromYear y1 <= DayFromYear y2.
Proof.
  intro H. replace y2 with (y1 + Z.of_nat (Z.to_nat (y2 - y1))) by lia.
  induction (Z.to_nat (y2 - y1)) as [|n IH].
  - replace (y1 + Z.of_nat 0) with y1 by lia. lia.
  - replace (y1 + Z.of_nat (S n)) with (y1 + Z.of_nat n + 1) by lia.
    rewrite DayFromYear_succ. destruct (InLeapYear _); lia.
Qed.

Lemma DayFromYear_next (y1 y2 : Z) :
  y1 < y2 ->
  DayFromYear y1 + 365 + (if InLeapYear y1 then 1 else 0) <= DayFromYear y2.
Proof.
  intro H. rewrite <- DayFromYear_succ. apply DayFromYear_mono. lia.
Qed.

Ltac month_cases m :=
  let H := fresh in
  assert (H : m = 1 \/ m = 2 \/ m = 3 \/ m = 4 \/ m = 5 \/ m = 6 \/
              m = 7 \/ m = 8 \/ m = 9 \/ m = 10 \/ m = 11 \/ m = 12) by lia;
  repeat (destruct H as [H|H]; [subst m|]); [..|subst m].

Lemma day_of_year_bounds (y m d : Z) :
  calendar y m d ->
  0 <= DaysBeforeMonth y m + d - 1 <= 364 + (if InLeapYear y then 1 else 0).
Proof.
  intros (_ & Hm & Hd). unfold DaysBeforeMonth, DaysInMonth in *.
  month_cases m; destruct (InLeapYear y);
    cbn -[Z.add Z.sub Z.le Z.lt] in *; lia.
Qed.

Lemma day_of_year_mono (y m1 d1 m2 d2 : Z) :
  calendar y m1 d1 -> calendar y m2 d2 -> m1 < m2 ->
  DaysBeforeMonth y m1 + d1 < DaysBeforeMonth y m2 + d2.
Proof.
  intros (_ & Hm1 & Hd1) (_ & Hm2 & Hd2) Hlt.
  unfold DaysBeforeMonth, DaysInMonth in *.
  month_cases m1; month_cases m2; try lia; destruct (InLeapYear y);
    cbn -[Z.add Z.sub Z.le Z.lt] in *; lia.
Qed.

Lemma calendar_day_le_31 (y m d : Z) : calendar y m d -> d <= 31.
Proof.
  intros (_ & _ & H). unfold DaysInMonth in H.
  repeat match type of H with
         | context [if ?b then _ else _] => destruct b
         end; lia.
Qed.

(** Days since the epoch order dates as year, month, day do. *)
Lemma MakeDay_compare (y1 m1 d1 y2 m2 d2 : Z) :
  calendar y1 m1 d1 -> calendar y2 m2 d2 ->
  (MakeDay y1 m1 d1 ?= MakeDay y2 m2 d2) =
  (date_number (y1, m1, d1) ?= date_number (y2, m2, d2)).
Proof.
  intros C1 C2.
  pose proof (day_of_year_bounds C1) as B1.
  pose proof (day_of_year_bounds C2) as B2.
  pose proof (calendar_day_le_31 C1) as D1.
  pose proof (calendar_day_le_31 C2) as D2.
  unfold MakeDay, date_number.
  destruct (Z.lt_total y1 y2) as [Hy|[Hy|Hy]].
  - pose proof (DayFromYear_next Hy).
    transitivity Lt; [|symmetry]; apply Z.compare_lt_iff;
      destruct C1 as (? & ? & ?), C2 as (? & ? & ?); lia.
  - subst y2. destruct (Z.lt_total m1 m2) as [Hm|[Hm|Hm]].
    + pose proof (day_of_year_mono C1 C2 Hm).
      transitivity Lt; [|symmetry]; apply Z.compare_lt_iff;
        destruct C1 as (? & ? & ?), C2 as (? & ? & ?); lia.
    + subst m2. destruct (Z.compare_spec d1 d2).
      * subst. now rewrite !Z.compare_refl.
      * transitivity Lt; [|symmetry]; apply Z.compare_lt_iff; lia.
      * transitivity Gt; [|symmetry]; apply Z.compare_gt_iff; lia.
    + pose proof (day_of_year_mono C2 C1 Hm).
      transitivity Gt; [|symmetry]; apply Z.compare_gt_iff;
        destruct C1 as (? & ? & ?), C2 as (? & ? & ?); lia.
  - pose proof (DayFromYear_next Hy).
    transitivity Gt; [|symmetry]; apply Z.compare_gt_iff;
      destruct C1 as (? & ? & ?), C2 as (? & ? & ?); lia.
Qed.

(** A well-formed date spelled out: its ten characters. *)
Lemma parse_date_inv (s : string) (p : Z * Z * Z) :
  parse_date s = Some p ->
  exists y1 y2 y3 y4 m1 m2 d1 d2 y m d,
    s = String y1 (String y2 (String y3 (String y4 (String "-"
          (String m1 (String m2 (String "-" (String d1 (String d2 EmptyString)))))))))
    /\ four_digits y1 y2 y3 y4 = Some y
    /\ two_digits m1 m2 = Some m
    /\ two_digits d1 d2 = Some d
    /\ p = (y, m, d) /\ 1 <= m <= 12 /\ 1 <= d <= DaysInMonth y m.
Proof.
  intro H.
  destruct s as [|y1 [|y2 [|y3 [|y4 [|h1 [|m1 [|m2 [|h2 [|d1 [|d2 [|? ?]]]]]]]]]]];
    try discriminate H.
  unfold parse_date in H.
  destruct (four_digits y1 y2 y3 y4) as [y|] eqn:Ey; [|discriminate].
  destruct (two_digits m1 m2) as [m|] eqn:Em; [|discriminate].
  destruct (two_digits d1 d2) as [d|] eqn:Ed; [|discriminate].
  destruct (is_hyphen h1 && is_hyphen h2 && (1 <=? m) && (m <=? 12)
            && (1 <=? d) && (d <=? DaysInMonth y m)) eqn:C; [|discriminate].
  injection H as <-.
  repeat (apply andb_true_iff in C; destruct C as [C ?]).
  unfold is_hyphen in *.
  repeat match goal with
         | H : (_ =? _)%char = true |- _ => apply Ascii.eqb_eq in H; subst
         | H : (_ <=? _) = true |- _ => apply Z.leb_le in H
         end.
  exists y1, y2, y3, y4, m1, m2, d1, d2, y, m, d. repeat split; auto.
Qed.

Lemma two_digits_spec (a b : ascii) (n : Z) :
  two_digits a b = Some n ->
  exists x y, digit a = Some x /\ digit b = Some y /\ n = 10 * x + y
              /\ 0 <= x <= 9 /\ 0 <= y <= 9.
Proof.
  unfold two_digits. destruct (digit a) as [x|] eqn:Ea; [|discriminate].
  destruct (digit b) as [y|] eqn:Eb; [|discriminate].
  intro H. injection H as <-. exists x, y.
  pose proof (digit_spec _ Ea). pose proof (digit_spec _ Eb). repeat split; lia.
Qed.

(** Two characters that are digits compare as their values, and the
    comparison of the rest decides a tie. *)
Lemma two_digits_compare (a b a' b' : ascii) (n n' : Z) (s s' : string) :
  two_digits a b = Some n -> two_digits a' b' = Some n' ->
  String.compare (String a (String b s)) (String a' (String b' s')) =
  match n ?= n' with Eq => String.compare s s' | c => c end.
Proof.
  intros H H'.
  destruct (two_digits_spec _ _ H) as (x & y & Ex & Ey & -> & Bx & By).
  destruct (two_digits_spec _ _ H') as (x' & y' & Ex' & Ey' & -> & Bx' & By').
  cbn [String.compare]. rewrite (digit_compare _ _ Ex Ex'), (digit_compare _ _ Ey Ey').
  destruct (Z.compare_spec x x') as [->|Hx|Hx].
  - destruct (Z.compare_spec y y') as [->|Hy|Hy].
    + now rewrite Z.compare_refl.
    + replace (_ ?= _) with Lt; [reflexivity|symmetry; apply Z.compare_lt_iff; lia].
    + replace (_ ?= _) with Gt; [reflexivity|symmetry; apply Z.compare_gt_iff; lia].
  - replace (10 * x + y ?= _) with Lt; [reflexivity|symmetry; apply Z.compare_lt_iff; lia].
  - replace (10 * x + y ?= _) with Gt; [reflexivity|symmetry; apply Z.compare_gt_iff; lia].
Qed.

Lemma four_digits_spec (a b c d : ascii) (n : Z) :
  four_digits a b c d = Some n ->
  exists x y, two_digits a b = Some x /\ two_digits c d = Some y
              /\ n = 100 * x + y /\ 0 <= x <= 99 /\ 0 <= y <= 99.
Proof.
  unfold four_digits. destruct (two_digits a b) as [x|] eqn:Ea; [|discriminate].
  destruct (two_digits c d) as [y|] eqn:Eb; [|discriminate].
  intro H. injection H as <-. exists x, y.
  destruct (two_digits_spec _ _ Ea) as (? & ? & _ & _ & ? & ? & ?).
  destruct (two_digits_spec _ _ Eb) as (? & ? & _ & _ & ? & ? & ?).
  repeat split; lia.
Qed.

Lemma parse_date_calendar (s : string) (y m d : Z) :
  parse_date s = Some (y, m, d) -> calendar y m d.
Proof.
  intro H. destruct (parse_date_inv _ H)
    as (y1 & y2 & y3 & y4 & m1 & m2 & d1 & d2 & y' & m' & d' & _ & Hy & _ & _ & E & Hm & Hd).
  injection E as -> -> ->.
  destruct (four_digits_spec _ _ _ _ Hy) as (? & ? & _ & _ & ? & ? & ?).
  repeat split; lia.
Qed.

Lemma compare_hyphen (s s' : string) :
  String.compare (String "-" s) (String "-" s') = String.compare s s'.
Proof. reflexivity. Qed.

(** The order of two well-formed dates as strings is the order of their
    numbers. *)
Lemma parse_date_compare (a b : string) (p q : Z * Z * Z) :
  parse_date a = Some p -> parse_date b = Some q ->
  String.compare a b = (date_number p ?= date_number q).
Proof.
  intros Ha Hb.
  destruct (parse_date_inv _ Ha)
    as (y1 & y2 & y3 & y4 & m1 & m2 & d1 & d2 & y & m & d & -> & Hy & Hm & Hd & -> & Bm & Bd).
  destruct (parse_date_inv _ Hb)
    as (y1' & y2' & y3' & y4' & m1' & m2' & d1' & d2' & y' & m' & d' & -> & Hy' & Hm' & Hd' & -> & Bm' & Bd').
  destruct (four_digits_spec _ _ _ _ Hy) as (c & r & Hc & Hr & -> & Bc & Br).
  destruct (four_digits_spec _ _ _ _ Hy') as (c' & r' & Hc' & Hr' & -> & Bc' & Br').
  pose proof (calendar_day_le_31 (parse_date_calendar _ Ha)) as D.
  pose proof (calendar_day_le_31 (parse_date_calendar _ Hb)) as D'.
  rewrite two_digits_compare with (1 := Hc) (2 := Hc').
  rewrite two_digits_compare with (1 := Hr) (2 := Hr').
  rewrite compare_hyphen.
  rewrite two_digits_compare with (1 := Hm) (2 := Hm').
  rewrite compare_hyphen.
  rewrite two_digits_compare with (1 := Hd) (2 := Hd').
  cbn [String.compare date_number].
  destruct (Z.compare_spec c c') as [->|?|?];
    [destruct (Z.compare_spec r r') as [->|?|?];
     [destruct (Z.compare_spec m m') as [->|?|?];
      [destruct (Z.compare_spec d d') as [->|?|?]|..]|..]|..];
    symmetry;
    first [ apply Z.compare_eq_iff; lia
          | apply Z.compare_lt_iff; lia
          | apply Z.compare_gt_iff; lia ].
Qed.

Lemma time_of_compare (a b : string) (ta tb : Z) :
  time_of a = Some ta -> time_of b = Some tb ->
  (ta ?= tb) = String.compare a b.
Proof.
  unfold time_of. intros Ha Hb.
  destruct (parse_date a) as [[[y m] d]|] eqn:Pa; [|discriminate].
  destruct (parse_date b) as [[[y' m'] d']|] eqn:Pb; [|discriminate].
  injection Ha as <-. injection Hb as <-.
  rewrite parse_date_compare with (1 := Pa) (2 := Pb).
  rewrite <- MakeDay_compare
    by (eapply parse_date_calendar; eassumption).
  symmetry. apply Zmult_compare_compat_r. reflexivity.
Qed.

Lemma is_iso_date_time (s : string) :
  is_iso_date s = true -> exists t, time_of s = Some t.
Proof.
  unfold is_iso_date, time_of.
  destruct (parse_date s) as [[[y m] d]|]; [eauto|discriminate].
Qed.

(** Between well-formed dates, the sign of the difference of the times
    is the order of the strings. *)
Lemma date_after (da db : string) :
  is_iso_date da = true -> is_iso_date db = true ->
  gt (sub (Date_getTime db) (Date_getTime da)) zero = String.ltb da db.
Proof.
  intros Ha Hb.
  destruct (is_iso_date_time _ Ha) as [ta Ta].
  destruct (is_iso_date_time _ Hb) as [tb Tb].
  unfold Date_getTime, of_Z, String.ltb. rewrite Ta, Tb.
  rewrite <- time_of_compare with (1 := Ta) (2 := Tb).
  destruct (Z.compare_spec ta tb) as [->|H|H].
  - apply not_true_iff_false. rewrite JSFacts.gt_sub_zero. apply Qlt_irrefl.
  - apply JSFacts.gt_sub_zero. now rewrite <- Zlt_Qlt.
  - apply not_true_iff_false. rewrite JSFacts.gt_sub_zero, <- Zlt_Qlt. lia.
Qed.

Lemma ltb_false_leb (a b : string) :
  String.ltb a b = false <-> String.leb b a = true.
Proof.
  unfold String.ltb, String.leb. rewrite (String.compare_antisym b a).
  destruct (String.compare a b); simpl; split; congruence.
Qed.

Lemma ltb_asym (a b : string) :
  String.ltb a b = true -> String.ltb b a = false.
Proof.
  unfold String.ltb. rewrite (String.compare_antisym b a).
  destruct (String.compare a b); simpl; congruence.
Qed.

End DateFacts.

(* ================================================================== *)
(** * Facts about filtering *)
(* ================================================================== *)

Module FilterFacts.
Import JS.
Import FilterSpec.

Lemma ge_Fin_bool (x m : Q) : ge (Fin x) (Fin m) = Qle_bool m x.
Proof.
  apply eq_true_iff_eq. rewrite JSFacts.ge_Fin. symmetry. apply Qle_bool_iff.
Qed.

Lemma le_Fin_bool (x m : Q) : le (Fin x) (Fin m) = Qle_bool x m.
Proof.
  apply eq_true_iff_eq. rewrite JSFacts.le_Fin. symmetry. apply Qle_bool_iff.
Qed.

Section Lists.
Variable A : Type.

Lemma filter_true (l : list A) : List.filter (fun _ => true) l = l.
Proof. induction l; simpl; congruence. Qed.

Lemma filter_and (p q : A -> bool) (l : list A) :
  List.filter q (List.filter p l) = List.filter (fun x => p x && q x) l.
Proof.
  induction l as [|x l IH]; simpl; [reflexivity|].
  destruct (p x); simpl; [destruct (q x)|]; congruence.
Qed.

Lemma filter_all (p : A -> bool) (l : list A) :
  Forall (fun x => p x = true) l -> List.filter p l = l.
Proof.
  induction 1 as [|x l Hx _ IH]; simpl; [reflexivity|].
  rewrite Hx. congruence.
Qed.

Lemma filter_Forall (p : A -> bool) (l : list A) :
  Forall (fun x => p x = true) (List.filter p l).
Proof. apply Forall_forall. intros x H. now apply filter_In in H. Qed.

(** One stage of a filter: a text field that is in effect narrows the
    list, another leaves it. *)
Lemma stage_text (field : option string) (h : string -> A -> bool) (l : list A) :
  match field with
  | Some s => List.filter (h s) l
  | None => l
  end = List.filter (fun x => text_constraint field (fun s => h s x)) l.
Proof. destruct field; simpl; [reflexivity|]. now rewrite filter_true. Qed.

Lemma stage_amount (field : option Q) (h : Q -> A -> bool) (l : list A) :
  match field with
  | Some m => List.filter (h m) l
  | None => l
  end = List.filter (fun x => amount_constraint field (fun m => h m x)) l.
Proof. destruct field; simpl; [reflexivity|]. now rewrite filter_true. Qed.

(** A callback that does not throw filters as [filter] does. *)
Lemma filter_throwing_total (p : A -> result bool) (q : A -> bool) (l : list A) :
  Forall (fun x => p x = Ok (q x)) l ->
  filter_throwing p l = Ok (List.filter q l).
Proof.
  induction 1 as [|x l Hx _ IH]; simpl; [reflexivity|].
  rewrite Hx, IH. reflexivity.
Qed.

(** A callback that throws on an element makes the filter throw. *)
Lemma filter_throwing_throws (p : A -> result bool) (l : list A) (e : exn) :
  Exists (fun x => p x = Throw e) l ->
  (forall x e', p x = Throw e' -> e' = e) ->
  filter_throwing p l = Throw e.
Proof.
  intros H He. induction H as [x l Hx|x l _ IH]; simpl.
  - now rewrite Hx.
  - destruct (p x) as [b|e'] eqn:E; simpl.
    + now rewrite IH.
    + f_equal. eauto.
Qed.
End Lists.

End FilterFacts.

(** ** Sorting records by their dates *)

Module DateSort.
Import JS.

Lemma ltb_time (a b : string) (ta tb : Z) :
  time_of a = Some ta -> time_of b = Some tb ->
  String.ltb a b = (ta <? tb)%Z.
Proof.
  intros Ha Hb. unfold String.ltb, Z.ltb.
  now rewrite <- DateFacts.time_of_compare with (1 := Ha) (2 := Hb).
Qed.

Section ByDate.
Variable A : Type.
Variable date : A -> string.

(** The comparator [(a, b) => new Date(b.date).getTime() -
    new Date(a.date).getTime()]. *)
Local Abbreviation by_date_desc :=
  (fun a b : A => sub (Date_getTime (date b)) (Date_getTime (date a))).

Local Abbreviation dated := (fun a : A => is_iso_date (date a) = true).

Lemma by_date_after (a b : A) :
  dated a -> dated b ->
  after by_date_desc a b = String.ltb (date a) (date b).
Proof. intros Ha Hb. now apply DateFacts.date_after. Qed.

Lemma same_date_not_after (a b : A) :
  date a = date b -> after by_date_desc a b = false.
Proof.
  intro E. unfold after. cbv beta. rewrite E.
  destruct (Date_getTime (date b)) as [q| |]; try reflexivity.
  - apply not_true_iff_false. rewrite JSFacts.gt_sub_zero. apply Qlt_irrefl.
  - now destruct negative.
Qed.

Lemma sort_by_date_ordered (l : list A) :
  Forall dated l -> ordered by_date_desc (sort by_date_desc l).
Proof.
  apply JSFacts.sort_ordered.
  - intros x y Hx Hy. rewrite !by_date_after by assumption.
    apply DateFacts.ltb_asym.
  - intros x y z Hx Hy Hz. rewrite !by_date_after by assumption.
    destruct (DateFacts.is_iso_date_time _ Hx) as [tx Tx].
    destruct (DateFacts.is_iso_date_time _ Hy) as [ty Ty].
    destruct (DateFacts.is_iso_date_time _ Hz) as [tz Tz].
    rewrite (ltb_time _ _ Tx Ty), (ltb_time _ _ Ty Tz), (ltb_time _ _ Tx Tz).
    rewrite !Z.ltb_ge. lia.
Qed.

(** Most recent first, in the order of the strings. *)
Lemma ordered_descending (l : list A) :
  Forall dated l -> ordered by_date_desc l ->
  StronglySorted (fun a b => String.leb (date b) (date a) = true) l.
Proof.
  intros Hd Ho. induction Ho as [|x l Hl IH Hx]; constructor.
  - apply IH. now inversion Hd.
  - inversion Hd as [|? ? Dx Dl]; subst.
    rewrite Forall_forall in *. intros y Hy.
    apply DateFacts.ltb_false_leb. rewrite <- by_date_after; auto.
Qed.

Lemma sort_by_date_descending (l : list A) :
  Forall dated l ->
  StronglySorted (fun a b => String.leb (date b) (date a) = true)
    (sort by_date_desc l).
Proof.
  intro H. apply ordered_descending.
  - now apply JSFacts.sort_Forall.
  - now apply sort_by_date_ordered.
Qed.

(** The records of one date keep their order. *)
Lemma sort_by_date_stable (d : string) (l : list A) :
  List.filter (fun a => (date a =? d)%string) (sort by_date_desc l) =
  List.filter (fun a => (date a =? d)%string) l.
Proof.
  apply JSFacts.filter_sort. intros x y _ _ Hx Hy.
  apply same_date_not_after.
  apply String.eqb_eq in Hx, Hy. congruence.
Qed.

Lemma sort_by_date_idem (l : list A) :
  Forall dated l ->
  sort by_date_desc (sort by_date_desc l) = sort by_date_desc l.
Proof. intro H. now apply JSFacts.sort_ordered_id, sort_by_date_ordered. Qed.
End ByDate.

End DateSort.

(* ================================================================== *)
(** * Facts about the services *)
(* ================================================================== *)

Module ExpenseFacts.
Import JS.
Import FilterSpec.
Import FilterFacts.
Import ExpenseData.

Lemma matches_query_ok (query : string) (e : Expense) :
  description e <> None ->
  matches_query query e =
  Ok (includes (toLowerCase (description_text e)) query
      || includes (toLowerCase (category e)) query).
Proof.
  unfold matches_query, description_text.
  destruct (description e); [reflexivity|congruence].
Qed.

(** What [getExpenses] computes when no record lacks its description. *)
Lemma getExpenses_eq (expenses : list Expense) (filter : option ExpenseFilter) :
  Forall described expenses ->
  getExpenses expenses filter =
  Ok (sort by_date_desc (List.filter (satisfies filter) expenses)).
Proof.
  intro Hd. unfold getExpenses. cbv zeta.
  destruct filter as [f|]; simpl.
  - rewrite (stage_text (truthy_string (startDate f)) (fun s e => str_ge (date e) s)).
    rewrite (stage_text (truthy_string (endDate f)) (fun s e => str_le (date e) s)).
    rewrite (stage_text (truthy_string (filter_category f))
               (fun c e => (toLowerCase (category e) =? toLowerCase c)%string)).
    rewrite (stage_amount (minAmount f) (fun m e => ge (Fin (amount e)) (Fin m))).
    rewrite (stage_amount (maxAmount f) (fun m e => le (Fin (amount e)) (Fin m))).
    rewrite !filter_and.
    match goal with |- bind ?m _ = _ =>
      assert (E : m = Ok (List.filter (satisfies (Some f)) expenses)); [|now rewrite E]
    end.
    unfold satisfies, conjunction.
    destruct (truthy_string (searchQuery f)) as [q|] eqn:Eq.
    + rewrite filter_throwing_total
        with (q := fun e => includes (toLowerCase (description_text e)) (toLowerCase q)
                            || includes (toLowerCase (category e)) (toLowerCase q)).
      * rewrite filter_and. f_equal. apply filter_ext. intro e.
        unfold str_ge, str_le, amount_constraint. simpl.
        destruct (minAmount f), (maxAmount f);
          rewrite ?ge_Fin_bool, ?le_Fin_bool, <- ?andb_assoc; reflexivity.
      * apply Forall_forall. intros e He. apply filter_In in He.
        apply matches_query_ok. rewrite Forall_forall in Hd. apply Hd, He.
    + f_equal. apply filter_ext. intro e.
      unfold str_ge, str_le, amount_constraint. simpl. rewrite andb_true_r.
      destruct (minAmount f), (maxAmount f);
        rewrite ?ge_Fin_bool, ?le_Fin_bool, <- ?andb_assoc; reflexivity.
  - now rewrite filter_true.
Qed.
End ExpenseFacts.

(** ** The order of strings *)

Module StringOrder.

Lemma ascii_compare_refl (a : ascii) : Ascii.compare a a = Eq.
Proof. unfold Ascii.compare. apply N.compare_refl. Qed.

Lemma ascii_compare_lt_trans (a b c : ascii) :
  Ascii.compare a b = Lt -> Ascii.compare b c = Lt -> Ascii.compare a c = Lt.
Proof.
  unfold Ascii.compare. rewrite !N.compare_lt_iff. apply N.lt_trans.
Qed.

Lemma compare_refl (s : string) : String.compare s s = Eq.
Proof.
  induction s as [|c s IH]; simpl; [reflexivity|].
  now rewrite ascii_compare_refl.
Qed.

Lemma compare_lt_trans (a b c : string) :
  String.compare a b = Lt -> String.compare b c = Lt -> String.compare a c = Lt.
Proof.
  revert b c. induction a as [|x a IH]; intros [|y b] [|z c]; simpl;
    try congruence.
  destruct (Ascii.compare x y) eqn:Exy; try discriminate;
    destruct (Ascii.compare y z) eqn:Eyz; try discriminate.
  - apply Ascii.compare_eq_iff in Exy, Eyz. subst.
    rewrite ascii_compare_refl. apply IH.
  - apply Ascii.compare_eq_iff in Exy. subst. now rewrite Eyz.
  - apply Ascii.compare_eq_iff in Eyz. subst. now rewrite Exy.
  - now rewrite (ascii_compare_lt_trans _ _ _ Exy Eyz).
Qed.

Lemma ltb_irrefl (a : string) : String.ltb a a = false.
Proof. unfold String.ltb. now rewrite compare_refl. Qed.

Lemma ltb_trans (a b c : string) :
  String.ltb a b = true -> String.ltb b c = true -> String.ltb a c = true.
Proof.
  unfold String.ltb. intros H1 H2.
  destruct (String.compare a b) eqn:E1; try discriminate.
  destruct (String.compare b c) eqn:E2; try discriminate.
  now rewrite (compare_lt_trans _ _ _ E1 E2).
Qed.

Lemma ltb_total (a b : string) :
  String.ltb a b = true \/ a = b \/ String.ltb b a = true.
Proof.
  unfold String.ltb. rewrite (String.compare_antisym b a).
  destruct (String.compare a b) eqn:E; simpl; auto.
  right. left. now apply String.compare_eq_iff.
Qed.

(** Not below is transitive. *)
Lemma ltb_false_trans (a b c : string) :
  String.ltb a b = false -> String.ltb b c = false -> String.ltb a c = false.
Proof.
  intros H1 H2. apply not_true_iff_false. intro H3.
  destruct (ltb_total b a) as [H|[->|H]]; [|congruence|congruence].
  destruct (ltb_total c b) as [H'|[->|H']]; [|congruence|congruence].
  pose proof (ltb_trans _ _ _ H3 (ltb_trans _ _ _ H' H)) as F.
  rewrite ltb_irrefl in F. discriminate.
Qed.

Lemma leb_trans (a b c : string) :
  String.leb a b = true -> String.leb b c = true -> String.leb a c = true.
Proof.
  rewrite <- !DateFacts.ltb_false_leb. intros H1 H2.
  exact (ltb_false_trans _ _ _ H2 H1).
Qed.

End StringOrder.

(** ** Looking a record up by its id *)

Module StoreFacts.
Import JS.

Section Index.
Variable A : Type.
Variable p : A -> bool.

Lemma findIndex_range (l : list A) :
  (-1 <= findIndex p l < Z.of_nat (List.length l))%Z.
Proof.
  induction l as [|x l IH]; simpl List.length; cbn [findIndex]; [lia|].
  destruct (p x); [lia|].
  destruct (Z.eqb_spec (findIndex p l) (-1)); lia.
Qed.

Lemma findIndex_absent (l : list A) :
  Forall (fun x => p x = false) l -> findIndex p l = (-1)%Z.
Proof.
  induction 1 as [|x l Hx _ IH]; cbn [findIndex]; [reflexivity|].
  now rewrite Hx, IH.
Qed.

(** An index that is not [-1] is the place of the first element that
    satisfies [p]. *)
Lemma findIndex_present (l : list A) :
  findIndex p l <> (-1)%Z ->
  exists l1 x l2,
    l = l1 ++ x :: l2 /\ p x = true /\ Forall (fun y => p y = false) l1
    /\ findIndex p l = Z.of_nat (List.length l1).
Proof.
  induction l as [|x l IH]; cbn [findIndex]; [congruence|].
  destruct (p x) eqn:Px.
  - intros _. exists [], x, l. repeat split; auto.
  - destruct (Z.eqb_spec (findIndex p l) (-1)) as [E|E]; [congruence|].
    intros _. destruct (IH E) as (l1 & y & l2 & -> & Py & Hl1 & Hi).
    exists (x :: l1), y, l2. repeat split; auto.
    simpl List.length. rewrite Hi. lia.
Qed.

Lemma findIndex_exists (l : list A) :
  Exists (fun x => p x = true) l -> findIndex p l <> (-1)%Z.
Proof.
  induction 1 as [x l Hx|x l _ IH]; cbn [findIndex].
  - rewrite Hx. discriminate.
  - destruct (p x); [discriminate|].
    destruct (Z.eqb_spec (findIndex p l) (-1)) as [E|E]; [contradiction|].
    pose proof (findIndex_range l). lia.
Qed.

Lemma splice1_at (l1 l2 : list A) (x : A) :
  splice1 (l1 ++ x :: l2) (Z.of_nat (List.length l1)) = l1 ++ l2.
Proof.
  unfold splice1, relative.
  destruct (Z.ltb_spec (Z.of_nat (List.length l1)) 0) as [H|_]; [lia|].
  rewrite Nat2Z.id, length_app. simpl List.length.
  replace (Nat.min _ _) with (List.length l1 + 0)%nat by lia.
  rewrite firstn_app_2, (skipn_app (S _)). simpl firstn. rewrite app_nil_r.
  rewrite skipn_all2 by lia.
  replace (S (List.length l1 + 0) - List.length l1)%nat with 1%nat by lia.
  reflexivity.
Qed.
End Index.

Lemma String_of_Z_inj (n m : Z) : String_of_Z n = String_of_Z m -> n = m.
Proof.
  unfold String_of_Z. intro H.
  assert (N : forall z, Z.to_int z <> Pos Nil /\ Z.to_int z <> Neg Nil).
  { intros [|p|p]; simpl; split; try discriminate; intro E; injection E;
      apply DecimalPos.Unsigned.to_uint_nonnil. }
  apply (f_equal NilZero.int_of_string) in H.
  rewrite !NilZero.isi in H by apply N.
  injection H. apply DecimalZ.to_int_inj.
Qed.

(** A clock reading that is the id of no stored expense gives the new
    expense an id of its own. *)
Lemma addExpense_fresh_id (now : Z) (expense : ExpenseData.NewExpense)
  (expenses : list ExpenseData.Expense) :
  NoDup (map ExpenseData.id expenses) ->
  ~ In (String_of_Z now) (map ExpenseData.id expenses) ->
  NoDup (map ExpenseData.id (snd (ExpenseData.addExpense now expense expenses))).
Proof.
  intros Hnd Hfresh. simpl. rewrite map_app. apply NoDup_app; auto.
  - simpl. constructor; [tauto|constructor].
  - intros x Hx [ <- | F ]; [contradiction|destruct F].
Qed.

End StoreFacts.

(** ** Sums *)

Module SumFacts.
Import JS.
Import AggregateSpec.

Lemma sumQ_app (l l' : list Q) : sumQ (l ++ l') == sumQ l + sumQ l'.
Proof.
  induction l as [|x l IH]; simpl.
  - now rewrite Qplus_0_l.
  - rewrite IH. apply Qplus_assoc.
Qed.

Lemma sumQ_perm (l l' : list Q) : Permutation l l' -> sumQ l == sumQ l'.
Proof.
  induction 1 as [|x l l' _ IH|x y l|l l' l'' _ IH1 _ IH2]; simpl.
  - reflexivity.
  - now rewrite IH.
  - rewrite !Qplus_assoc, (Qplus_comm y x). reflexivity.
  - now rewrite IH1.
Qed.

Lemma num_is_Fin (q : Q) : num_is (Fin q) q.
Proof. simpl. reflexivity. Qed.

Lemma num_is_eq (n : number) (q q' : Q) : num_is n q -> q == q' -> num_is n q'.
Proof. destruct n; simpl; try tauto. intros H1 H2. now rewrite H1. Qed.

Lemma num_is_finite (n : number) (q : Q) : num_is n q -> is_finite n = true.
Proof. destruct n; simpl; tauto. Qed.

Lemma num_is_add (n : number) (q a : Q) :
  num_is n q -> num_is (add n (Fin a)) (q + a).
Proof. destruct n; simpl; try tauto. intro H. now rewrite H. Qed.

Lemma num_is_sub (n m : number) (q r : Q) :
  num_is n q -> num_is m r -> num_is (sub n m) (q - r).
Proof.
  destruct n, m; simpl; try tauto. intros H1 H2. now rewrite H1, H2.
Qed.

(** [x || 0] keeps the value of a finite number. *)
Lemma num_is_or_zero (n : number) (q : Q) :
  num_is n q -> num_is (or_zero (Some n)) q.
Proof.
  destruct n as [x| |]; simpl; try tauto. intro H.
  destruct (Qeq_bool x 0) eqn:E; simpl; [|exact H].
  apply Qeq_bool_iff in E. now rewrite <- H, E.
Qed.

Section Sums.
Variable A : Type.
Variable f : A -> Q.

Lemma fold_add_Fin (l : list A) (a : Q) :
  num_is (fold_left (fun sum x => add sum (Fin (f x))) l (Fin a))
         (a + sumQ (map f l)).
Proof.
  revert a. induction l as [|x l IH]; intro a; simpl.
  - now rewrite Qplus_0_r.
  - eapply num_is_eq; [apply IH|]. now rewrite Qplus_assoc.
Qed.

(** The total of a list of records is finite and is the sum of their
    amounts. *)
Lemma reduce_sum_is (l : list A) :
  num_is (reduce_sum (fun x => Fin (f x)) l) (sumQ (map f l)).
Proof.
  unfold reduce_sum, zero. eapply num_is_eq; [apply fold_add_Fin|].
  apply Qplus_0_l.
Qed.

Lemma reduce_sum_perm (l l' : list A) :
  Permutation l l' ->
  num_is (reduce_sum (fun x => Fin (f x)) l) (sumQ (map f l')).
Proof.
  intro H. eapply num_is_eq; [apply reduce_sum_is|].
  now apply sumQ_perm, Permutation_map.
Qed.

Variable key : A -> string.

Lemma group_sum_snoc (k : string) (l : list A) (x : A) :
  group_sum key f k (l ++ [x]) ==
  group_sum key f k l + (if (key x =? k)%string then f x else 0).
Proof.
  unfold group_sum. rewrite filter_app, map_app, sumQ_app. simpl.
  destruct (key x =? k)%string; simpl; [now rewrite Qplus_0_r|reflexivity].
Qed.

Lemma group_sum_perm (k : string) (l l' : list A) :
  Permutation l l' -> group_sum key f k l == group_sum key f k l'.
Proof.
  intro H. unfold group_sum. apply sumQ_perm, Permutation_map.
  induction H as [|x l l' _ IH|x y l|l l' l'' _ IH1 _ IH2]; simpl.
  - constructor.
  - destruct (key x =? k)%string; [now constructor|exact IH].
  - destruct (key x =? k)%string, (key y =? k)%string;
      try apply Permutation_refl. apply perm_swap.
  - eapply perm_trans; eassumption.
Qed.
End Sums.

(** A loop that keeps an invariant between what it has read and its
    state. *)
Lemma fold_left_invariant (A S : Type) (step : S -> A -> S)
  (Inv : list A -> S -> Prop) :
  (forall p s x, Inv p s -> Inv (p ++ [x]) (step s x)) ->
  forall l p s, Inv p s -> Inv (p ++ l) (fold_left step l s).
Proof.
  intros Hstep l. induction l as [|x l IH]; intros p s H; simpl.
  - now rewrite app_nil_r.
  - replace (p ++ x :: l) with ((p ++ [x]) ++ l) by now rewrite <- app_assoc.
    apply IH, Hstep, H.
Qed.

End SumFacts.

(** ** Dictionaries *)

Module ObjFacts.
Import JS.
Import AggregateSpec.

Section Dictionary.
Variable V : Type.
Implicit Types (o : obj V) (k : string) (v : V).

Lemma get_set o k v k' :
  get (set o k v) k' = if (k =? k')%string then Some v else get o k'.
Proof.
  induction o as [|[k0 v0] o IH]; simpl.
  - reflexivity.
  - destruct (String.eqb_spec k0 k) as [->|N]; simpl.
    + destruct (k =? k')%string; reflexivity.
    + rewrite IH. destruct (String.eqb_spec k0 k') as [->|N'].
      * destruct (String.eqb_spec k k'); [congruence|reflexivity].
      * reflexivity.
Qed.

Lemma get_None o k : get o k = None <-> ~ In k (keys o).
Proof.
  induction o as [|[k0 v0] o IH]; simpl; [tauto|].
  destruct (String.eqb_spec k0 k) as [->|N].
  - split; [discriminate|]. intro H. exfalso. auto.
  - rewrite IH. tauto.
Qed.

Lemma get_Some_In o k v : get o k = Some v -> In (k, v) o.
Proof.
  induction o as [|[k0 v0] o IH]; simpl; [discriminate|].
  destruct (String.eqb_spec k0 k) as [->|N].
  - intro H. injection H as ->. now left.
  - auto.
Qed.

Lemma In_get o k v : NoDup (keys o) -> In (k, v) o -> get o k = Some v.
Proof.
  induction o as [|[k0 v0] o IH]; simpl; [tauto|].
  intros H [E|Hin].
  - injection E as -> ->. now rewrite String.eqb_refl.
  - inversion H as [|? ? Hk0 Hnd]; subst.
    destruct (String.eqb_spec k0 k) as [->|N].
    + exfalso. apply Hk0. change k with (fst (k, v)). now apply in_map.
    + auto.
Qed.

Lemma keys_set_present o k v :
  In k (keys o) -> keys (set o k v) = keys o.
Proof.
  induction o as [|[k0 v0] o IH]; simpl; [tauto|].
  destruct (String.eqb_spec k0 k) as [->|N]; simpl; [reflexivity|].
  intros [E|H]; [congruence|]. now rewrite IH.
Qed.

Lemma keys_set_absent o k v :
  ~ In k (keys o) -> keys (set o k v) = keys o ++ [k].
Proof.
  induction o as [|[k0 v0] o IH]; simpl; [reflexivity|].
  destruct (String.eqb_spec k0 k) as [->|N]; simpl; [tauto|].
  intro H. rewrite IH; tauto.
Qed.

Lemma keys_set_In o k v k' :
  In k' (keys (set o k v)) <-> In k' (keys o) \/ k' = k.
Proof.
  destruct (in_dec string_dec k (keys o)) as [H|H].
  - rewrite keys_set_present by assumption. split; [tauto|].
    intros [ ? | -> ]; assumption.
  - rewrite keys_set_absent, in_app_iff by assumption. simpl.
    intuition congruence.
Qed.

Lemma keys_set_NoDup o k v : NoDup (keys o) -> NoDup (keys (set o k v)).
Proof.
  intro H. destruct (in_dec string_dec k (keys o)) as [Hk|Hk].
  - now rewrite keys_set_present.
  - rewrite keys_set_absent by assumption.
    apply NoDup_app; auto.
    + constructor; [simpl; tauto|constructor].
    + intros x Hx [ <- | F ]; [contradiction|destruct F].
Qed.
End Dictionary.

End ObjFacts.

(** ** Tallies *)

Module TallyFacts.
Import JS.
Import AggregateSpec.
Import SumFacts.

(** Adding [a] under the key [k] keeps the values finite and adds [a] to
    their sum. *)
Lemma set_add_sum (o : obj number) (k : string) (a : Q) :
  obj_finite o ->
  obj_finite (set o k (add (or_zero (get o k)) (Fin a)))
  /\ obj_sum (set o k (add (or_zero (get o k)) (Fin a))) == obj_sum o + a.
Proof.
  unfold obj_finite, obj_sum.
  induction o as [|[k0 n0] o IH]; intro H; simpl.
  - split; [repeat constructor|]. unfold sumQ. simpl. ring.
  - inversion H as [|? ? Hn0 Ho]; subst. simpl in Hn0.
    destruct (k0 =? k)%string.
    + destruct n0 as [q| |]; try discriminate.
      assert (Hv : num_is (add (or_zero (Some (Fin q))) (Fin a)) (q + a))
        by apply num_is_add, num_is_or_zero, num_is_Fin.
      destruct (add (or_zero (Some (Fin q))) (Fin a)) as [q'| |] eqn:E;
        simpl in Hv; try contradiction.
      split; [constructor; [reflexivity|exact Ho]|].
      simpl. rewrite Hv. ring.
    + destruct (IH Ho) as [F S]. split; [constructor; assumption|].
      simpl. rewrite S. ring.
Qed.

Section Tally.
Variable A : Type.
Variable key : A -> string.
Variable val : A -> Q.

Lemma tally_sum (l : list A) (o : obj number) :
  obj_finite o ->
  obj_finite (ExpenseData.tally key (fun x => Fin (val x)) l o)
  /\ obj_sum (ExpenseData.tally key (fun x => Fin (val x)) l o)
     == obj_sum o + sumQ (map val l).
Proof.
  unfold ExpenseData.tally. revert o.
  induction l as [|x l IH]; intros o H; simpl.
  - split; [exact H|]. ring.
  - destruct (@set_add_sum o (key x) (val x) H) as [F S].
    destruct (IH _ F) as [F' S']. split; [exact F'|].
    rewrite S', S. ring.
Qed.

Lemma group_sum_absent (k : string) (l : list A) :
  ~ In k (map key l) -> group_sum key val k l = 0.
Proof.
  unfold group_sum. induction l as [|x l IH]; simpl; [reflexivity|].
  intro H. destruct (String.eqb_spec (key x) k) as [E|_]; [tauto|].
  apply IH. tauto.
Qed.

Local Abbreviation tallied := (AggregateSpec.tallied key val).

Lemma tallied_step (p : list A) (o : obj number) (x : A) :
  tallied p o ->
  tallied (p ++ [x])
    (set o (key x) (add (or_zero (get o (key x))) (Fin (val x)))).
Proof.
  intros (Hnd & Hk & Hv). repeat split.
  - now apply ObjFacts.keys_set_NoDup.
  - rewrite ObjFacts.keys_set_In, map_app, in_app_iff, Hk. simpl. intuition.
  - rewrite map_app, in_app_iff, <- Hk, ObjFacts.keys_set_In. simpl. intuition.
  - intros k n. rewrite ObjFacts.get_set.
    destruct (String.eqb_spec (key x) k) as [E|N].
    + intro H. injection H as <-. subst k.
      eapply num_is_eq;
        [|symmetry; rewrite group_sum_snoc, String.eqb_refl; reflexivity].
      apply num_is_add.
      destruct (get o (key x)) as [n|] eqn:G.
      * apply num_is_or_zero, Hv, G.
      * apply ObjFacts.get_None in G. rewrite Hk in G.
        rewrite (@group_sum_absent (key x) p G). apply num_is_Fin.
    + intro H. eapply num_is_eq; [apply Hv, H|].
      rewrite group_sum_snoc. apply String.eqb_neq in N. rewrite N. ring.
Qed.

Lemma tally_tallied (l : list A) :
  tallied l (ExpenseData.tally key (fun x => Fin (val x)) l []).
Proof.
  unfold ExpenseData.tally.
  apply (@fold_left_invariant _ _
           (fun o x => set o (key x) (add (or_zero (get o (key x))) (Fin (val x))))
           tallied tallied_step l []).
  repeat split; simpl; try tauto; [constructor|discriminate].
Qed.
End Tally.

End TallyFacts.

(** ** Summaries *)

Module SummaryFacts.
Import JS.
Import FilterSpec.
Import AggregateSpec.
Import SumFacts.

Lemma described_all (l : list ExpenseData.Expense) :
  Forall expense_ok l -> Forall described l.
Proof. apply Forall_impl. now intros e [_ H]. Qed.

Lemma dated_all (l : list ExpenseData.Expense) :
  Forall expense_ok l ->
  Forall (fun e => is_iso_date (ExpenseData.date e) = true) l.
Proof. apply Forall_impl. now intros e [H _]. Qed.

Lemma Forall_filter (A : Type) (P : A -> Prop) (p : A -> bool) (l : list A) :
  Forall P l -> Forall P (List.filter p l).
Proof.
  rewrite !Forall_forall. intros H x Hx. apply filter_In in Hx. now apply H.
Qed.

(** What [getIncome] computes. *)
Lemma getIncome_eq (incomeData : list IncomeData.Income)
  (filter : option IncomeData.IncomeFilter) :
  IncomeData.getIncome incomeData filter =
  sort IncomeData.by_date_desc (List.filter (income_satisfies filter) incomeData).
Proof.
  unfold IncomeData.getIncome. cbv zeta. f_equal.
  destruct filter as [f|]; simpl; [|now rewrite FilterFacts.filter_true].
  rewrite (FilterFacts.stage_text (truthy_string (IncomeData.startDate f))
             (fun s i => str_ge (IncomeData.date i) s)).
  rewrite (FilterFacts.stage_text (truthy_string (IncomeData.endDate f))
             (fun s i => str_le (IncomeData.date i) s)).
  rewrite (FilterFacts.stage_text (truthy_string (IncomeData.filter_source f))
             (fun c i => (toLowerCase (IncomeData.source_name (IncomeData.source i))
                          =? toLowerCase c)%string)).
  rewrite (FilterFacts.stage_amount (IncomeData.minAmount f)
             (fun m i => ge (Fin (IncomeData.amount i)) (Fin m))).
  rewrite (FilterFacts.stage_amount (IncomeData.maxAmount f)
             (fun m i => le (Fin (IncomeData.amount i)) (Fin m))).
  rewrite !FilterFacts.filter_and. apply filter_ext. intro i.
  unfold income_satisfies, str_ge, str_le, amount_constraint.
  destruct (IncomeData.minAmount f), (IncomeData.maxAmount f);
    rewrite ?FilterFacts.ge_Fin_bool, ?FilterFacts.le_Fin_bool, <- ?andb_assoc;
    reflexivity.
Qed.

Lemma getIncome_perm (incomeData : list IncomeData.Income)
  (filter : option IncomeData.IncomeFilter) :
  Permutation (IncomeData.getIncome incomeData filter)
    (List.filter (income_satisfies filter) incomeData).
Proof. rewrite getIncome_eq. apply JSFacts.sort_perm. Qed.

(** The total of the filtered expenses, as a sum over the store. *)
Lemma total_of_sorted (A : Type) (f : A -> Q) (c : A -> A -> number) (l : list A) :
  num_is (reduce_sum (fun x => Fin (f x)) (sort c l)) (sumQ (map f l)).
Proof. apply reduce_sum_perm, JSFacts.sort_perm. Qed.

Lemma num_is_positive (n : number) (q : Q) :
  num_is n q -> (gt n zero = true <-> 0 < q).
Proof.
  destruct n as [x| |]; simpl; try tauto. intro H.
  unfold zero. rewrite JSFacts.gt_Fin. now rewrite H.
Qed.

Lemma num_is_zero (n : number) (q : Q) :
  num_is n q -> (cmp n zero = Some Eq <-> q == 0).
Proof.
  destruct n as [x| |]; simpl; try tauto. intro H.
  rewrite <- H, Qeq_alt. split; [congruence|intro E; now rewrite E].
Qed.

(** A quotient of finite numbers by a number that is not zero, times a
    finite number. *)
Lemma num_is_ratio (n d : number) (a b c : Q) :
  num_is n a -> num_is d b -> ~ b == 0 ->
  num_is (mul (div n d) (Fin c)) (a / b * c).
Proof.
  destruct n as [x| |], d as [y| |]; simpl; try tauto. intros Hx Hy Hb.
  destruct (Qeq_bool y 0) eqn:E.
  - apply Qeq_bool_iff in E. rewrite Hy in E. contradiction.
  - simpl. now rewrite Hx, Hy.
Qed.

Lemma reduce_sum_finite (A : Type) (f : A -> number) (l : list A) :
  Forall (fun x => is_finite (f x) = true) l ->
  num_is (reduce_sum f l) (sumQ (map (fun x => value (f x)) l)).
Proof.
  intro H.
  assert (E : forall a, fold_left (fun sum x => add sum (f x)) l a =
                        fold_left (fun sum x => add sum (Fin (value (f x)))) l a).
  { induction H as [|x l Hx _ IH]; intro a; simpl; [reflexivity|].
    rewrite IH. destruct (f x); try discriminate. reflexivity. }
  unfold reduce_sum. rewrite E. apply (reduce_sum_is (fun x => value (f x))).
Qed.


Lemma sumQ_ext (A : Type) (g h : A -> Q) (l : list A) :
  Forall (fun x => g x == h x) l -> sumQ (map g l) == sumQ (map h l).
Proof.
  induction 1 as [|x l Hx _ IH]; simpl; [reflexivity|]. now rewrite Hx, IH.
Qed.

End SummaryFacts.

(** ** Averages, rates and percentages *)

Module AnalyticsFacts.
Import JS.
Import FilterSpec.
Import AggregateSpec.
Import SumFacts.
Import SummaryFacts.

(** What [getExpenseSummary] computes on expenses that have their
    descriptions. *)
Lemma getExpenseSummary_eq
  (expenses : list ExpenseData.Expense) (filter : option ExpenseData.ExpenseFilter) :
  Forall described expenses ->
  ExpenseData.getExpenseSummary expenses filter =
  Ok (ExpenseData.summarize
        (sort ExpenseData.by_date_desc (List.filter (satisfies filter) expenses))).
Proof.
  intro H. unfold ExpenseData.getExpenseSummary.
  now rewrite ExpenseFacts.getExpenses_eq.
Qed.

Lemma expense_summary_total (filter : option ExpenseData.ExpenseFilter)
  (expenses : list ExpenseData.Expense) :
  num_is (ExpenseData.totalExpenses
            (ExpenseData.summarize
               (sort ExpenseData.by_date_desc (List.filter (satisfies filter) expenses))))
         (expense_total expenses filter).
Proof. apply total_of_sorted. Qed.

Lemma income_summary_total (filter : option IncomeData.IncomeFilter)
  (incomeData : list IncomeData.Income) :
  num_is (IncomeData.totalIncome (IncomeData.getIncomeSummary incomeData filter))
         (income_total incomeData filter).
Proof.
  unfold IncomeData.getIncomeSummary. rewrite getIncome_eq. apply total_of_sorted.
Qed.

(** An average is finite: the division happens only by a count that is
    not zero. *)
Lemma average_finite (total : number) (n : nat) (q : Q) :
  num_is total q ->
  is_finite (if (0 <? n)%nat then div total (of_nat n) else zero) = true.
Proof.
  intro H. destruct (Nat.ltb_spec 0 n) as [Hn|_]; [|reflexivity].
  destruct total as [x| |]; simpl in H; try contradiction.
  unfold of_nat, div.
  destruct (Qeq_bool (inject_Z (Z.of_nat n)) 0) eqn:E; [|reflexivity].
  apply Qeq_bool_iff in E. unfold Qeq in E. simpl in E. lia.
Qed.

Lemma savings_rate_finite (ti te : number) (a b : Q) :
  num_is ti a -> num_is te b ->
  is_finite (if gt ti zero then mul (div (sub ti te) ti) Analytics.hundred else zero)
  = true.
Proof.
  intros Ha Hb. destruct (gt ti zero) eqn:G; [|reflexivity].
  apply (num_is_positive _ _ Ha) in G.
  eapply num_is_finite, num_is_ratio; [apply num_is_sub; eassumption|eassumption|].
  intro E. rewrite E in G. exact (Qlt_irrefl _ G).
Qed.


End AnalyticsFacts.

(** ** The search, with and without a description *)

Module ApiFacts.
Import JS.
Import FilterSpec.
Import FilterFacts.
Import ExpenseData.

Lemma toLowerCase_nonempty (q : string) :
  q <> EmptyString -> toLowerCase q <> EmptyString.
Proof. destruct q; [congruence|discriminate]. Qed.

Lemma includes_empty (q : string) :
  q <> EmptyString -> includes EmptyString q = false.
Proof. destruct q; [congruence|reflexivity]. Qed.

Lemma truthy_string_nonempty (o : option string) (q : string) :
  truthy_string o = Some q -> q <> EmptyString.
Proof.
  destruct o as [s|]; simpl; [|discriminate].
  destruct (String.eqb_spec s EmptyString); [discriminate|congruence].
Qed.

(** The search of the API-backed service reads a missing description as
    the empty string. *)
Lemma api_matches_query (query : string) (e : Expense) :
  query <> EmptyString ->
  ExpenseDataApi.matches_query query e =
  includes (toLowerCase (description_text e)) query
  || includes (toLowerCase (category e)) query.
Proof.
  intro H. unfold ExpenseDataApi.matches_query, description_text.
  destruct (description e); cbn [toLowerCase].
  - now rewrite orb_false_r.
  - now rewrite includes_empty.
Qed.

(** What the API-backed [getExpenses] returns for a signed-in user whose
    records were fetched: it never throws, whatever the records. *)
Lemma api_getExpenses_eq (expenses : list Expense) (filter : option ExpenseFilter) :
  ExpenseDataApi.getExpenses true (ExpenseDataApi.Json expenses) filter =
  sort by_date_desc (List.filter (satisfies filter) expenses).
Proof.
  unfold ExpenseDataApi.getExpenses. cbn [negb try_catch]. f_equal.
  destruct filter as [f|]; simpl; [|now rewrite filter_true].
  rewrite (stage_text (truthy_string (startDate f)) (fun s e => str_ge (date e) s)).
  rewrite (stage_text (truthy_string (endDate f)) (fun s e => str_le (date e) s)).
  rewrite (stage_text (truthy_string (filter_category f))
             (fun c e => (toLowerCase (category e) =? toLowerCase c)%string)).
  rewrite (stage_amount (minAmount f) (fun m e => ge (Fin (amount e)) (Fin m))).
  rewrite (stage_amount (maxAmount f) (fun m e => le (Fin (amount e)) (Fin m))).
  rewrite !filter_and.
  unfold satisfies, conjunction.
  destruct (truthy_string (searchQuery f)) as [q|] eqn:Eq.
  - rewrite filter_and. apply filter_ext. intro e.
    rewrite api_matches_query
      by (apply toLowerCase_nonempty; eapply truthy_string_nonempty; eassumption).
    unfold str_ge, str_le, amount_constraint. simpl.
    destruct (minAmount f), (maxAmount f);
      rewrite ?ge_Fin_bool, ?le_Fin_bool, <- ?andb_assoc; reflexivity.
  - apply filter_ext. intro e.
    unfold str_ge, str_le, amount_constraint. simpl. rewrite andb_true_r.
    destruct (minAmount f), (maxAmount f);
      rewrite ?ge_Fin_bool, ?le_Fin_bool, <- ?andb_assoc; reflexivity.
Qed.

(** A record without a description is found by its category only. *)
Lemma api_search_by_category (expenses : list Expense) (f : ExpenseFilter)
  (q : string) (e : Expense) :
  truthy_string (searchQuery f) = Some q ->
  description e = None ->
  In e (ExpenseDataApi.getExpenses true (ExpenseDataApi.Json expenses) (Some f)) ->
  includes (toLowerCase (category e)) (toLowerCase q) = true.
Proof.
  intros Hq Hd. rewrite api_getExpenses_eq, JSFacts.sort_In, filter_In.
  intros [_ H]. unfold satisfies, conjunction in H. rewrite Hq in H.
  apply andb_true_iff in H. destruct H as [_ H]. simpl in H.
  unfold description_text in H. rewrite Hd in H. cbn [toLowerCase] in H.
  rewrite includes_empty in H
    by (apply toLowerCase_nonempty; eapply truthy_string_nonempty; eassumption).
  exact H.
Qed.

(** The search of the mock store throws as soon as a record it reaches
    lacks its description. *)
Lemma mock_search_throws (expenses : list Expense) (q : string) :
  q <> EmptyString ->
  Exists (fun e => description e = None) expenses ->
  getExpenses expenses (Some (Samples.only_search q)) = Throw TypeError.
Proof.
  intros Hq H. unfold getExpenses. cbn -[filter_throwing toLowerCase].
  destruct (String.eqb_spec q EmptyString) as [E|_]; [contradiction|].
  rewrite filter_throwing_throws with (e := TypeError); [reflexivity| |].
  - eapply Exists_impl; [|exact H]. intros e He.
    unfold matches_query. now rewrite He.
  - intros x e' _. now destruct e'.
Qed.

End ApiFacts.

(** ** Entries created on first use *)

Module UpsertFacts.
Import JS.
Import AggregateSpec.
Import Analytics.

Section Upsert.
Variable V : Type.
Implicit Types (o : obj V) (k : string) (v : V).

Lemma get_In_keys o k v : get o k = Some v -> In k (keys o).
Proof.
  intro H. destruct (in_dec string_dec k (keys o)) as [Hin|Hn]; [exact Hin|].
  apply ObjFacts.get_None in Hn. congruence.
Qed.

Lemma get_ensure o k fresh k' :
  get (ensure o k fresh) k' =
  if (k =? k')%string
  then Some match get o k with Some v => v | None => fresh end
  else get o k'.
Proof.
  unfold ensure. destruct (get o k) as [v|] eqn:G.
  - destruct (String.eqb_spec k k') as [<-|N]; [exact G|reflexivity].
  - apply ObjFacts.get_set.
Qed.

Lemma keys_ensure_In o k fresh k' :
  In k' (keys (ensure o k fresh)) <-> In k' (keys o) \/ k' = k.
Proof.
  unfold ensure. destruct (get o k) as [v|] eqn:G.
  - apply get_In_keys in G. split; [tauto|]. intros [ ? | -> ]; assumption.
  - apply ObjFacts.keys_set_In.
Qed.

Lemma keys_ensure_NoDup o k fresh :
  NoDup (keys o) -> NoDup (keys (ensure o k fresh)).
Proof.
  unfold ensure. destruct (get o k); [tauto|]. apply ObjFacts.keys_set_NoDup.
Qed.

Lemma get_modify o k (f : V -> V) k' :
  get (modify o k f) k' =
  if (k =? k')%string then option_map f (get o k) else get o k'.
Proof.
  unfold modify. destruct (get o k) as [v|] eqn:G.
  - apply ObjFacts.get_set.
  - destruct (String.eqb_spec k k') as [<-|N]; [now rewrite G|reflexivity].
Qed.

Lemma keys_modify o k (f : V -> V) : keys (modify o k f) = keys o.
Proof.
  unfold modify. destruct (get o k) as [v|] eqn:G; [|reflexivity].
  apply ObjFacts.keys_set_present. eapply get_In_keys, G.
Qed.

(** Create the entry when it is missing, then update it. *)
Lemma get_upsert o k fresh (f : V -> V) k' :
  get (modify (ensure o k fresh) k f) k' =
  if (k =? k')%string
  then Some (f match get o k with Some v => v | None => fresh end)
  else get o k'.
Proof.
  rewrite get_modify, !get_ensure, String.eqb_refl.
  destruct (k =? k')%string; reflexivity.
Qed.

Lemma keys_upsert_In o k fresh (f : V -> V) k' :
  In k' (keys (modify (ensure o k fresh) k f)) <-> In k' (keys o) \/ k' = k.
Proof. rewrite keys_modify. apply keys_ensure_In. Qed.

Lemma keys_upsert_NoDup o k fresh (f : V -> V) :
  NoDup (keys o) -> NoDup (keys (modify (ensure o k fresh) k f)).
Proof. rewrite keys_modify. apply keys_ensure_NoDup. Qed.

(** The entries of a dictionary without a repeated key are its
    lookups. *)
Lemma entries_get o k v :
  NoDup (keys o) -> (In (k, v) (entries o) <-> get o k = Some v).
Proof.
  intro H. split; [now apply ObjFacts.In_get|apply ObjFacts.get_Some_In].
Qed.
End Upsert.

End UpsertFacts.

(** ** The table of days *)

Module TrendFacts.
Import JS.
Import AggregateSpec.
Import SumFacts.
Import Analytics.

Lemma group_sum_none (A : Type) (key : A -> string) (val : A -> Q)
  (k : string) (l : list A) :
  ~ In k (map key l) -> num_is zero (group_sum key val k l).
Proof.
  intro H. rewrite (@TallyFacts.group_sum_absent A key val k l H). apply num_is_Fin.
Qed.

Lemma group_sum_other (A : Type) (key : A -> string) (val : A -> Q)
  (k : string) (l : list A) (x : A) (n : number) :
  key x <> k -> num_is n (group_sum key val k l) ->
  num_is n (group_sum key val k (l ++ [x])).
Proof.
  intros N H. eapply num_is_eq; [exact H|].
  rewrite group_sum_snoc. apply String.eqb_neq in N. rewrite N. ring.
Qed.

Lemma group_sum_same (A : Type) (key : A -> string) (val : A -> Q)
  (l : list A) (x : A) (n : number) :
  num_is n (group_sum key val (key x) l) ->
  num_is (add n (Fin (val x))) (group_sum key val (key x) (l ++ [x])).
Proof.
  intro H. eapply num_is_eq; [apply num_is_add, H|].
  rewrite group_sum_snoc, String.eqb_refl. reflexivity.
Qed.

Lemma day_table_expense (es : list ExpenseData.Expense) (ys : list IncomeData.Income)
  (o : obj DayData) (e : ExpenseData.Expense) :
  day_table es ys o -> day_table (es ++ [e]) ys (add_day_expense o e).
Proof.
  intros (Hnd & Hk & Hv). unfold add_day_expense. repeat split.
  - now apply UpsertFacts.keys_upsert_NoDup.
  - rewrite UpsertFacts.keys_upsert_In, map_app, in_app_iff, Hk. simpl. intuition.
  - rewrite UpsertFacts.keys_upsert_In, map_app, in_app_iff, Hk. simpl. intuition.
  - revert H. rewrite UpsertFacts.get_upsert.
    destruct (String.eqb_spec (ExpenseData.date e) k) as [<-|N].
    + intro H. injection H as <-. cbn [day_expenses].
      apply group_sum_same.
      destruct (get o (ExpenseData.date e)) as [v|] eqn:G.
      * apply (Hv _ _ G).
      * apply group_sum_none. apply ObjFacts.get_None in G. rewrite Hk in G. tauto.
    + intro H. apply group_sum_other; [exact N|]. apply (Hv _ _ H).
  - revert H. rewrite UpsertFacts.get_upsert.
    destruct (String.eqb_spec (ExpenseData.date e) k) as [<-|N].
    + intro H. injection H as <-. cbn [day_income].
      destruct (get o (ExpenseData.date e)) as [v|] eqn:G.
      * apply (Hv _ _ G).
      * apply group_sum_none. apply ObjFacts.get_None in G. rewrite Hk in G. tauto.
    + intro H. apply (Hv _ _ H).
Qed.

Lemma day_table_income (es : list ExpenseData.Expense) (ys : list IncomeData.Income)
  (o : obj DayData) (i : IncomeData.Income) :
  day_table es ys o -> day_table es (ys ++ [i]) (add_day_income o i).
Proof.
  intros (Hnd & Hk & Hv). unfold add_day_income. repeat split.
  - now apply UpsertFacts.keys_upsert_NoDup.
  - rewrite UpsertFacts.keys_upsert_In, map_app, in_app_iff, Hk. simpl. intuition.
  - rewrite UpsertFacts.keys_upsert_In, map_app, in_app_iff, Hk. simpl. intuition.
  - revert H. rewrite UpsertFacts.get_upsert.
    destruct (String.eqb_spec (IncomeData.date i) k) as [<-|N].
    + intro H. injection H as <-. cbn [day_expenses].
      destruct (get o (IncomeData.date i)) as [v|] eqn:G.
      * apply (Hv _ _ G).
      * apply group_sum_none. apply ObjFacts.get_None in G. rewrite Hk in G. tauto.
    + intro H. apply (Hv _ _ H).
  - revert H. rewrite UpsertFacts.get_upsert.
    destruct (String.eqb_spec (IncomeData.date i) k) as [<-|N].
    + intro H. injection H as <-. cbn [day_income].
      apply group_sum_same.
      destruct (get o (IncomeData.date i)) as [v|] eqn:G.
      * apply (Hv _ _ G).
      * apply group_sum_none. apply ObjFacts.get_None in G. rewrite Hk in G. tauto.
    + intro H. apply group_sum_other; [exact N|]. apply (Hv _ _ H).
Qed.

Lemma day_table_empty : day_table [] [] [].
Proof.
  repeat split; simpl; try tauto; try discriminate. constructor.
Qed.

(** The two loops of [getSpendingTrends]. *)
Lemma day_table_loops (es : list ExpenseData.Expense) (ys : list IncomeData.Income) :
  day_table es ys (fold_left add_day_income ys (fold_left add_day_expense es [])).
Proof.
  apply (@fold_left_invariant _ _ add_day_income (fun p o => day_table es p o)
           (fun p o x => @day_table_income es p o x) ys []).
  apply (@fold_left_invariant _ _ add_day_expense (fun p o => day_table p [] o)
           (fun p o x => @day_table_expense p [] o x) es []).
  apply day_table_empty.
Qed.

End TrendFacts.

(** ** Sorting by a key with [localeCompare] *)

Module KeyOrder.
Import JS.
Import AggregateSpec.

Lemma localeCompare_after (a b : string) :
  gt (localeCompare a b) zero = String.ltb b a.
Proof.
  unfold localeCompare, String.ltb. rewrite (String.compare_antisym a b).
  destruct (String.compare b a); reflexivity.
Qed.

Section ByKey.
Variable A : Type.
Variable key : A -> string.

Lemma sort_ascending (l : list A) :
  NoDup (map key l) ->
  ascending key (sort (fun a b => localeCompare (key a) (key b)) l).
Proof.
  intro Hnd.
  set (c := fun a b => localeCompare (key a) (key b)).
  assert (Ho : ordered c (sort c l)).
  { apply JSFacts.sort_ordered with (ok := fun _ => True).
    - intros x y _ _. unfold after, c. rewrite !localeCompare_after.
      apply DateFacts.ltb_asym.
    - intros x y z _ _ _. unfold after, c. rewrite !localeCompare_after.
      intros H1 H2. exact (StringOrder.ltb_false_trans _ _ _ H2 H1).
    - apply Forall_forall. tauto. }
  assert (Hnd' : NoDup (map key (sort c l))).
  { eapply Permutation_NoDup; [|exact Hnd].
    apply Permutation_map, Permutation_sym, JSFacts.sort_perm. }
  revert Ho Hnd'. generalize (sort c l). intros s Ho.
  induction Ho as [|x s Hs IH Hx]; intro Hnd'; constructor.
  - apply IH. now inversion Hnd'.
  - inversion Hnd' as [|? ? Hnin _]; subst.
    rewrite Forall_forall in *. intros y Hy.
    specialize (Hx y Hy). unfold after, c in Hx. rewrite localeCompare_after in Hx.
    destruct (StringOrder.ltb_total (key x) (key y)) as [H|[E|H]];
      [exact H| |congruence].
    exfalso. apply Hnin. rewrite E. now apply in_map.
Qed.

End ByKey.

End KeyOrder.

(** ** The table of months *)

Module MonthFacts.
Import JS.
Import AggregateSpec.
Import SumFacts.
Import Analytics.


Lemma in_month_snoc_same (es : list ExpenseData.Expense) (e : ExpenseData.Expense) :
  in_month (expense_month e) (es ++ [e]) = in_month (expense_month e) es ++ [e].
Proof.
  unfold in_month. rewrite filter_app. simpl. now rewrite String.eqb_refl.
Qed.

Lemma in_month_snoc_other (k : string) (es : list ExpenseData.Expense)
  (e : ExpenseData.Expense) :
  expense_month e <> k -> in_month k (es ++ [e]) = in_month k es.
Proof.
  intro N. unfold in_month. rewrite filter_app. simpl.
  apply String.eqb_neq in N. rewrite N. apply app_nil_r.
Qed.

Lemma in_month_absent (k : string) (es : list ExpenseData.Expense) :
  ~ In k (map expense_month es) -> in_month k es = [].
Proof.
  unfold in_month. induction es as [|x es IH]; simpl; [reflexivity|].
  intro H. destruct (String.eqb_spec (expense_month x) k) as [E|_]; [tauto|].
  apply IH. tauto.
Qed.

Lemma tallied_empty (A : Type) (key : A -> string) (val : A -> Q) :
  tallied key val [] [].
Proof.
  repeat split; simpl; try tauto; try discriminate. constructor.
Qed.

(** The entry of the month of an expense before the expense is added. *)
Lemma month_before (es : list ExpenseData.Expense) (ys : list IncomeData.Income)
  (o : obj MonthData) (k : string) :
  month_table es ys o ->
  let d := match get o k with Some v => v | None => fresh_month end in
  num_is (m_expenses d) (group_sum expense_month ExpenseData.amount k es)
  /\ num_is (m_income d) (group_sum income_month IncomeData.amount k ys)
  /\ tallied ExpenseData.category ExpenseData.amount (in_month k es) (m_categories d).
Proof.
  intros (Hnd & Hk & Hv). cbv zeta.
  destruct (get o k) as [v|] eqn:G; [exact (Hv _ _ G)|].
  apply ObjFacts.get_None in G. rewrite Hk in G.
  cbn [fresh_month m_expenses m_income m_categories].
  split; [|split].
  - apply TrendFacts.group_sum_none. tauto.
  - apply TrendFacts.group_sum_none. tauto.
  - rewrite in_month_absent by tauto. apply tallied_empty.
Qed.

Lemma month_table_expense (es : list ExpenseData.Expense) (ys : list IncomeData.Income)
  (o : obj MonthData) (e : ExpenseData.Expense) :
  month_table es ys o -> month_table (es ++ [e]) ys (add_month_expense o e).
Proof.
  intro T. pose proof (@month_before es ys o (expense_month e) T) as B.
  destruct T as (Hnd & Hk & Hv). unfold add_month_expense. cbv zeta.
  fold (month_of (ExpenseData.date e)). fold (expense_month e).
  split; [|split].
  - rewrite UpsertFacts.keys_modify. now apply UpsertFacts.keys_upsert_NoDup.
  - intro k.
    rewrite UpsertFacts.keys_modify, UpsertFacts.keys_upsert_In, map_app,
      in_app_iff, Hk.
    simpl. intuition.
  - intros k d. rewrite UpsertFacts.get_modify, !UpsertFacts.get_upsert.
    rewrite String.eqb_refl. cbn [option_map].
    destruct (String.eqb_spec (expense_month e) k) as [<-|N].
    + intro H. injection H as <-.
      cbn [m_expenses m_income m_categories].
      destruct B as (Be & Bi & Bc). split; [|split].
      * now apply TrendFacts.group_sum_same.
      * exact Bi.
      * rewrite in_month_snoc_same. now apply TallyFacts.tallied_step.
    + intro H. destruct (Hv _ _ H) as (He & Hi & Hc). split; [|split].
      * now apply TrendFacts.group_sum_other.
      * exact Hi.
      * now rewrite in_month_snoc_other.
Qed.

Lemma month_table_income (es : list ExpenseData.Expense) (ys : list IncomeData.Income)
  (o : obj MonthData) (i : IncomeData.Income) :
  month_table es ys o -> month_table es (ys ++ [i]) (add_month_income o i).
Proof.
  intro T. pose proof (@month_before es ys o (income_month i) T) as B.
  destruct T as (Hnd & Hk & Hv). unfold add_month_income. cbv zeta.
  fold (month_of (IncomeData.date i)). fold (income_month i).
  split; [|split].
  - now apply UpsertFacts.keys_upsert_NoDup.
  - intro k.
    rewrite UpsertFacts.keys_upsert_In, map_app, in_app_iff, Hk.
    simpl. intuition.
  - intros k d. rewrite UpsertFacts.get_upsert.
    destruct (String.eqb_spec (income_month i) k) as [<-|N].
    + intro H. injection H as <-.
      cbn [m_expenses m_income m_categories].
      destruct B as (Be & Bi & Bc). split; [|split].
      * exact Be.
      * now apply TrendFacts.group_sum_same.
      * exact Bc.
    + intro H. destruct (Hv _ _ H) as (He & Hi & Hc). split; [|split].
      * exact He.
      * now apply TrendFacts.group_sum_other.
      * exact Hc.
Qed.

(** The two loops of [getMonthlyBreakdown]. *)
Lemma month_table_loops (es : list ExpenseData.Expense) (ys : list IncomeData.Income) :
  month_table es ys (fold_left add_month_income ys (fold_left add_month_expense es [])).
Proof.
  apply (@fold_left_invariant _ _ add_month_income (fun p o => month_table es p o)
           (fun p o x => @month_table_income es p o x) ys []).
  apply (@fold_left_invariant _ _ add_month_expense (fun p o => month_table p [] o)
           (fun p o x => @month_table_expense p [] o x) es []).
  repeat split; simpl; try tauto; try discriminate. constructor.
Qed.

(** [slice(0, n)] for a count that is not negative: the first [n]. *)
Lemma slice0_count (A : Type) (l : list A) (n : Z) :
  (0 <= n)%Z -> slice0 l n = firstn (Z.to_nat n) l.
Proof.
  intro H. unfold slice0, relative.
  destruct (Z.ltb_spec n 0) as [F|_]; [lia|].
  destruct (Nat.le_ge_cases (Z.to_nat n) (List.length l)) as [L|L].
  - now rewrite Nat.min_l.
  - rewrite Nat.min_r by assumption. now rewrite !firstn_all2.
Qed.

Section ByAmount.
Variable A : Type.
Variable amount : A -> number.

(** Sorting by [(a, b) => b.amount - a.amount] puts finite amounts in
    descending order. *)
Lemma sort_by_amount_desc (l : list A) :
  Forall (fun x => is_finite (amount x) = true) l ->
  StronglySorted (fun a b => value (amount b) <= value (amount a))
    (sort (fun a b => sub (amount b) (amount a)) l).
Proof.
  intro Hf.
  set (c := fun a b => sub (amount b) (amount a)).
  assert (Hafter : forall x y, is_finite (amount x) = true ->
                               is_finite (amount y) = true ->
                               (after c x y = true <-> value (amount x) < value (amount y))).
  { intros x y Hx Hy. unfold after, c.
    destruct (amount x), (amount y); try discriminate.
    apply JSFacts.gt_sub_zero. }
  assert (Ho : ordered c (sort c l)).
  { apply JSFacts.sort_ordered with (ok := fun x => is_finite (amount x) = true);
      [| |exact Hf].
    - intros x y Hx Hy H. apply not_true_iff_false.
      rewrite Hafter in * by assumption.
      intro H'. exact (Qlt_irrefl _ (Qlt_trans _ _ _ H H')).
    - intros x y z Hx Hy Hz H1 H2. apply not_true_iff_false.
      apply not_true_iff_false in H1, H2.
      rewrite Hafter in * by assumption.
      apply Qnot_lt_le in H1, H2. apply Qle_not_lt.
      eapply Qle_trans; eassumption. }
  assert (Hf' : Forall (fun x => is_finite (amount x) = true) (sort c l))
    by now apply JSFacts.sort_Forall.
  revert Ho Hf'. generalize (sort c l). intros s Ho.
  induction Ho as [|x s Hs IH Hx]; intro Hf'; constructor.
  - apply IH. now inversion Hf'.
  - inversion Hf' as [|? ? Fx Fs]; subst.
    rewrite Forall_forall in *. intros y Hy.
    apply Qnot_lt_le. rewrite <- Hafter by auto.
    apply not_true_iff_false. auto.
Qed.
End ByAmount.

End MonthFacts.

(** ** Looking up, replacing and removing by id *)

Module StoreOps.
Import JS.

Section ById.
Variable A : Type.
Variable id : A -> string.
Variable id0 : string.

Local Abbreviation has_id := (fun x : A => (id x =? id0)%string).

Lemma findIndex_first (l1 l2 : list A) (x : A) :
  Forall (fun y => id y <> id0) l1 -> id x = id0 ->
  findIndex has_id (l1 ++ x :: l2) = Z.of_nat (List.length l1).
Proof.
  intros H Hx.
  induction H as [|y l1 Hy _ IH]; cbn [List.app findIndex List.length].
  - apply String.eqb_eq in Hx. now rewrite Hx.
  - apply String.eqb_neq in Hy. rewrite Hy, IH.
    destruct (Z.eqb_spec (Z.of_nat (List.length l1)) (-1)); lia.
Qed.

Lemma index_at (l1 l2 : list A) (x : A) :
  index (l1 ++ x :: l2) (Z.of_nat (List.length l1)) = Some x.
Proof.
  unfold index. destruct (Z.ltb_spec (Z.of_nat (List.length l1)) 0); [lia|].
  rewrite Nat2Z.id, nth_error_app2, Nat.sub_diag by lia. reflexivity.
Qed.

Lemma set_nth_at (l1 l2 : list A) (x v : A) :
  set_nth (l1 ++ x :: l2) (List.length l1) v = l1 ++ v :: l2.
Proof. induction l1 as [|y l1 IH]; simpl; [reflexivity|now rewrite IH]. Qed.

Lemma set_index_at (l1 l2 : list A) (x v : A) :
  set_index (l1 ++ x :: l2) (Z.of_nat (List.length l1)) v = l1 ++ v :: l2.
Proof.
  unfold set_index. destruct (Z.ltb_spec (Z.of_nat (List.length l1)) 0); [lia|].
  rewrite Nat2Z.id. apply set_nth_at.
Qed.

(** The first element with the id, when there is one. *)
Lemma first_with_id (l : list A) :
  Exists (fun x => id x = id0) l ->
  exists l1 x l2,
    l = l1 ++ x :: l2 /\ id x = id0 /\ Forall (fun y => id y <> id0) l1.
Proof.
  induction 1 as [x l Hx|x l _ (l1 & y & l2 & -> & Hy & Hl1)].
  - exists [], x, l. auto.
  - destruct (String.eqb_spec (id x) id0) as [E|E].
    + exists [], x, (l1 ++ y :: l2). auto.
    + exists (x :: l1), y, l2. auto.
Qed.

Lemma not_In_differs (l : list A) :
  ~ In id0 (map id l) -> Forall (fun y => id y <> id0) l.
Proof.
  intro H. apply Forall_forall. intros y Hy E. apply H.
  rewrite <- E. now apply in_map.
Qed.
End ById.

End StoreOps.

Module DeleteFacts.
Import JS.

Lemma filter_filter (A : Type) (p q : A -> bool) (l : list A) :
  List.filter p (List.filter q l) = List.filter (fun x => q x && p x) l.
Proof.
  induction l as [|x l IH]; simpl; [reflexivity|].
  destruct (q x); simpl; [destruct (p x)|]; now rewrite IH.
Qed.

Lemma filter_id (A : Type) (p : A -> bool) (l : list A) :
  Forall (fun x => p x = true) l -> List.filter p l = l.
Proof.
  induction 1 as [|x l Hx _ IH]; simpl; [reflexivity|]. now rewrite Hx, IH.
Qed.

Section Unique.
Variable A : Type.
Variable id : A -> string.

Local Abbreviation has_id := (fun (id0 : string) (x : A) => (id x =? id0)%string).

Lemma NoDup_filter_ids (p : A -> bool) (l : list A) :
  NoDup (map id l) -> NoDup (map id (List.filter p l)).
Proof.
  induction l as [|x l IH]; simpl; [auto|].
  intro H. inversion H as [|? ? Hx Hl]; subst.
  destruct (p x); simpl; auto. constructor; auto.
  intro F. apply Hx. apply in_map_iff in F. destruct F as (y & E & Hy).
  apply filter_In in Hy. rewrite <- E. apply in_map, Hy.
Qed.

Lemma others_differ (x : A) (l : list A) :
  ~ In (id x) (map id l) ->
  List.filter (fun y => negb (id y =? id x)%string) l = l.
Proof.
  intro H. apply filter_id, Forall_forall. intros y Hy.
  apply negb_true_iff, String.eqb_neq. intro F. apply H.
  rewrite <- F. now apply in_map.
Qed.

(** With ids that are unique, taking the first record with an id out is
    taking every record with that id out. *)
Lemma splice_first_unique (id0 : string) (l : list A) :
  NoDup (map id l) ->
  let index := findIndex (has_id id0) l in
  (index =? -1)%Z = negb (existsb (has_id id0) l)
  /\ (if (index =? -1)%Z then l else splice1 l index) =
     List.filter (fun x => negb (id x =? id0)%string) l.
Proof.
  intro Hnd. cbv zeta.
  induction l as [|x l IH]; [split; reflexivity|].
  inversion Hnd as [|? ? Hx Hl]; subst. destruct (IH Hl) as [IH1 IH2].
  cbn [findIndex existsb List.filter].
  destruct (String.eqb_spec (id x) id0) as [E|E]; cbn [negb orb].
  - split; [reflexivity|]. cbn [Z.eqb]. unfold splice1, relative. cbn.
    subst id0. symmetry. now apply others_differ.
  - destruct (Z.eqb_spec (findIndex (has_id id0) l) (-1)) as [F|F].
    + split; [exact IH1|]. cbn [Z.eqb]. now rewrite <- IH2.
    + pose proof (StoreFacts.findIndex_range (has_id id0) l) as R.
      destruct (Z.eqb_spec (findIndex (has_id id0) l + 1) (-1)); [lia|].
      split; [exact IH1|]. rewrite <- IH2.
      unfold splice1, relative.
      set (i := findIndex _ l) in *.
      destruct (Z.ltb_spec (i + 1) 0); [lia|]. destruct (Z.ltb_spec i 0); [lia|].
      replace (Z.to_nat (i + 1)) with (S (Z.to_nat i)) by lia.
      cbn [List.length]. rewrite <- Nat.succ_min_distr. reflexivity.
Qed.

(** Among unique ids at most one record has a given id. *)
Lemma one_with_id (id0 : string) (l : list A) :
  NoDup (map id l) ->
  (Z.of_nat (List.length l)
   - Z.of_nat (List.length (List.filter (fun x => negb (id x =? id0)%string) l))
   = if existsb (has_id id0) l then 1 else 0)%Z.
Proof.
  induction l as [|x l IH]; [reflexivity|].
  intro H. inversion H as [|? ? Hx Hl]; subst. specialize (IH Hl).
  cbn [List.filter existsb].
  destruct (String.eqb_spec (id x) id0) as [E|E]; cbn [negb orb].
  - subst id0. rewrite others_differ by assumption. cbn [List.length]. lia.
  - cbn [List.length]. rewrite !Nat2Z.inj_succ. lia.
Qed.

Lemma filter_out_id (id0 : string) (l : list A) :
  ~ In id0 (map id (List.filter (fun x => negb (id x =? id0)%string) l)).
Proof.
  intro F. apply in_map_iff in F. destruct F as (y & E & Hy).
  apply filter_In in Hy. destruct Hy as [_ Hy].
  apply negb_true_iff, String.eqb_neq in Hy. contradiction.
Qed.
End Unique.

Lemma deleteExpenses_removed (ids : list string) (l : list ExpenseData.Expense) :
  (List.length
     (List.filter (fun e => negb (ExpenseData.includes_id ids (ExpenseData.id e))) l)
   + List.length
       (List.filter (fun e => ExpenseData.includes_id ids (ExpenseData.id e)) l)
   = List.length l)%nat.
Proof.
  induction l as [|x l IH]; simpl; [reflexivity|].
  destruct (ExpenseData.includes_id ids (ExpenseData.id x)); simpl; lia.
Qed.

Lemma includes_id_In (ids : list string) (id0 : string) :
  ExpenseData.includes_id ids id0 = true <-> In id0 ids.
Proof.
  unfold ExpenseData.includes_id. rewrite existsb_exists. split.
  - intros (i & Hi & E). apply String.eqb_eq in E. now subst.
  - intro H. exists id0. split; [assumption|apply String.eqb_refl].
Qed.

Lemma deleteExpense_filter (id0 : string) (l : list ExpenseData.Expense) :
  NoDup (map ExpenseData.id l) ->
  ExpenseData.deleteExpense id0 l =
  (existsb (fun e => (ExpenseData.id e =? id0)%string) l,
   List.filter (fun e => negb (ExpenseData.id e =? id0)%string) l).
Proof.
  intro Hnd. destruct (@splice_first_unique _ ExpenseData.id id0 l Hnd) as [H1 H2].
  unfold ExpenseData.deleteExpense. cbv zeta. rewrite <- H2.
  rewrite H1. now destruct (existsb _ l).
Qed.

Lemma deleteIncome_filter (id0 : string) (l : list IncomeData.Income) :
  NoDup (map IncomeData.id l) ->
  IncomeData.deleteIncome id0 l =
  (existsb (fun i => (IncomeData.id i =? id0)%string) l,
   List.filter (fun i => negb (IncomeData.id i =? id0)%string) l).
Proof.
  intro Hnd. destruct (@splice_first_unique _ IncomeData.id id0 l Hnd) as [H1 H2].
  unfold IncomeData.deleteIncome. cbv zeta. rewrite <- H2.
  rewrite H1. now destruct (existsb _ l).
Qed.

Lemma delete_each_from (ids : list string) (l : list ExpenseData.Expense) (n : Z) :
  NoDup (map ExpenseData.id l) ->
  fold_left
    (fun '(n, stored) id0 =>
       let (removed, stored) := ExpenseData.deleteExpense id0 stored in
       ((if removed then n + 1 else n)%Z, stored))
    ids (n, l)
  = ((n + fst (ExpenseData.deleteExpenses ids l))%Z,
     snd (ExpenseData.deleteExpenses ids l)).
Proof.
  revert l n. induction ids as [|i ids IH]; intros l n Hnd.
  - unfold ExpenseData.deleteExpenses.
    cbn [fold_left fst snd ExpenseData.includes_id existsb negb].
    rewrite filter_id by (apply Forall_forall; reflexivity).
    f_equal. lia.
  - cbn [fold_left]. rewrite deleteExpense_filter by assumption.
    set (l1 := List.filter (fun e => negb (ExpenseData.id e =? i)%string) l).
    pose proof (@one_with_id _ ExpenseData.id i l Hnd) as H1. fold l1 in H1.
    assert (E : List.filter
                  (fun e => negb (ExpenseData.includes_id (i :: ids) (ExpenseData.id e))) l
                = List.filter
                    (fun e => negb (ExpenseData.includes_id ids (ExpenseData.id e))) l1).
    { unfold l1. rewrite filter_filter. apply filter_ext. intro e.
      unfold ExpenseData.includes_id. cbn [existsb].
      rewrite negb_orb, (String.eqb_sym i). reflexivity. }
    destruct (existsb _ l);
      rewrite IH by (apply NoDup_filter_ids, Hnd);
      unfold ExpenseData.deleteExpenses; cbn [fst snd]; rewrite E; f_equal; lia.
Qed.

End DeleteFacts.

(** ** The latest records *)

Module RecentFacts.
Import JS.
Import RecentSpec.

Lemma sorted_firstn (A : Type) (R : A -> A -> Prop) (n : nat) (l : list A) :
  StronglySorted R l ->
  StronglySorted R (firstn n l)
  /\ forall x y, In x (firstn n l) -> In y (skipn n l) -> R x y.
Proof.
  intro H. revert n. induction H as [|a l Hl IH Ha]; intro n.
  - rewrite firstn_nil, skipn_nil. split; [constructor|]. intros x y [].
  - destruct n as [|n]; simpl.
    + split; [constructor|]. intros x y [].
    + destruct (IH n) as [S1 S2]. split.
      * constructor; [assumption|].
        rewrite Forall_forall in *. intros y Hy. apply Ha.
        rewrite <- (firstn_skipn n l). apply in_or_app. now left.
      * intros x y [ <- | Hx ] Hy.
        -- rewrite Forall_forall in Ha. apply Ha.
           rewrite <- (firstn_skipn n l). apply in_or_app. now right.
        -- now apply S2.
Qed.

Section Latest.
Variable A : Type.
Variable date : A -> string.

Local Abbreviation by_date_desc :=
  (fun a b : A => sub (Date_getTime (date b)) (Date_getTime (date a))).

Lemma slice_sorted_latest (n : Z) (l : list A) :
  Forall (fun a => is_iso_date (date a) = true) l -> (0 <= n)%Z ->
  latest date n l (slice0 (sort by_date_desc l) n).
Proof.
  intros Hd Hn. rewrite MonthFacts.slice0_count by assumption.
  pose proof (DateSort.sort_by_date_descending date Hd) as S.
  destruct (sorted_firstn (Z.to_nat n) S) as [S1 S2].
  split; [|split].
  - now rewrite length_firstn, JSFacts.sort_length.
  - exact S1.
  - exists (skipn (Z.to_nat n) (sort by_date_desc l)). split.
    + rewrite firstn_skipn. apply JSFacts.sort_perm.
    + exact S2.
Qed.

(** A negative limit counts from the end. *)
Lemma slice_negative (n : Z) (l : list A) :
  (n < 0)%Z ->
  List.length (slice0 l n) = Z.to_nat (Z.max (Z.of_nat (List.length l) + n) 0).
Proof.
  intro H. unfold slice0, relative. destruct (Z.ltb_spec n 0); [|lia].
  rewrite length_firstn. lia.
Qed.
End Latest.

End RecentFacts.

(** ** Groups by date *)

Module GroupFacts.
Import JS.
Import AggregateSpec.
Import GroupSpec.
Import ExpenseData.

Lemma push_by_date_upsert (o : obj (list Expense)) (x : Expense) :
  push_by_date o x =
  Analytics.modify (Analytics.ensure o (date x) []) (date x) (fun l => l ++ [x]).
Proof. reflexivity. Qed.

Lemma on_date_snoc (k : string) (p : list Expense) (x : Expense) :
  FilterSpec.on_date k (p ++ [x]) =
  FilterSpec.on_date k p ++ (if (date x =? k)%string then [x] else []).
Proof.
  unfold FilterSpec.on_date. rewrite filter_app. simpl.
  now destruct (date x =? k)%string.
Qed.

Lemma on_date_absent (k : string) (p : list Expense) :
  ~ In k (map date p) -> FilterSpec.on_date k p = [].
Proof.
  intro H. unfold FilterSpec.on_date.
  induction p as [|y p IH]; simpl; [reflexivity|].
  destruct (String.eqb_spec (date y) k) as [E|E].
  - exfalso. apply H. simpl. now left.
  - apply IH. intro F. apply H. simpl. now right.
Qed.

Lemma grouped_step (p : list Expense) (o : obj (list Expense)) (x : Expense) :
  grouped_by_date p o -> grouped_by_date (p ++ [x]) (push_by_date o x).
Proof.
  intros (Hnd & Hk & Hv). rewrite push_by_date_upsert. split; [|split].
  - now apply UpsertFacts.keys_upsert_NoDup.
  - intro k. rewrite UpsertFacts.keys_upsert_In, map_app, in_app_iff, Hk.
    simpl. intuition.
  - intros k l. rewrite UpsertFacts.get_upsert, on_date_snoc.
    destruct (String.eqb_spec (date x) k) as [<-|N].
    + intro H. injection H as <-.
      destruct (get o (date x)) as [v|] eqn:G.
      * destruct (Hv _ _ G) as [-> _]. split; [reflexivity|].
        intro F. now apply app_eq_nil in F.
      * apply ObjFacts.get_None in G. rewrite Hk in G.
        rewrite on_date_absent by assumption. split; [reflexivity|discriminate].
    + intro H. rewrite app_nil_r. now apply Hv.
Qed.

Lemma grouped_loop (p : list Expense) :
  grouped_by_date p (fold_left push_by_date p []).
Proof.
  apply (@SumFacts.fold_left_invariant _ _ push_by_date grouped_by_date
           grouped_step p []).
  repeat split; simpl; try tauto; try discriminate. constructor.
Qed.

(** ** A list sorted by date *)

Lemma set_last (V : Type) (o : obj V) (k : string) (v w : V) :
  ~ In k (keys o) -> set (o ++ [(k, v)]) k w = o ++ [(k, w)].
Proof.
  induction o as [|[k0 v0] o IH]; simpl.
  - now rewrite String.eqb_refl.
  - intro H. destruct (String.eqb_spec k0 k) as [E|E]; [tauto|].
    rewrite IH; tauto.
Qed.

Lemma set_new (V : Type) (o : obj V) (k : string) (v : V) :
  ~ In k (keys o) -> set o k v = o ++ [(k, v)].
Proof.
  induction o as [|[k0 v0] o IH]; simpl; [reflexivity|].
  intro H. destruct (String.eqb_spec k0 k) as [E|E]; [tauto|].
  rewrite IH; tauto.
Qed.

Lemma get_last (V : Type) (o : obj V) (k : string) (v : V) :
  ~ In k (keys o) -> get (o ++ [(k, v)]) k = Some v.
Proof.
  induction o as [|[k0 v0] o IH]; simpl.
  - now rewrite String.eqb_refl.
  - intro H. destruct (String.eqb_spec k0 k) as [E|E]; [tauto|]. apply IH. tauto.
Qed.

Lemma flatten_app (o1 o2 : obj (list Expense)) :
  flatten (o1 ++ o2) = flatten o1 ++ flatten o2.
Proof. unfold flatten. now rewrite map_app, concat_app. Qed.

Lemma sorted_app (A : Type) (R : A -> A -> Prop) (l1 l2 : list A) :
  StronglySorted R (l1 ++ l2) ->
  StronglySorted R l1 /\ StronglySorted R l2
  /\ forall x y, In x l1 -> In y l2 -> R x y.
Proof.
  induction l1 as [|a l1 IH]; simpl; intro H.
  - split; [constructor|]. split; [assumption|]. intros x y [].
  - inversion H as [|? ? Hs Ha]; subst. destruct (IH Hs) as (S1 & S2 & S12).
    rewrite Forall_forall in Ha. split; [|split; [assumption|]].
    + constructor; [assumption|]. apply Forall_forall. intros y Hy.
      apply Ha, in_or_app. now left.
    + intros x y [ <- | Hx ] Hy; [|now apply S12].
      apply Ha, in_or_app. now right.
Qed.

Lemma descending_NoDup (V : Type) (o : obj V) :
  StronglySorted (fun a b => String.ltb (fst b) (fst a) = true) o ->
  NoDup (keys o).
Proof.
  induction 1 as [|kv o _ IH Hlt]; simpl; constructor; [|exact IH].
  intro F. unfold keys in F. apply in_map_iff in F. destruct F as (kv' & E & Hin).
  rewrite Forall_forall in Hlt. specialize (Hlt _ Hin).
  rewrite E, StringOrder.ltb_irrefl in Hlt. discriminate.
Qed.

Lemma descending_snoc (V : Type) (o : obj V) (kv : string * V) :
  StronglySorted (fun a b => String.ltb (fst b) (fst a) = true) o ->
  Forall (fun a => String.ltb (fst kv) (fst a) = true) o ->
  StronglySorted (fun a b => String.ltb (fst b) (fst a) = true) (o ++ [kv]).
Proof.
  induction 1 as [|a o _ IH Hlt]; intro H; simpl.
  - constructor; constructor.
  - inversion H as [|? ? Ha Ho]; subst. constructor; [now apply IH|].
    apply Forall_app. split; [assumption|]. constructor; [assumption|constructor].
Qed.

(** The record read next is not later than any read before it. *)
Lemma runs_step (p : list Expense) (o : obj (list Expense)) (x : Expense) :
  Forall (fun y => String.leb (date x) (date y) = true) p ->
  runs_by_date p o -> runs_by_date (p ++ [x]) (push_by_date o x).
Proof.
  intros Hx (Hf & Hg & Hs). unfold push_by_date. cbv zeta.
  (* every key is the date of a record read before *)
  assert (Hkey : forall kv, In kv o -> String.leb (date x) (fst kv) = true).
  { intros kv Hin. rewrite Forall_forall in Hg, Hx.
    destruct (Hg kv Hin) as [Hne Hd]. destruct (snd kv) as [|y l] eqn:E; [congruence|].
    apply Forall_inv in Hd. rewrite <- Hd. apply Hx.
    rewrite <- Hf. unfold flatten. apply in_concat. exists (snd kv).
    split; [now apply in_map|]. rewrite E. now left. }
  pose proof (descending_NoDup Hs) as Hnd.
  destruct (get o (date x)) as [l|] eqn:G.
  - (* the date is the last key *)
    rewrite G. apply ObjFacts.get_Some_In in G.
    apply in_split in G. destruct G as (o1 & o2 & ->).
    assert (o2 = []) as ->.
    { destruct o2 as [|kv o2]; [reflexivity|exfalso].
      apply sorted_app in Hs. destruct Hs as (_ & Hs & _).
      inversion Hs as [|? ? _ Hlt]; subst.
      inversion Hlt as [|? ? Hkv _]; subst. cbn [fst] in Hkv.
      assert (F : String.leb (date x) (fst kv) = true)
        by (apply Hkey, in_or_app; right; right; now left).
      apply DateFacts.ltb_false_leb in F. congruence. }
    assert (Hn : ~ In (date x) (keys o1)).
    { unfold keys in Hnd. rewrite map_app in Hnd. apply NoDup_remove_2 in Hnd.
      now rewrite app_nil_r in Hnd. }
    rewrite set_last by assumption. split; [|split].
    + rewrite flatten_app in *. unfold flatten in *. simpl in *.
      rewrite app_nil_r in *. now rewrite <- Hf, app_assoc.
    + apply Forall_app in Hg. destruct Hg as [Hg1 Hg2].
      apply Forall_app. split; [assumption|]. constructor; [|constructor].
      inversion Hg2 as [|? ? [_ Hl] _]; subst. cbn [fst snd] in *. split.
      * intro F. now apply app_eq_nil in F.
      * apply Forall_app. split; [assumption|]. now constructor.
    + apply descending_snoc.
      * now apply sorted_app in Hs.
      * apply Forall_forall. intros kv Hin. cbn [fst].
        assert (Hin' : In kv (o1 ++ [(date x, l)])) by (apply in_or_app; now left).
        specialize (Hkey _ Hin').
        destruct (StringOrder.ltb_total (date x) (fst kv)) as [H|[H|H]];
          [assumption| |].
        -- exfalso. apply Hn. rewrite H. now apply in_map.
        -- apply DateFacts.ltb_false_leb in Hkey. congruence.
  - (* a date not seen before *)
    pose proof G as Hn. apply ObjFacts.get_None in Hn. cbv beta iota.
    rewrite ObjFacts.get_set, String.eqb_refl.
    rewrite (@set_new _ o (date x) [] Hn). cbv beta iota.
    rewrite set_last by assumption.
    split; [|split].
    + rewrite flatten_app. unfold flatten in *. simpl. now rewrite Hf.
    + apply Forall_app. split; [assumption|]. constructor; [|constructor].
      cbn [fst snd]. split; [discriminate|]. now constructor.
    + apply descending_snoc; [assumption|].
      apply Forall_forall. intros kv Hin. cbn [fst].
      specialize (Hkey _ Hin).
      destruct (StringOrder.ltb_total (date x) (fst kv)) as [H|[H|H]];
        [assumption| |].
      * exfalso. apply Hn. rewrite H. now apply in_map.
      * apply DateFacts.ltb_false_leb in Hkey. congruence.
Qed.

(** The loop over a list that is sorted by date. *)
Lemma runs_loop (p : list Expense) :
  FilterSpec.expenses_descending p ->
  runs_by_date p (fold_left push_by_date p []).
Proof.
  intro Hs.
  assert (G : forall q r o,
             FilterSpec.expenses_descending (q ++ r) -> runs_by_date q o ->
             runs_by_date (q ++ r) (fold_left push_by_date r o)).
  { intros q r. revert q. induction r as [|x r IH]; intros q o Hqr Ho.
    - now rewrite app_nil_r.
    - cbn [fold_left].
      replace (q ++ x :: r) with ((q ++ [x]) ++ r) in * by now rewrite <- app_assoc.
      apply IH; [assumption|]. apply runs_step; [|assumption].
      unfold FilterSpec.expenses_descending in Hqr.
      apply sorted_app in Hqr. destruct Hqr as (Hqr & _ & _).
      apply sorted_app in Hqr. destruct Hqr as (_ & _ & Hqr).
      apply Forall_forall. intros y Hy. apply Hqr; [assumption|now left]. }
  apply (G [] p []); [assumption|].
  split; [reflexivity|]. split; constructor.
Qed.

End GroupFacts.

(** ** Breakdowns and their totals *)

Module BreakdownFacts.
Import JS.
Import AggregateSpec.

Lemma tallied_perm (A : Type) (key : A -> string) (val : A -> Q)
  (p q : list A) (o : obj number) :
  Permutation p q -> tallied key val p o -> tallied key val q o.
Proof.
  intros Hp (Hnd & Hk & Hv). split; [exact Hnd|]. split.
  - intro k. rewrite Hk. split; apply Permutation_in.
    + now apply Permutation_map.
    + now apply Permutation_map, Permutation_sym.
  - intros k n G. eapply SumFacts.num_is_eq; [apply Hv, G|].
    now apply SumFacts.group_sum_perm.
Qed.

(** An average over a count that is not zero. *)
Lemma num_is_average (total : number) (T : Q) (n : nat) :
  num_is total T -> (0 < n)%nat ->
  num_is (if (0 <? n)%nat then div total (of_nat n) else zero)
         (T / inject_Z (Z.of_nat n)).
Proof.
  intros H Hn. destruct (Nat.ltb_spec 0 n) as [_|F]; [|lia].
  destruct total as [x| |]; simpl in H; try contradiction.
  unfold of_nat, div.
  destruct (Qeq_bool (inject_Z (Z.of_nat n)) 0) eqn:E.
  - apply Qeq_bool_iff in E. unfold Qeq in E. simpl in E. lia.
  - simpl. now rewrite H.
Qed.

(** The sums of the groups of the keys of a list add up to the sum of
    the list. *)
Lemma sum_of_groups (A : Type) (key : A -> string) (val : A -> Q)
  (ks : list string) (l : list A) :
  NoDup ks -> (forall x, In x l -> In (key x) ks) ->
  sumQ (map (fun k => group_sum key val k l) ks) == sumQ (map val l).
Proof.
  intros Hnd. induction l as [|x l IH]; intro Hk.
  - unfold group_sum. simpl. clear. induction ks; simpl; [reflexivity|].
    rewrite IHks. ring.
  - assert (E : forall k, group_sum key val k (x :: l) ==
                          (if (key x =? k)%string then val x else 0)
                          + group_sum key val k l).
    { intro k. unfold group_sum. simpl.
      destruct (key x =? k)%string; simpl; [reflexivity|ring]. }
    rewrite (SummaryFacts.sumQ_ext _
               (fun k => (if (key x =? k)%string then val x else 0)
                         + group_sum key val k l))
      by (apply Forall_forall; intros k _; apply E).
    assert (S : forall (f g : string -> Q) ks',
               sumQ (map (fun k => f k + g k) ks') == sumQ (map f ks') + sumQ (map g ks')).
    { intros f g ks'. induction ks' as [|k ks' IHk]; simpl; [ring|]. rewrite IHk. ring. }
    rewrite S, IH by (intros y Hy; apply Hk; now right). simpl.
    apply Qplus_inj_r.
    assert (Hin : In (key x) ks) by (apply Hk; now left).
    clear - Hnd Hin. induction Hnd as [|k ks Hk _ IHnd]; [destruct Hin|].
    simpl. destruct (String.eqb_spec (key x) k) as [E|E].
    + assert (Z0 : sumQ (map (fun k0 => if (key x =? k0)%string then val x else 0) ks) == 0).
      { rewrite E. clear - Hk. induction ks as [|k' ks IH]; simpl; [reflexivity|].
        destruct (String.eqb_spec k k') as [F|F].
        - exfalso. apply Hk. now left.
        - rewrite IH; [ring|]. intro G. apply Hk. now right. }
      rewrite Z0. ring.
    + destruct Hin as [F|Hin]; [congruence|]. rewrite IHnd by assumption. ring.
Qed.

(** The values of a tally add up to the sum of what was read. *)
Lemma tallied_sum (A : Type) (key : A -> string) (val : A -> Q)
  (p : list A) (o : obj number) :
  tallied key val p o -> obj_sum o == sumQ (map val p).
Proof.
  intros (Hnd & Hk & Hv).
  rewrite <- (@sum_of_groups A key val (keys o) p Hnd)
    by (intros x Hx; apply Hk; now apply in_map).
  unfold obj_sum, keys. rewrite map_map.
  apply SummaryFacts.sumQ_ext, Forall_forall. intros [k n] Hin. cbn [fst snd].
  apply (@ObjFacts.In_get _ o k n Hnd) in Hin. apply Hv in Hin.
  destruct n; simpl in *; tauto.
Qed.

End BreakdownFacts.

Module TableFacts.
Import JS.
Import AggregateSpec.

Lemma sumQ_minus (A : Type) (a b : A -> Q) (l : list A) :
  sumQ (map (fun x => a x - b x) l) == sumQ (map a l) - sumQ (map b l).
Proof. induction l as [|x l IH]; simpl; [ring|]. rewrite IH. ring. Qed.

(** The sum of a column of the rows made of a table, in any order, when
    the column is known key by key. *)
Lemma rows_sum (V R : Type) (o : obj V) (row : string * V -> R) (rows : list R)
  (col : R -> number) (g : string -> Q) :
  Permutation rows (map row o) ->
  (forall kv, In kv o -> num_is (col (row kv)) (g (fst kv))) ->
  num_is (reduce_sum col rows) (sumQ (map g (keys o))).
Proof.
  intros Hp H.
  assert (Hf : Forall (fun r => is_finite (col r) = true) rows).
  { apply Forall_forall. intros r Hr.
    apply (Permutation_in _ Hp), in_map_iff in Hr. destruct Hr as (kv & <- & Hin).
    eapply SumFacts.num_is_finite, H, Hin. }
  eapply SumFacts.num_is_eq; [apply SummaryFacts.reduce_sum_finite, Hf|].
  rewrite (SumFacts.sumQ_perm (Permutation_map _ Hp)).
  unfold keys. rewrite !map_map. apply SummaryFacts.sumQ_ext, Forall_forall.
  intros kv Hin. specialize (H _ Hin). destruct (col (row kv)); simpl in *; tauto.
Qed.
End TableFacts.

(** ** The days of a month *)

Module DailyFacts.
Import JS.
Import DailySpec.
Local Open Scope Z_scope.

(** ** The bounds of the month *)

Ltac digit_cases k H :=
  assert (k = 0 \/ k = 1 \/ k = 2 \/ k = 3 \/ k = 4 \/ k = 5 \/ k = 6 \/ k = 7
          \/ k = 8 \/ k = 9) as H by lia;
  repeat (destruct H as [H|H]); subst k.

Lemma of_uint_acc_digit (k : Z) (l : uint) (acc : positive) :
  0 <= k <= 9 ->
  Pos.of_uint_acc (digit_uint k l) acc =
  Pos.of_uint_acc l (Z.to_pos (k + 10 * Z.pos acc)).
Proof. intro B. digit_cases k C; reflexivity. Qed.

Lemma of_uint_digit (k : Z) (l : uint) :
  1 <= k <= 9 ->
  Pos.of_uint (digit_uint k l) = N.pos (Pos.of_uint_acc l (Z.to_pos k)).
Proof. intro B. digit_cases k C; try lia; reflexivity. Qed.

Lemma unorm_digit (k : Z) (l : uint) :
  1 <= k <= 9 -> unorm (digit_uint k l) = digit_uint k l.
Proof. intro B. digit_cases k C; try lia; reflexivity. Qed.

Lemma string_of_digit (k : Z) (l : uint) :
  0 <= k <= 9 ->
  NilEmpty.string_of_uint (digit_uint k l) =
  String (digit_char k) (NilEmpty.string_of_uint l).
Proof. intro B. digit_cases k C; reflexivity. Qed.

Lemma digit_of_char (k : Z) : 0 <= k <= 9 -> digit (digit_char k) = Some k.
Proof. intro B. digit_cases k C; reflexivity. Qed.

(** The text of a year of four digits. *)
Lemma year_text (y : Z) :
  1000 <= y <= 9999 ->
  exists a b c d,
    String_of_Z y = String a (String b (String c (String d EmptyString)))
    /\ four_digits a b c d = Some y.
Proof.
  intro H.
  set (a := y / 1000). set (b := y / 100 mod 10).
  set (c := y / 10 mod 10). set (d := y mod 10).
  assert (Ba : 1 <= a <= 9) by (unfold a; Z.div_mod_to_equations; lia).
  assert (Bb : 0 <= b <= 9) by (unfold b; Z.div_mod_to_equations; lia).
  assert (Bc : 0 <= c <= 9) by (unfold c; Z.div_mod_to_equations; lia).
  assert (Bd : 0 <= d <= 9) by (unfold d; Z.div_mod_to_equations; lia).
  assert (Ey : y = 1000 * a + 100 * b + 10 * c + d)
    by (unfold a, b, c, d; Z.div_mod_to_equations; lia).
  clearbody a b c d.
  set (u := digit_uint a (digit_uint b (digit_uint c (digit_uint d Nil)))).
  assert (V : Z.of_int (Pos u) = y).
  { unfold u. cbn [Z.of_int]. unfold Z.of_uint.
    rewrite of_uint_digit by assumption.
    rewrite !of_uint_acc_digit by assumption. cbn [Pos.of_uint_acc Z.of_N].
    rewrite !Z2Pos.id by lia. lia. }
  assert (T : Z.to_int y = Pos u).
  { rewrite <- V at 1. rewrite DecimalZ.to_of. cbn [norm]. f_equal.
    now apply unorm_digit. }
  exists (digit_char a), (digit_char b), (digit_char c), (digit_char d). split.
  - unfold String_of_Z. rewrite T. cbn [NilZero.string_of_int].
    unfold NilZero.string_of_uint, u.
    assert (N : forall l, digit_uint a l <> Nil)
      by (intro l; clear - Ba; digit_cases a C; try lia; cbn; discriminate).
    destruct (digit_uint a (digit_uint b (digit_uint c (digit_uint d Nil)))) eqn:E;
      try (now apply N in E); rewrite <- E;
      now rewrite !string_of_digit by lia.
  - unfold four_digits, two_digits. rewrite !digit_of_char by lia. f_equal. lia.
Qed.

Lemma month_text (m : Z) :
  1 <= m <= 12 ->
  exists a b,
    padStart (String_of_Z m) 2 "0" = String a (String b EmptyString)
    /\ two_digits a b = Some m.
Proof.
  intro H.
  assert (C : m = 1 \/ m = 2 \/ m = 3 \/ m = 4 \/ m = 5 \/ m = 6 \/ m = 7 \/ m = 8
              \/ m = 9 \/ m = 10 \/ m = 11 \/ m = 12) by lia.
  repeat (destruct C as [->|C]); try subst m;
    (eexists; eexists; split; [vm_compute; reflexivity|reflexivity]).
Qed.

(** The order of two strings of the shape of a date, whatever their
    months and days. *)
Lemma shape_compare (y1 y2 y3 y4 m1 m2 d1 d2 y1' y2' y3' y4' m1' m2' d1' d2' : ascii)
  (y m d y' m' d' : Z) :
  four_digits y1 y2 y3 y4 = Some y -> two_digits m1 m2 = Some m ->
  two_digits d1 d2 = Some d ->
  four_digits y1' y2' y3' y4' = Some y' -> two_digits m1' m2' = Some m' ->
  two_digits d1' d2' = Some d' ->
  String.compare
    (String y1 (String y2 (String y3 (String y4 (String "-"
      (String m1 (String m2 (String "-" (String d1 (String d2 EmptyString))))))))))
    (String y1' (String y2' (String y3' (String y4' (String "-"
      (String m1' (String m2' (String "-" (String d1' (String d2' EmptyString))))))))))
  = (date_number (y, m, d) ?= date_number (y', m', d')).
Proof.
  intros Hy Hm Hd Hy' Hm' Hd'.
  destruct (DateFacts.four_digits_spec _ _ _ _ Hy) as (c & r & Hc & Hr & -> & Bc & Br).
  destruct (DateFacts.four_digits_spec _ _ _ _ Hy') as (c' & r' & Hc' & Hr' & -> & Bc' & Br').
  destruct (DateFacts.two_digits_spec _ _ Hm) as (? & ? & _ & _ & Em & ? & ?).
  destruct (DateFacts.two_digits_spec _ _ Hm') as (? & ? & _ & _ & Em' & ? & ?).
  destruct (DateFacts.two_digits_spec _ _ Hd) as (? & ? & _ & _ & Ed & ? & ?).
  destruct (DateFacts.two_digits_spec _ _ Hd') as (? & ? & _ & _ & Ed' & ? & ?).
  rewrite DateFacts.two_digits_compare with (1 := Hc) (2 := Hc').
  rewrite DateFacts.two_digits_compare with (1 := Hr) (2 := Hr').
  rewrite DateFacts.compare_hyphen.
  rewrite DateFacts.two_digits_compare with (1 := Hm) (2 := Hm').
  rewrite DateFacts.compare_hyphen.
  rewrite DateFacts.two_digits_compare with (1 := Hd) (2 := Hd').
  cbn [String.compare date_number].
  destruct (Z.compare_spec c c') as [->|?|?];
    [destruct (Z.compare_spec r r') as [->|?|?];
     [destruct (Z.compare_spec m m') as [->|?|?];
      [destruct (Z.compare_spec d d') as [->|?|?]|..]|..]|..];
    symmetry;
    first [ apply Z.compare_eq_iff; lia
          | apply Z.compare_lt_iff; lia
          | apply Z.compare_gt_iff; lia ].
Qed.

(** The bounds [YYYY-MM-01] and [YYYY-MM-31] select the dates of the
    month. *)
Lemma month_range (year month : Z) (s : string) (y m d : Z) :
  1000 <= year <= 9999 -> 1 <= month <= 12 ->
  parse_date s = Some (y, m, d) ->
  String.leb (String_of_Z year ++ "-" ++ padStart (String_of_Z month) 2 "0" ++ "-01") s
  && String.leb s (String_of_Z year ++ "-" ++ padStart (String_of_Z month) 2 "0" ++ "-31")
  = (y =? year) && (m =? month).
Proof.
  intros Hy Hm Hs.
  destruct (@year_text year Hy) as (a & b & c & e & -> & Ey).
  destruct (@month_text month Hm) as (m1 & m2 & -> & Em).
  destruct (DateFacts.parse_date_inv _ Hs)
    as (y1 & y2 & y3 & y4 & n1 & n2 & d1 & d2 & y' & m' & d' & -> & Hy' & Hm' & Hd' & E
        & Bm & Bd).
  injection E as <- <- <-.
  pose proof (DateFacts.parse_date_calendar _ Hs) as (By & _ & Bd').
  assert (D31 : d <= 31).
  { unfold DaysInMonth in Bd'.
    destruct (m =? 2); [destruct (InLeapYear y)|destruct (_ || _)%bool]; lia. }
  cbn [append]. unfold String.leb.
  rewrite (@shape_compare a b c e m1 m2 "0" "1" y1 y2 y3 y4 n1 n2 d1 d2
             year month 1 y m d Ey Em eq_refl Hy' Hm' Hd').
  rewrite (@shape_compare y1 y2 y3 y4 n1 n2 d1 d2 a b c e m1 m2 "3" "1"
             y m d year month 31 Hy' Hm' Hd' Ey Em eq_refl).
  cbn [date_number].
  destruct (Z.eqb_spec y year) as [->|Ny]; [destruct (Z.eqb_spec m month) as [->|Nm]|].
  - replace (_ ?= _) with (1 ?= d) by (symmetry; apply Z.add_compare_mono_l).
    replace (year * 10000 + month * 100 + d ?= _) with (d ?= 31)
      by (symmetry; apply Z.add_compare_mono_l).
    destruct (Z.compare_spec 1 d), (Z.compare_spec d 31); try reflexivity; lia.
  - cbn [andb].
    destruct (Z.compare_spec (year * 10000 + month * 100 + 1) (year * 10000 + m * 100 + d)),
      (Z.compare_spec (year * 10000 + m * 100 + d) (year * 10000 + month * 100 + 31));
      try reflexivity; lia.
  - cbn [andb].
    destruct (Z.compare_spec (year * 10000 + month * 100 + 1) (y * 10000 + m * 100 + d)),
      (Z.compare_spec (y * 10000 + m * 100 + d) (year * 10000 + month * 100 + 31));
      try reflexivity; lia.
Qed.

(** ** The day of a date *)

Lemma digit_plain (c : ascii) (v : Z) :
  digit c = Some v ->
  (c =? "-")%char = false /\ (c =? "+")%char = false /\ is_white c = false.
Proof.
  intro H. apply DateFacts.digit_spec in H. destruct H as [H B].
  assert (N : (48 <= N_of_ascii c <= 57)%N) by lia.
  repeat split.
  - apply Ascii.eqb_neq. intros ->. cbn in N. lia.
  - apply Ascii.eqb_neq. intros ->. cbn in N. lia.
  - unfold is_white. cbv zeta.
    destruct (N.leb_spec 9 (N_of_ascii c)), (N.leb_spec (N_of_ascii c) 13),
      (N.eqb_spec (N_of_ascii c) 32), (N.eqb_spec (N_of_ascii c) 160);
      try reflexivity; lia.
Qed.

Lemma digit_not_x (c : ascii) (v : Z) :
  digit c = Some v -> (c =? "x")%char = false /\ (c =? "X")%char = false.
Proof.
  intro H. apply DateFacts.digit_spec in H. destruct H as [H B].
  assert (N : (48 <= N_of_ascii c <= 57)%N) by lia.
  split; apply Ascii.eqb_neq; intros ->; cbn in N; lia.
Qed.

Lemma parseInt_two_digits (a b : ascii) (n : Z) :
  two_digits a b = Some n ->
  parseInt (Some (String a (String b EmptyString))) = Some n.
Proof.
  intro H. destruct (DateFacts.two_digits_spec _ _ H) as (x & y & Ea & Eb & -> & _ & _).
  destruct (digit_plain _ Ea) as (A1 & A2 & A3).
  destruct (digit_not_x _ Eb) as (B1 & B2).
  unfold parseInt. cbn [trimStart]. rewrite A3, A1, A2, B1, B2, andb_false_r.
  cbn [digits_prefix]. rewrite Ea, Eb. f_equal. lia.
Qed.

Lemma split_date (y1 y2 y3 y4 m1 m2 d1 d2 : ascii) (y m d : Z) :
  four_digits y1 y2 y3 y4 = Some y -> two_digits m1 m2 = Some m ->
  two_digits d1 d2 = Some d ->
  split_on "-"
    (String y1 (String y2 (String y3 (String y4 (String "-"
      (String m1 (String m2 (String "-" (String d1 (String d2 EmptyString))))))))))
  = [ String y1 (String y2 (String y3 (String y4 EmptyString)));
      String m1 (String m2 EmptyString);
      String d1 (String d2 EmptyString) ]%list.
Proof.
  intros Hy Hm Hd.
  destruct (DateFacts.four_digits_spec _ _ _ _ Hy) as (c & r & Hc & Hr & _).
  destruct (DateFacts.two_digits_spec _ _ Hc) as (? & ? & E1 & E2 & _).
  destruct (DateFacts.two_digits_spec _ _ Hr) as (? & ? & E3 & E4 & _).
  destruct (DateFacts.two_digits_spec _ _ Hm) as (? & ? & E5 & E6 & _).
  destruct (DateFacts.two_digits_spec _ _ Hd) as (? & ? & E7 & E8 & _).
  apply digit_plain in E1, E2, E3, E4, E5, E6, E7, E8.
  destruct E1 as [E1 _], E2 as [E2 _], E3 as [E3 _], E4 as [E4 _],
    E5 as [E5 _], E6 as [E6 _], E7 as [E7 _], E8 as [E8 _].
  cbn [split_on]. rewrite E1, E2, E3, E4, E5, E6, E7, E8. reflexivity.
Qed.

Lemma day_of_date (e : ExpenseData.Expense) (y m d : Z) :
  parse_date (ExpenseData.date e) = Some (y, m, d) ->
  Analytics.day_of e = Some d.
Proof.
  intro H. unfold Analytics.day_of.
  destruct (DateFacts.parse_date_inv _ H)
    as (y1 & y2 & y3 & y4 & m1 & m2 & d1 & d2 & y' & m' & d' & -> & Hy & Hm & Hd & E & _).
  injection E as <- <- <-.
  rewrite (@split_date y1 y2 y3 y4 m1 m2 d1 d2 y m d Hy Hm Hd). cbn [nth_error].
  now apply parseInt_two_digits.
Qed.

(** ** The keys of the days *)

Lemma day_key (d : Z) :
  1 <= d <= 31 ->
  parseInt (Some (String_of_Z d)) = Some d /\ array_index (String_of_Z d) = Some d.
Proof.
  intro H.
  assert (C : forallb day_key_ok days = true) by (vm_compute; reflexivity).
  rewrite forallb_forall in C.
  assert (Hin : In d days).
  { apply in_map_iff. exists (Z.to_nat d). split; [lia|]. apply in_seq. lia. }
  specialize (C d Hin). unfold day_key_ok in C.
  destruct (parseInt (Some (String_of_Z d))) as [n|]; [|discriminate].
  destruct (array_index (String_of_Z d)) as [i|]; [|discriminate].
  apply andb_true_iff in C. destruct C as [C1 C2].
  apply Z.eqb_eq in C1, C2. now subst.
Qed.

(** ** The entries in the order of [Object.entries] *)

Lemma partition_perm (A : Type) (p : A -> bool) (l : list A) :
  Permutation (List.filter p l ++ List.filter (fun x => negb (p x)) l) l.
Proof.
  induction l as [|x l IH]; simpl; [constructor|].
  destruct (p x); simpl.
  - now constructor.
  - eapply perm_trans; [apply Permutation_sym, Permutation_middle|]. now constructor.
Qed.

Lemma own_entries_perm (V : Type) (o : obj V) : Permutation (own_entries o) o.
Proof.
  unfold own_entries. cbv zeta.
  eapply perm_trans; [|apply partition_perm].
  apply Permutation_app_tail, JSFacts.sort_perm.
Qed.

Lemma NoDup_map_finer (A B C : Type) (f : A -> B) (g : A -> C) (l : list A) :
  (forall x y, In x l -> In y l -> g x = g y -> f x = f y) ->
  NoDup (map f l) -> NoDup (map g l).
Proof.
  induction l as [|x l IH]; simpl; intros H Hnd; [constructor|].
  inversion Hnd as [|? ? Hx Hl]; subst. constructor.
  - intro F. apply Hx. apply in_map_iff in F. destruct F as (y & E & Hy).
    apply in_map_iff. exists y. split; [|assumption].
    apply H; auto.
  - apply IH; auto.
Qed.

Section ByNumber.
Variable A : Type.
Variable num : A -> number.

(** Sorting by [(a, b) => a.num - b.num] puts distinct integers in
    ascending order. *)
Lemma sort_by_number_asc (l : list A) :
  Forall (fun x => exists z, num x = of_Z z) l ->
  NoDup (map num l) ->
  StronglySorted (fun a b => AggregateSpec.value (num a) < AggregateSpec.value (num b))%Q
    (sort (fun a b => sub (num a) (num b)) l).
Proof.
  intros Hz Hnd.
  set (c := fun a b => sub (num a) (num b)).
  set (ok := fun x => exists z, num x = of_Z z).
  assert (Hafter : forall x y, ok x -> ok y ->
            (after c x y = true
             <-> (AggregateSpec.value (num y) < AggregateSpec.value (num x))%Q)).
  { intros x y [zx Ex] [zy Ey]. unfold after, c. rewrite Ex, Ey.
    apply JSFacts.gt_sub_zero. }
  assert (Ho : ordered c (sort c l)).
  { apply JSFacts.sort_ordered with (ok := ok); [| |exact Hz].
    - intros x y Hx Hy H. apply not_true_iff_false.
      rewrite Hafter in * by assumption.
      intro H'. exact (Qlt_irrefl _ (Qlt_trans _ _ _ H H')).
    - intros x y z Hx Hy Hz' H1 H2. apply not_true_iff_false.
      apply not_true_iff_false in H1, H2.
      rewrite Hafter in * by assumption.
      apply Qnot_lt_le in H1, H2. apply Qle_not_lt.
      eapply Qle_trans; eassumption. }
  assert (Hz' : Forall ok (sort c l)) by now apply JSFacts.sort_Forall.
  assert (Hnd' : NoDup (map num (sort c l))).
  { eapply Permutation_NoDup; [|exact Hnd].
    apply Permutation_map, Permutation_sym, JSFacts.sort_perm. }
  revert Ho Hz' Hnd'. generalize (sort c l). intros s Ho.
  induction Ho as [|x s Hs IH Hx]; intros Hz' Hnd'; constructor.
  - apply IH; [now inversion Hz'|now inversion Hnd'].
  - inversion Hz' as [|? ? Fx Fs]; subst. inversion Hnd' as [|? ? Nx _]; subst.
    rewrite Forall_forall in *. intros y Hy.
    assert (L : (AggregateSpec.value (num x) <= AggregateSpec.value (num y))%Q).
    { apply Qnot_lt_le. rewrite <- Hafter by auto. apply not_true_iff_false. auto. }
    apply Qle_lt_or_eq in L. destruct L as [L|L]; [exact L|exfalso].
    apply Nx. destruct Fx as [zx Ex]. destruct (Fs y Hy) as [zy Ey].
    rewrite Ex, Ey in L. cbn in L. unfold Qeq in L. cbn in L.
    assert (zx = zy) by lia. subst zy. rewrite Ex, <- Ey. now apply in_map.
Qed.
End ByNumber.

Lemma append_nonempty (a b : string) (c : ascii) :
  truthy_string (Some (a ++ String c b)%string) = Some (a ++ String c b)%string.
Proof. destruct a; reflexivity. Qed.

(** What the filter of the month keeps. *)
Lemma month_filter_keeps (year month : Z) (e : ExpenseData.Expense) (y m d : Z) :
  1000 <= year <= 9999 -> 1 <= month <= 12 ->
  parse_date (ExpenseData.date e) = Some (y, m, d) ->
  FilterSpec.satisfies (Some (month_filter year month)) e = (y =? year) && (m =? month).
Proof.
  intros Hy Hm He.
  unfold FilterSpec.satisfies, FilterSpec.conjunction, month_filter.
  cbn [ExpenseData.startDate ExpenseData.endDate ExpenseData.filter_category
       ExpenseData.minAmount ExpenseData.maxAmount ExpenseData.searchQuery append].
  rewrite !append_nonempty.
  cbn [truthy_string FilterSpec.text_constraint FilterSpec.amount_constraint].
  rewrite !andb_true_r. pose proof (@month_range year month (ExpenseData.date e) y m d Hy Hm He) as R.
  cbn [append] in R. exact R.
Qed.

Lemma kept_on_day (year month d : Z) (expenses : list ExpenseData.Expense) :
  1000 <= year <= 9999 -> 1 <= month <= 12 -> 1 <= d <= 31 ->
  Forall FilterSpec.expense_dated expenses ->
  List.filter (fun e => (key_of_int (Analytics.day_of e) =? String_of_Z d)%string)
    (List.filter (FilterSpec.satisfies (Some (month_filter year month))) expenses)
  = List.filter (on_day year month d) expenses.
Proof.
  intros Hy Hm Hd Hok. rewrite DeleteFacts.filter_filter.
  apply filter_ext_in. intros e He. rewrite Forall_forall in Hok.
  specialize (Hok e He). unfold FilterSpec.expense_dated, is_iso_date in Hok.
  unfold on_day.
  destruct (parse_date (ExpenseData.date e)) as [[[y m] d']|] eqn:P; [|discriminate].
  rewrite (@month_filter_keeps year month e y m d' Hy Hm P), (@day_of_date e y m d' P).
  f_equal.
  cbn [key_of_int].
  destruct (Z.eqb_spec d' d) as [->|N]; [apply String.eqb_refl|].
  apply String.eqb_neq. intro F. now apply StoreFacts.String_of_Z_inj in F.
Qed.

(** An expense the filter keeps is of some day of the month. *)
Lemma kept_day (year month : Z) (e : ExpenseData.Expense) :
  1000 <= year <= 9999 -> 1 <= month <= 12 ->
  FilterSpec.expense_dated e ->
  FilterSpec.satisfies (Some (month_filter year month)) e = true ->
  exists d, 1 <= d <= 31 /\ on_day year month d e = true
            /\ key_of_int (Analytics.day_of e) = String_of_Z d.
Proof.
  intros Hy Hm Hok Hs. unfold FilterSpec.expense_dated, is_iso_date in Hok.
  destruct (parse_date (ExpenseData.date e)) as [[[y m] d]|] eqn:P; [|discriminate].
  rewrite (@month_filter_keeps year month e y m d Hy Hm P) in Hs.
  pose proof (DateFacts.parse_date_calendar _ P) as (_ & _ & Bd).
  exists d. split; [|split].
  - unfold DaysInMonth in Bd.
    destruct (m =? 2); [destruct (InLeapYear y)|destruct (_ || _)%bool]; lia.
  - unfold on_day. now rewrite P, Hs, Z.eqb_refl.
  - now rewrite (@day_of_date e y m d P).
Qed.

End DailyFacts.

Module SectionFacts.
Import JS.

Lemma strictly_descending (l : list string) :
  StronglySorted (fun a b => String.leb b a = true) l -> NoDup l ->
  StronglySorted (fun a b => String.ltb b a = true) l.
Proof.
  induction 1 as [|x l Hl IH Hx]; intro Hnd; constructor.
  - apply IH. now inversion Hnd.
  - inversion Hnd as [|? ? Nx _]; subst. rewrite Forall_forall in *.
    intros y Hy. specialize (Hx y Hy).
    destruct (StringOrder.ltb_total y x) as [H|[H|H]]; [exact H| |].
    + subst y. contradiction.
    + apply DateFacts.ltb_false_leb in Hx. congruence.
Qed.

End SectionFacts.

(** ** Keys that no object inherits *)

Module PlainFacts.
Import JS.
Import AggregateSpec.

(** A string that begins with a digit is no inherited name. *)
Lemma digit_first_plain (c : ascii) (s : string) (v : Z) :
  digit c = Some v -> plain_key (String c s).
Proof.
  intro H. apply DateFacts.digit_spec in H. destruct H as [H B].
  assert (N : (48 <= N_of_ascii c <= 57)%N) by lia.
  unfold plain_key, inherited, prototype_names. cbn [existsb String.eqb].
  repeat match goal with
         | |- context [Ascii.eqb ?a c] =>
             replace (Ascii.eqb a c) with false
               by (symmetry; apply Ascii.eqb_neq; intros <-; cbn in N; lia)
         end.
  reflexivity.
Qed.

(** A calendar date and its month are keys that no object inherits. *)
Lemma iso_date_plain (d : string) :
  is_iso_date d = true -> plain_key d /\ plain_key (month_of d).
Proof.
  unfold is_iso_date. destruct (parse_date d) as [[[y m] n]|] eqn:P; [|discriminate].
  intros _.
  destruct (DateFacts.parse_date_inv _ P)
    as (y1 & y2 & y3 & y4 & m1 & m2 & d1 & d2 & y' & m' & n' & -> & Hy & _).
  destruct (DateFacts.four_digits_spec _ _ _ _ Hy) as (c & r & Hc & _).
  destruct (DateFacts.two_digits_spec _ _ Hc) as (x & ? & Ex & _).
  split; [eapply digit_first_plain, Ex|].
  unfold month_of, substring_0_7. cbn [String.substring].
  eapply digit_first_plain, Ex.
Qed.

End PlainFacts.

(* ================================================================== *)
(** * The scenarios of the specification *)
(* ================================================================== *)

Module Scenarios.
Import JS.
Local Open Scope string_scope.

(** Scenario C: a category in lower case finds the record. *)
Example category_up_to_case :
  ExpenseData.getExpenses Samples.expenses (Some (Samples.only_category "rent"))
  = Ok [Samples.rent].
Proof. reflexivity. Qed.

(** Without a filter the expenses come back most recent first, the two
    of one day in the order of the store. *)
Example most_recent_first :
  ExpenseData.getExpenses Samples.expenses None
  = Ok [Samples.uber; Samples.electricity; Samples.groceries; Samples.rent;
        Samples.jacket].
Proof. reflexivity. Qed.

(** Scenario A: the breakdown is by descending amount. *)
Example breakdown_by_amount :
  option_map (map Analytics.category)
    match Analytics.getSpendingByCategory Samples.expenses None with
    | Ok out => Some out
    | Throw _ => None
    end
  = Some ["Rent"; "Shopping"; "Utilities"; "Groceries"; "Transportation"].
Proof. reflexivity. Qed.

(** Scenario B: a date with income only has no expenses, and the other
    way round. *)
Example trend_of_two_days :
  Analytics.getSpendingTrends [Samples.rent] [Samples.freelance] None
  = Ok [ {| Analytics.date := "2026-02-01"; Analytics.income := Fin 0;
            Analytics.expenses := Fin (0 + 1200);
            Analytics.trend_balance := Fin (0 + - (0 + 1200)) |};
         {| Analytics.date := "2026-02-05"; Analytics.income := Fin (0 + 800);
            Analytics.expenses := Fin 0;
            Analytics.trend_balance := Fin (0 + 800 + - 0) |} ].
Proof. reflexivity. Qed.

(** Scenario D: one month asked for, the most recent one returned. *)
Example most_recent_month :
  option_map (map Analytics.month)
    match Analytics.getMonthlyBreakdown Samples.expenses Samples.incomeData (Some 1%Z) with
    | Ok out => Some out
    | Throw _ => None
    end
  = Some ["2026-02"].
Proof. reflexivity. Qed.

(** The times of two dates, in milliseconds since the epoch. *)
Example time_of_dates :
  time_of "1970-01-01" = Some 0%Z
  /\ time_of "2026-02-01" = Some 1769904000000%Z
  /\ time_of "2023-02-29" = None.
Proof. repeat split; reflexivity. Qed.

(** Two expenses added in one millisecond share their id. *)
Example two_adds_in_one_millisecond :
  map ExpenseData.id
    (snd (ExpenseData.addExpense 1769904000000 Samples.tea
            (snd (ExpenseData.addExpense 1769904000000 Samples.coffee [Samples.rent]))))
  = ["1"; "1769904000000"; "1769904000000"].
Proof. reflexivity. Qed.

(** A negative count makes [slice] drop months from the end. *)
Example negative_count :
  option_map (map Analytics.month)
    match Analytics.getMonthlyBreakdown Samples.expenses Samples.incomeData (Some (-1)%Z) with
    | Ok out => Some out
    | Throw _ => None
    end
  = Some ["2026-02"; "2026-01"].
Proof. reflexivity. Qed.

(** A guard is what keeps an average from being NaN. *)
Example zero_by_zero : div (Fin 0) (Fin 0) = NaN.
Proof. reflexivity. Qed.

End Scenarios.

(* ================================================================== *)
(** * The claims of the specification *)
(* ================================================================== *)

Import JS.

(** C1 (as amended).  On a collection of fully populated expenses
    (calendar dates, descriptions), [getExpenses] returns exactly the
    records that satisfy the conjunction of the filter's fields, where a
    text field that is absent or the empty string imposes no constraint:
    [startDate] and [endDate] are inclusive bounds in the order of the
    strings, [category] matches up to case, [minAmount] and [maxAmount] are
    inclusive bounds, [searchQuery] is a substring up to case of the
    description or the category.  The result is a permutation of the
    matching records, is sorted by date, most recent first, and the records
    of one date keep their order. *)
Theorem getExpenses_filters_and_sorts
  (expenses : list ExpenseData.Expense)
  (filter : option ExpenseData.ExpenseFilter) :
  Forall FilterSpec.expense_ok expenses ->
  exists out,
    ExpenseData.getExpenses expenses filter = Ok out
    /\ Permutation out (List.filter (FilterSpec.satisfies filter) expenses)
    /\ (forall e, In e out <-> In e expenses /\ FilterSpec.satisfies filter e = true)
    /\ FilterSpec.expenses_descending out
    /\ (forall d, FilterSpec.on_date d out =
                  FilterSpec.on_date d (List.filter (FilterSpec.satisfies filter) expenses)).
Proof.
  intro Hok.
  eexists. split; [apply ExpenseFacts.getExpenses_eq, SummaryFacts.described_all, Hok|].
  split; [apply JSFacts.sort_perm|].
  split; [|split].
  - intro e. rewrite JSFacts.sort_In. apply filter_In.
  - apply (DateSort.sort_by_date_descending ExpenseData.date).
    apply SummaryFacts.Forall_filter, SummaryFacts.dated_all, Hok.
  - intro d. apply (DateSort.sort_by_date_stable ExpenseData.date).
Qed.

Lemma getExpenses_filters_and_sorts_witness :
  exists out,
    ExpenseData.getExpenses Samples.expenses (Some Samples.february_large) = Ok out
    /\ Permutation out
         (List.filter (FilterSpec.satisfies (Some Samples.february_large)) Samples.expenses)
    /\ (forall e, In e out <->
                  In e Samples.expenses
                  /\ FilterSpec.satisfies (Some Samples.february_large) e = true)
    /\ FilterSpec.expenses_descending out
    /\ (forall d, FilterSpec.on_date d out =
                  FilterSpec.on_date d
                    (List.filter (FilterSpec.satisfies (Some Samples.february_large))
                       Samples.expenses)).
Proof.
  apply (getExpenses_filters_and_sorts (Some Samples.february_large)).
  repeat constructor; discriminate.
Defined.

(** C1, the claim as stated fails: a filter whose category is the empty
    string is there, no record has that category, and [getExpenses]
    returns the record all the same. *)
Lemma getExpenses_empty_category_unconstrained :
  exists out,
    ExpenseData.getExpenses [Samples.rent] (Some (Samples.only_category "")) = Ok out
    /\ ~ (forall e, In e out <->
                    In e [Samples.rent]
                    /\ FilterSpec.satisfies_present
                         (Some (Samples.only_category "")) e = true).
Proof.
  exists [Samples.rent]. split; [reflexivity|].
  intro H. destruct (proj1 (H Samples.rent)) as [_ E]; [now left|].
  discriminate E.
Qed.

(** C2.  For every pair of filters, on expenses that have their
    descriptions, [getBalanceSummary] returns a summary whose totals are
    the sums of the filtered income and expenses, whose balance is
    [totalIncome - totalExpenses], and whose savings rate is
    [((totalIncome - totalExpenses) / totalIncome) * 100] when
    [totalIncome > 0] and [0] when [totalIncome] is [0]; the same in terms
    of the sums [I] of the income and [E] of the expenses: the balance is
    [I - E] and the rate [(I - E) / I * 100] when [I > 0]. *)
Theorem balance_and_savings_rate
  (expenses : list ExpenseData.Expense) (incomeData : list IncomeData.Income)
  (expenseFilter : option ExpenseData.ExpenseFilter)
  (incomeFilter : option IncomeData.IncomeFilter) :
  Forall FilterSpec.described expenses ->
  let I := AggregateSpec.income_total incomeData incomeFilter in
  let E := AggregateSpec.expense_total expenses expenseFilter in
  exists r,
    Analytics.getBalanceSummary expenses incomeData expenseFilter incomeFilter = Ok r
    /\ AggregateSpec.num_is (Analytics.totalIncome r) I
    /\ AggregateSpec.num_is (Analytics.totalExpenses r) E
    /\ Analytics.balance r = sub (Analytics.totalIncome r) (Analytics.totalExpenses r)
    /\ (gt (Analytics.totalIncome r) zero = true ->
        Analytics.savingsRate r =
        mul (div (sub (Analytics.totalIncome r) (Analytics.totalExpenses r))
                 (Analytics.totalIncome r))
            Analytics.hundred)
    /\ (cmp (Analytics.totalIncome r) zero = Some Eq ->
        Analytics.savingsRate r = zero)
    /\ AggregateSpec.num_is (Analytics.balance r) (I - E)
    /\ (0 < I -> AggregateSpec.num_is (Analytics.savingsRate r) ((I - E) / I * 100))
    /\ (I == 0 -> Analytics.savingsRate r = zero).
Proof.
  intros H I E. unfold Analytics.getBalanceSummary.
  rewrite AnalyticsFacts.getExpenseSummary_eq by assumption.
  pose proof (AnalyticsFacts.expense_summary_total expenseFilter expenses) as Hs.
  pose proof (AnalyticsFacts.income_summary_total incomeFilter incomeData) as Hi.
  fold E in Hs. fold I in Hi.
  cbn [bind].
  set (ti := IncomeData.totalIncome
               (IncomeData.getIncomeSummary incomeData incomeFilter)) in *.
  set (te := ExpenseData.totalExpenses _) in *.
  eexists. split; [reflexivity|].
  cbn [Analytics.totalIncome Analytics.totalExpenses Analytics.balance
       Analytics.savingsRate].
  split; [exact Hi|]. split; [exact Hs|]. split; [reflexivity|].
  split; [intros ->; reflexivity|].
  split; [intro C; unfold gt; now rewrite C|].
  split; [now apply SumFacts.num_is_sub|].
  split.
  - intro Hpos.
    assert (G : gt ti zero = true) by now apply (SummaryFacts.num_is_positive _ _ Hi).
    rewrite G. apply SummaryFacts.num_is_ratio; [now apply SumFacts.num_is_sub|exact Hi|].
    intro Z. rewrite Z in Hpos. exact (Qlt_irrefl _ Hpos).
  - intro Z.
    assert (G : gt ti zero = false).
    { apply not_true_iff_false. rewrite (SummaryFacts.num_is_positive _ _ Hi), Z.
      apply Qlt_irrefl. }
    now rewrite G.
Qed.

Lemma balance_and_savings_rate_witness :
  let I := AggregateSpec.income_total Samples.incomeData None in
  let E := AggregateSpec.expense_total Samples.expenses (Some Samples.february_large) in
  exists r,
    Analytics.getBalanceSummary Samples.expenses Samples.incomeData
      (Some Samples.february_large) None = Ok r
    /\ AggregateSpec.num_is (Analytics.totalIncome r) I
    /\ AggregateSpec.num_is (Analytics.totalExpenses r) E
    /\ Analytics.balance r = sub (Analytics.totalIncome r) (Analytics.totalExpenses r)
    /\ (gt (Analytics.totalIncome r) zero = true ->
        Analytics.savingsRate r =
        mul (div (sub (Analytics.totalIncome r) (Analytics.totalExpenses r))
                 (Analytics.totalIncome r))
            Analytics.hundred)
    /\ (cmp (Analytics.totalIncome r) zero = Some Eq ->
        Analytics.savingsRate r = zero)
    /\ AggregateSpec.num_is (Analytics.balance r) (I - E)
    /\ (0 < I -> AggregateSpec.num_is (Analytics.savingsRate r) ((I - E) / I * 100))
    /\ (I == 0 -> Analytics.savingsRate r = zero).
Proof.
  apply (@balance_and_savings_rate Samples.expenses Samples.incomeData
           (Some Samples.february_large) None).
  repeat constructor; discriminate.
Defined.



(** C4.  On fully populated records, [getSpendingTrends] returns one
    point for each date of a filtered expense or a filtered income and no
    other; the income and the expenses of a point are the sums of the
    amounts of that date ([0] for a side without a record on it), its
    balance is [income - expenses], and the points are in ascending order of
    their dates. *)
Theorem spending_trends
  (expenses : list ExpenseData.Expense) (incomeData : list IncomeData.Income)
  (filter : option Analytics.TrendFilter) :
  Forall FilterSpec.expense_ok expenses ->
  Forall FilterSpec.income_ok incomeData ->
  let es := List.filter
              (FilterSpec.satisfies (option_map Analytics.as_ExpenseFilter filter))
              expenses in
  let ys := List.filter
              (FilterSpec.income_satisfies (option_map Analytics.as_IncomeFilter filter))
              incomeData in
  exists out,
    Analytics.getSpendingTrends expenses incomeData filter = Ok out
    /\ NoDup (map Analytics.date out)
    /\ (forall d, In d (map Analytics.date out) <->
                  In d (map ExpenseData.date es) \/ In d (map IncomeData.date ys))
    /\ Forall (AggregateSpec.trend_point es ys) out
    /\ AggregateSpec.ascending Analytics.date out.
Proof.
  intros Hok _ es ys. unfold Analytics.getSpendingTrends.
  rewrite ExpenseFacts.getExpenses_eq by now apply SummaryFacts.described_all.
  cbn [bind]. fold es. rewrite SummaryFacts.getIncome_eq. fold ys.
  set (es' := sort ExpenseData.by_date_desc es).
  set (ys' := sort IncomeData.by_date_desc ys).
  destruct (TrendFacts.day_table_loops es' ys') as (Hnd & Hk & Hv).
  set (o := fold_left Analytics.add_day_income ys'
              (fold_left Analytics.add_day_expense es' [])) in *.
  set (point := fun '(date, data) =>
         {| Analytics.date := date;
            Analytics.income := Analytics.day_income data;
            Analytics.expenses := Analytics.day_expenses data;
            Analytics.trend_balance :=
              sub (Analytics.day_income data) (Analytics.day_expenses data) |}).
  assert (Hdates : map Analytics.date (map point (entries o)) = AggregateSpec.keys o).
  { rewrite map_map. apply map_ext. now intros [k v]. }
  assert (Pes : Permutation es' es) by apply JSFacts.sort_perm.
  assert (Pys : Permutation ys' ys) by apply JSFacts.sort_perm.
  eexists. split; [reflexivity|]. fold point. repeat split.
  - eapply Permutation_NoDup;
      [apply Permutation_map, Permutation_sym, JSFacts.sort_perm|].
    now rewrite Hdates.
  - intro H.
    apply (Permutation_in _ (Permutation_map _ (JSFacts.sort_perm _ _))) in H.
    rewrite Hdates in H. apply Hk in H.
    destruct H as [H|H]; [left|right];
      (eapply Permutation_in; [apply Permutation_map; eassumption|exact H]).
  - intro H.
    apply (Permutation_in _
             (Permutation_sym (Permutation_map _ (JSFacts.sort_perm _ _)))).
    rewrite Hdates. apply Hk.
    destruct H as [H|H]; [left|right];
      (eapply Permutation_in;
       [apply Permutation_map, Permutation_sym; eassumption|exact H]).
  - apply JSFacts.sort_Forall, Forall_map, Forall_forall.
    intros [k v] Hin. apply UpsertFacts.entries_get in Hin; [|exact Hnd].
    destruct (Hv _ _ Hin) as [He Hi].
    unfold AggregateSpec.trend_point, point.
    cbn [Analytics.date Analytics.income Analytics.expenses Analytics.trend_balance].
    repeat split.
    + eapply SumFacts.num_is_eq; [exact Hi|]. now apply SumFacts.group_sum_perm.
    + eapply SumFacts.num_is_eq; [exact He|]. now apply SumFacts.group_sum_perm.
  - apply (KeyOrder.sort_ascending Analytics.date). now rewrite Hdates.
Qed.

Lemma spending_trends_witness :
  let es := List.filter (FilterSpec.satisfies None) Samples.expenses in
  let ys := List.filter (FilterSpec.income_satisfies None) Samples.incomeData in
  exists out,
    Analytics.getSpendingTrends Samples.expenses Samples.incomeData None = Ok out
    /\ NoDup (map Analytics.date out)
    /\ (forall d, In d (map Analytics.date out) <->
                  In d (map ExpenseData.date es) \/ In d (map IncomeData.date ys))
    /\ Forall (AggregateSpec.trend_point es ys) out
    /\ AggregateSpec.ascending Analytics.date out.
Proof.
  apply (@spending_trends Samples.expenses Samples.incomeData None).
  - repeat constructor; discriminate.
  - repeat constructor.
Defined.




(** C6.  The summary of no record is all zero and empty, for expenses and
    for income; an average is [0] when the count is [0] and a savings rate
    is [0] when the total income is [0]; and no average, no savings rate
    and, for categories that are not property names inherited from
    [Object.prototype], no percentage is ever NaN or infinite: each
    division is by a number that is not zero. *)
Theorem no_division_by_zero :
  ExpenseData.summarize [] = AggregateSpec.empty_expense_summary
  /\ IncomeData.summarize [] = AggregateSpec.empty_income_summary
  /\ (forall filter,
      ExpenseData.getExpenseSummary [] filter = Ok AggregateSpec.empty_expense_summary)
  /\ (forall filter,
      IncomeData.getIncomeSummary [] filter = AggregateSpec.empty_income_summary)
  /\ (forall expenses filter,
      Forall FilterSpec.described expenses ->
      exists s,
        ExpenseData.getExpenseSummary expenses filter = Ok s
        /\ is_finite (ExpenseData.averageExpense s) = true
        /\ (ExpenseData.expenseCount s = 0%nat ->
            s = AggregateSpec.empty_expense_summary))
  /\ (forall incomeData filter,
      is_finite (IncomeData.averageIncome
                   (IncomeData.getIncomeSummary incomeData filter)) = true
      /\ (IncomeData.incomeCount (IncomeData.getIncomeSummary incomeData filter) = 0%nat ->
          IncomeData.getIncomeSummary incomeData filter
          = AggregateSpec.empty_income_summary))
  /\ (forall expenses incomeData expenseFilter incomeFilter,
      Forall FilterSpec.described expenses ->
      exists r,
        Analytics.getBalanceSummary expenses incomeData expenseFilter incomeFilter = Ok r
        /\ is_finite (Analytics.savingsRate r) = true
        /\ (cmp (Analytics.totalIncome r) zero = Some Eq ->
            Analytics.savingsRate r = Fin 0))
  /\ (forall expenses filter,
      Forall FilterSpec.described expenses ->
      AggregateSpec.plain_categories expenses ->
      exists out,
        Analytics.getSpendingByCategory expenses filter = Ok out
        /\ Forall (fun entry => is_finite (Analytics.percentage entry) = true) out).
Proof.
  split; [reflexivity|]. split; [reflexivity|].
  split.
  { intro filter. now rewrite AnalyticsFacts.getExpenseSummary_eq by constructor. }
  split.
  { intro filter. unfold IncomeData.getIncomeSummary.
    now rewrite SummaryFacts.getIncome_eq. }
  split; [|split; [|split]].
  - intros expenses filter H.
    rewrite AnalyticsFacts.getExpenseSummary_eq by assumption.
    eexists. split; [reflexivity|]. split.
    + eapply AnalyticsFacts.average_finite, AnalyticsFacts.expense_summary_total.
    + cbn [ExpenseData.expenseCount ExpenseData.summarize]. intro E.
      apply length_zero_iff_nil in E. now rewrite E.
  - intros incomeData filter. split.
    + eapply AnalyticsFacts.average_finite, AnalyticsFacts.income_summary_total.
    + unfold IncomeData.getIncomeSummary.
      cbn [IncomeData.incomeCount IncomeData.summarize]. intro E.
      apply length_zero_iff_nil in E. now rewrite E.
  - intros expenses incomeData expenseFilter incomeFilter H.
    unfold Analytics.getBalanceSummary.
    rewrite AnalyticsFacts.getExpenseSummary_eq by assumption. cbn [bind].
    eexists. split; [reflexivity|].
    cbn [Analytics.savingsRate Analytics.totalIncome]. split.
    + eapply AnalyticsFacts.savings_rate_finite.
      * apply AnalyticsFacts.income_summary_total.
      * apply AnalyticsFacts.expense_summary_total.
    + intro E. unfold gt. now rewrite E.
  - intros expenses filter H _.
    destruct (Qlt_le_dec 0 (AggregateSpec.expense_total expenses filter)) as [Hpos|Hle].
    + unfold Analytics.getSpendingByCategory.
      rewrite AnalyticsFacts.getExpenseSummary_eq by assumption. cbn [bind].
      pose proof (AnalyticsFacts.expense_summary_total filter expenses) as Ht.
      set (filtered := sort ExpenseData.by_date_desc
                         (List.filter (FilterSpec.satisfies filter) expenses)) in *.
      destruct (TallyFacts.tally_sum ExpenseData.category ExpenseData.amount filtered
                  (o := [])) as [Hfin _]; [constructor|].
      eexists. split; [reflexivity|].
      apply JSFacts.sort_Forall, Forall_map.
      eapply Forall_impl; [|exact Hfin]. intros [k n] Hn. cbn [Analytics.percentage].
      destruct (gt _ zero) eqn:G; [|reflexivity].
      destruct n as [a| |]; try discriminate.
      eapply SumFacts.num_is_finite, SummaryFacts.num_is_ratio;
        [apply SumFacts.num_is_Fin|exact Ht|].
      intro E. rewrite E in Hpos. exact (Qlt_irrefl _ Hpos).
    + unfold Analytics.getSpendingByCategory.
      rewrite AnalyticsFacts.getExpenseSummary_eq by assumption. cbn [bind].
      pose proof (AnalyticsFacts.expense_summary_total filter expenses) as Ht.
      assert (G : gt (ExpenseData.totalExpenses
                        (ExpenseData.summarize
                           (sort ExpenseData.by_date_desc
                              (List.filter (FilterSpec.satisfies filter) expenses))))
                     zero = false).
      { apply not_true_iff_false. rewrite (SummaryFacts.num_is_positive _ _ Ht).
        now apply Qle_not_lt. }
      rewrite G. eexists. split; [reflexivity|].
      apply JSFacts.sort_Forall, Forall_map, Forall_forall. now intros [k n] _.
Qed.

(** C7, where the mock store falls short.  The API-backed [getExpenses]
    never throws and reads a missing description as the empty string,
    whatever the records; the search of the mock store throws a TypeError
    as soon as a record lacks its description, as on the store left by
    [updateExpense("1", { description: undefined })]. *)
Theorem search_without_description :
  (forall expenses filter,
      ExpenseDataApi.getExpenses true (ExpenseDataApi.Json expenses) filter =
      sort ExpenseData.by_date_desc (List.filter (FilterSpec.satisfies filter) expenses))
  /\ (forall expenses q,
      q <> EmptyString ->
      Exists (fun e => ExpenseData.description e = None) expenses ->
      ExpenseData.getExpenses expenses (Some (Samples.only_search q)) = Throw TypeError)
  /\ ExpenseData.getExpenses Samples.after_dropping_description
       (Some (Samples.only_search "rent")) = Throw TypeError
  /\ ExpenseDataApi.getExpenses true
       (ExpenseDataApi.Json Samples.after_dropping_description)
       (Some (Samples.only_search "rent")) = Samples.after_dropping_description.
Proof.
  split; [exact ApiFacts.api_getExpenses_eq|].
  split; [exact ApiFacts.mock_search_throws|].
  split; reflexivity.
Qed.

(** C8.  Filtering is idempotent: on fully populated expenses,
    [getExpenses] applied to its own result with the same filter returns
    that result. *)
Theorem getExpenses_idempotent
  (expenses : list ExpenseData.Expense)
  (filter : option ExpenseData.ExpenseFilter) :
  Forall FilterSpec.expense_ok expenses ->
  exists out,
    ExpenseData.getExpenses expenses filter = Ok out
    /\ ExpenseData.getExpenses out filter = Ok out.
Proof.
  intro Hok.
  pose proof (ExpenseFacts.getExpenses_eq filter (SummaryFacts.described_all Hok)) as E.
  eexists. split; [exact E|].
  rewrite ExpenseFacts.getExpenses_eq.
  - f_equal. rewrite FilterFacts.filter_all.
    + apply (DateSort.sort_by_date_idem ExpenseData.date).
      apply SummaryFacts.Forall_filter, SummaryFacts.dated_all, Hok.
    + apply JSFacts.sort_Forall, FilterFacts.filter_Forall.
  - apply JSFacts.sort_Forall, SummaryFacts.Forall_filter, SummaryFacts.described_all, Hok.
Qed.

Lemma getExpenses_idempotent_witness :
  exists out,
    ExpenseData.getExpenses Samples.expenses (Some Samples.february_large) = Ok out
    /\ ExpenseData.getExpenses out (Some Samples.february_large) = Ok out.
Proof.
  apply (getExpenses_idempotent (Some Samples.february_large)).
  repeat constructor; discriminate.
Defined.

(** C9, where the code falls short: two calls of [addExpense] (or of
    [addIncome]) that read the same millisecond off the clock store two
    records with one id. *)
Theorem same_millisecond_same_id :
  (forall now a b expenses,
      let (x, expenses1) := ExpenseData.addExpense now a expenses in
      let (y, expenses2) := ExpenseData.addExpense now b expenses1 in
      ExpenseData.id x = ExpenseData.id y
      /\ ~ NoDup (map ExpenseData.id expenses2))
  /\ (forall now a b incomeData,
      let (x, incomeData1) := IncomeData.addIncome now a incomeData in
      let (y, incomeData2) := IncomeData.addIncome now b incomeData1 in
      IncomeData.id x = IncomeData.id y
      /\ ~ NoDup (map IncomeData.id incomeData2)).
Proof.
  split; intros now a b l; simpl; (split; [reflexivity|]);
    rewrite <- app_assoc, map_app; intro H;
    apply NoDup_app_remove_l in H; simpl in H;
    inversion H as [|? ? Hin _]; apply Hin; now left.
Qed.

Lemma id_differs_eqb (A : Type) (id : A -> string) (id0 : string) (l : list A) :
  Forall (fun x => id x <> id0) l ->
  Forall (fun x => (id x =? id0)%string = false) l.
Proof. apply Forall_impl. intros x H. now apply String.eqb_neq. Qed.

(** C10.  With an id that no stored record has, [updateExpense] returns
    [null] and [deleteExpense] returns [false], and the store is as it
    was; likewise [updateIncome] and [deleteIncome].  With an id that is
    there, [deleteExpense] (and [deleteIncome]) removes the first record
    that has it, that one only, and keeps the others in place. *)
Theorem unknown_id_leaves_the_store :
  (forall id0 updates expenses,
      Forall (fun e => ExpenseData.id e <> id0) expenses ->
      ExpenseData.updateExpense id0 updates expenses = (None, expenses)
      /\ ExpenseData.deleteExpense id0 expenses = (false, expenses))
  /\ (forall id0 updates incomeData,
      Forall (fun i => IncomeData.id i <> id0) incomeData ->
      IncomeData.updateIncome id0 updates incomeData = (None, incomeData)
      /\ IncomeData.deleteIncome id0 incomeData = (false, incomeData))
  /\ (forall id0 expenses,
      Exists (fun e => ExpenseData.id e = id0) expenses ->
      exists before e behind,
        expenses = before ++ e :: behind
        /\ ExpenseData.id e = id0
        /\ Forall (fun x => ExpenseData.id x <> id0) before
        /\ ExpenseData.deleteExpense id0 expenses = (true, before ++ behind))
  /\ (forall id0 incomeData,
      Exists (fun i => IncomeData.id i = id0) incomeData ->
      exists before i behind,
        incomeData = before ++ i :: behind
        /\ IncomeData.id i = id0
        /\ Forall (fun x => IncomeData.id x <> id0) before
        /\ IncomeData.deleteIncome id0 incomeData = (true, before ++ behind)).
Proof.
  repeat split.
  - unfold ExpenseData.updateExpense.
    now rewrite StoreFacts.findIndex_absent by now apply id_differs_eqb.
  - unfold ExpenseData.deleteExpense.
    now rewrite StoreFacts.findIndex_absent by now apply id_differs_eqb.
  - unfold IncomeData.updateIncome.
    now rewrite StoreFacts.findIndex_absent by now apply id_differs_eqb.
  - unfold IncomeData.deleteIncome.
    now rewrite StoreFacts.findIndex_absent by now apply id_differs_eqb.
  - intros id0 expenses H.
    assert (N : findIndex (fun e => (ExpenseData.id e =? id0)%string) expenses <> (-1)%Z).
    { apply StoreFacts.findIndex_exists. eapply Exists_impl; [|exact H].
      intros e E. now apply String.eqb_eq. }
    destruct (StoreFacts.findIndex_present _ _ N) as (l1 & x & l2 & -> & Px & Hl1 & Hi).
    exists l1, x, l2. repeat split.
    + now apply String.eqb_eq.
    + eapply Forall_impl; [|exact Hl1]. intros y Hy. now apply String.eqb_neq.
    + unfold ExpenseData.deleteExpense. cbv zeta.
      apply Z.eqb_neq in N. rewrite N, Hi. now rewrite StoreFacts.splice1_at.
  - intros id0 incomeData H.
    assert (N : findIndex (fun i => (IncomeData.id i =? id0)%string) incomeData <> (-1)%Z).
    { apply StoreFacts.findIndex_exists. eapply Exists_impl; [|exact H].
      intros e E. now apply String.eqb_eq. }
    destruct (StoreFacts.findIndex_present _ _ N) as (l1 & x & l2 & -> & Px & Hl1 & Hi).
    exists l1, x, l2. repeat split.
    + now apply String.eqb_eq.
    + eapply Forall_impl; [|exact Hl1]. intros y Hy. now apply String.eqb_neq.
    + unfold IncomeData.deleteIncome. cbv zeta.
      apply Z.eqb_neq in N. rewrite N, Hi. now rewrite StoreFacts.splice1_at.
Qed.

(* ================================================================== *)
(** * Further properties of the services *)
(* ================================================================== *)

(** With an id that is in the store, [updateExpense] overwrites the first
    record that has it with the spread of the record and the updates,
    returns that record, and leaves every other record, the order and the
    ids of the store as they were; likewise [updateIncome]. *)
Theorem update_replaces_first_match :
  (forall id0 updates expenses,
      Exists (fun e => ExpenseData.id e = id0) expenses ->
      exists before e behind,
        expenses = before ++ e :: behind
        /\ ExpenseData.id e = id0
        /\ Forall (fun x => ExpenseData.id x <> id0) before
        /\ ExpenseData.updateExpense id0 updates expenses =
           (Some (ExpenseData.spread e updates),
            before ++ ExpenseData.spread e updates :: behind)
        /\ map ExpenseData.id (snd (ExpenseData.updateExpense id0 updates expenses)) =
           map ExpenseData.id expenses)
  /\ (forall id0 updates incomeData,
      Exists (fun i => IncomeData.id i = id0) incomeData ->
      exists before i behind,
        incomeData = before ++ i :: behind
        /\ IncomeData.id i = id0
        /\ Forall (fun x => IncomeData.id x <> id0) before
        /\ IncomeData.updateIncome id0 updates incomeData =
           (Some (IncomeData.spread i updates),
            before ++ IncomeData.spread i updates :: behind)
        /\ map IncomeData.id (snd (IncomeData.updateIncome id0 updates incomeData)) =
           map IncomeData.id incomeData).
Proof.
  split; intros id0 updates l H;
    destruct (StoreOps.first_with_id _ H) as (l1 & x & l2 & -> & Hx & Hl1);
    exists l1, x, l2; repeat (split; [assumption || reflexivity|]).
  - assert (E : ExpenseData.updateExpense id0 updates (l1 ++ x :: l2) =
                (Some (ExpenseData.spread x updates),
                 l1 ++ ExpenseData.spread x updates :: l2)).
    { unfold ExpenseData.updateExpense. cbv zeta.
      rewrite (@StoreOps.findIndex_first _ ExpenseData.id id0 l1 l2 x Hl1 Hx).
      destruct (Z.eqb_spec (Z.of_nat (List.length l1)) (-1)); [lia|].
      now rewrite StoreOps.index_at, StoreOps.set_index_at. }
    split; [exact E|]. rewrite E. cbn [snd]. now rewrite !map_app.
  - assert (E : IncomeData.updateIncome id0 updates (l1 ++ x :: l2) =
                (Some (IncomeData.spread x updates),
                 l1 ++ IncomeData.spread x updates :: l2)).
    { unfold IncomeData.updateIncome. cbv zeta.
      rewrite (@StoreOps.findIndex_first _ IncomeData.id id0 l1 l2 x Hl1 Hx).
      destruct (Z.eqb_spec (Z.of_nat (List.length l1)) (-1)); [lia|].
      now rewrite StoreOps.index_at, StoreOps.set_index_at. }
    split; [exact E|]. rewrite E. cbn [snd]. now rewrite !map_app.
Qed.

(** A record added with a clock reading whose text is the id of no stored
    record is the one its id finds: [deleteExpense] with the new id gives
    the store back as it was before the [addExpense], and [updateExpense]
    with it changes the new record only; likewise for income. *)
Theorem added_record_is_found_by_its_id :
  (forall now expense expenses,
      ~ In (String_of_Z now) (map ExpenseData.id expenses) ->
      let (x, stored) := ExpenseData.addExpense now expense expenses in
      ExpenseData.deleteExpense (ExpenseData.id x) stored = (true, expenses)
      /\ forall updates,
           ExpenseData.updateExpense (ExpenseData.id x) updates stored =
           (Some (ExpenseData.spread x updates),
            expenses ++ [ExpenseData.spread x updates]))
  /\ (forall now income incomeData,
      ~ In (String_of_Z now) (map IncomeData.id incomeData) ->
      let (x, stored) := IncomeData.addIncome now income incomeData in
      IncomeData.deleteIncome (IncomeData.id x) stored = (true, incomeData)
      /\ forall updates,
           IncomeData.updateIncome (IncomeData.id x) updates stored =
           (Some (IncomeData.spread x updates),
            incomeData ++ [IncomeData.spread x updates])).
Proof.
  split; intros now x l H; cbv beta iota zeta delta [ExpenseData.addExpense IncomeData.addIncome].
  - apply StoreOps.not_In_differs in H.
    set (e := {| ExpenseData.id := String_of_Z now |}).
    assert (I : findIndex (fun y => (ExpenseData.id y =? ExpenseData.id e)%string)
                  (l ++ [e]) = Z.of_nat (List.length l))
      by now apply (@StoreOps.findIndex_first _ ExpenseData.id).
    split; [|intro updates].
    + unfold ExpenseData.deleteExpense. cbv zeta. rewrite I.
      destruct (Z.eqb_spec (Z.of_nat (List.length l)) (-1)); [lia|].
      now rewrite StoreFacts.splice1_at, app_nil_r.
    + unfold ExpenseData.updateExpense. cbv zeta. rewrite I.
      destruct (Z.eqb_spec (Z.of_nat (List.length l)) (-1)); [lia|].
      now rewrite StoreOps.index_at, StoreOps.set_index_at.
  - apply StoreOps.not_In_differs in H.
    set (e := {| IncomeData.id := String_of_Z now |}).
    assert (I : findIndex (fun y => (IncomeData.id y =? IncomeData.id e)%string)
                  (l ++ [e]) = Z.of_nat (List.length l))
      by now apply (@StoreOps.findIndex_first _ IncomeData.id).
    split; [|intro updates].
    + unfold IncomeData.deleteIncome. cbv zeta. rewrite I.
      destruct (Z.eqb_spec (Z.of_nat (List.length l)) (-1)); [lia|].
      now rewrite StoreFacts.splice1_at, app_nil_r.
    + unfold IncomeData.updateIncome. cbv zeta. rewrite I.
      destruct (Z.eqb_spec (Z.of_nat (List.length l)) (-1)); [lia|].
      now rewrite StoreOps.index_at, StoreOps.set_index_at.
Qed.

(** Calls of [addExpense] that read pairwise distinct milliseconds off
    the clock, none the id of a stored record, keep the ids of the store
    pairwise distinct: the new ids are the texts of the readings, appended
    in the order of the calls. *)
Theorem distinct_clock_readings_distinct_ids
  (calls : list (Z * ExpenseData.NewExpense)) (expenses : list ExpenseData.Expense) :
  NoDup (map ExpenseData.id expenses) ->
  NoDup (map fst calls) ->
  Forall (fun call => ~ In (String_of_Z (fst call)) (map ExpenseData.id expenses)) calls ->
  NoDup (map ExpenseData.id (StoreSpec.add_each calls expenses))
  /\ map ExpenseData.id (StoreSpec.add_each calls expenses) =
     map ExpenseData.id expenses ++ map (fun call => String_of_Z (fst call)) calls.
Proof.
  unfold StoreSpec.add_each.
  revert expenses. induction calls as [|[now x] calls IH]; intros l Hl Hc Hf.
  - simpl. now rewrite app_nil_r.
  - cbn [fold_left fst snd ExpenseData.addExpense map] in *.
    inversion Hc as [|? ? Hnow Hc']; subst. inversion Hf as [|? ? Hx Hf']; subst.
    cbn [fst] in Hx.
    destruct (IH (l ++ [{| ExpenseData.id := String_of_Z now;
                          ExpenseData.amount := ExpenseData.new_amount x;
                          ExpenseData.date := ExpenseData.new_date x;
                          ExpenseData.category := ExpenseData.new_category x;
                          ExpenseData.description := ExpenseData.new_description x |}]))
      as [IH1 IH2]; try assumption.
    + apply (StoreFacts.addExpense_fresh_id now x); assumption.
    + rewrite Forall_forall in *. intros c Hin. rewrite map_app, in_app_iff.
      intros [F|[F|[]]]; [exact (Hf' c Hin F)|].
      cbn in F. apply StoreFacts.String_of_Z_inj in F.
      apply Hnow. rewrite F. now apply in_map.
    + split; [exact IH1|]. rewrite IH2, map_app, <- app_assoc. reflexivity.
Qed.

Lemma distinct_clock_readings_distinct_ids_witness :
  NoDup (map ExpenseData.id
           (StoreSpec.add_each
              [(1769904000000%Z, Samples.coffee); (1769904000001%Z, Samples.tea)]
              Samples.expenses))
  /\ map ExpenseData.id
       (StoreSpec.add_each
          [(1769904000000%Z, Samples.coffee); (1769904000001%Z, Samples.tea)]
          Samples.expenses) =
     map ExpenseData.id Samples.expenses
     ++ map (fun call => String_of_Z (fst call))
          [(1769904000000%Z, Samples.coffee); (1769904000001%Z, Samples.tea)].
Proof.
  apply (@distinct_clock_readings_distinct_ids
           [(1769904000000%Z, Samples.coffee); (1769904000001%Z, Samples.tea)]
           Samples.expenses).
  - repeat constructor; simpl; intuition discriminate.
  - repeat constructor; simpl; intuition discriminate.
  - repeat constructor; vm_compute; intuition discriminate.
Defined.

(** [deleteExpenses(ids)] keeps exactly the records whose id is not
    listed, returns the number of records it removed, which is [0] exactly
    when the store is unchanged, and a second call with the same ids
    removes nothing. *)
Theorem deleteExpenses_removes_the_listed_ids
  (ids : list string) (expenses : list ExpenseData.Expense) :
  let (n, rest) := ExpenseData.deleteExpenses ids expenses in
  (forall e, In e rest <-> In e expenses /\ ~ In (ExpenseData.id e) ids)
  /\ n = Z.of_nat (List.length
                     (List.filter (fun e => ExpenseData.includes_id ids (ExpenseData.id e))
                        expenses))
  /\ (0 <= n <= Z.of_nat (List.length expenses))%Z
  /\ (n = 0%Z <-> rest = expenses)
  /\ ExpenseData.deleteExpenses ids rest = (0%Z, rest).
Proof.
  cbv beta iota zeta delta [ExpenseData.deleteExpenses].
  pose proof (DeleteFacts.deleteExpenses_removed ids expenses) as L.
  set (rest := List.filter
                 (fun e => negb (ExpenseData.includes_id ids (ExpenseData.id e)))
                 expenses) in *.
  set (gone := List.filter
                 (fun e => ExpenseData.includes_id ids (ExpenseData.id e)) expenses) in *.
  split; [|split; [lia|split; [lia|split]]].
  - intro e. unfold rest. rewrite filter_In, negb_true_iff.
    rewrite <- DeleteFacts.includes_id_In, not_true_iff_false. reflexivity.
  - split.
    + intro E. assert (G : gone = []) by (apply length_zero_iff_nil; lia).
      unfold rest. apply DeleteFacts.filter_id, Forall_forall. intros e He.
      destruct (ExpenseData.includes_id ids (ExpenseData.id e)) eqn:I; [|reflexivity].
      assert (F : In e gone) by (apply filter_In; auto).
      rewrite G in F. destruct F.
    + intro E. rewrite E. lia.
  - assert (E : List.filter
                  (fun e => negb (ExpenseData.includes_id ids (ExpenseData.id e))) rest
                = rest).
    { apply DeleteFacts.filter_id, Forall_forall. intros e He.
      apply filter_In in He. apply He. }
    rewrite E. f_equal. lia.
Qed.

(** On a store with unique ids, [deleteExpenses(ids)] does what calling
    [deleteExpense] for each listed id in turn does, and returns the
    number of those calls that return [true], also when an id is listed
    twice or is not in the store. *)
Theorem deleteExpenses_is_deleteExpense_for_each_id
  (ids : list string) (expenses : list ExpenseData.Expense) :
  NoDup (map ExpenseData.id expenses) ->
  ExpenseData.deleteExpenses ids expenses = StoreSpec.delete_each ids expenses.
Proof.
  intro H. unfold StoreSpec.delete_each.
  rewrite DeleteFacts.delete_each_from by assumption.
  now destruct (ExpenseData.deleteExpenses ids expenses).
Qed.

Lemma deleteExpenses_is_deleteExpense_for_each_id_witness :
  ExpenseData.deleteExpenses ["1"; "3"; "1"; "9"]%string Samples.expenses =
  StoreSpec.delete_each ["1"; "3"; "1"; "9"]%string Samples.expenses.
Proof.
  apply (@deleteExpenses_is_deleteExpense_for_each_id
           ["1"; "3"; "1"; "9"]%string Samples.expenses).
  repeat constructor; simpl; intuition discriminate.
Defined.

(** On a store with unique ids, after [deleteExpense(id)] no record has
    the id: the other records are all there, the count drops by one exactly
    when the call returns [true], and a second [deleteExpense] or an
    [updateExpense] with that id finds nothing; likewise for income. *)
Theorem deleted_id_is_gone :
  (forall id0 expenses,
      NoDup (map ExpenseData.id expenses) ->
      let (removed, rest) := ExpenseData.deleteExpense id0 expenses in
      ~ In id0 (map ExpenseData.id rest)
      /\ (forall e, In e rest <-> In e expenses /\ ExpenseData.id e <> id0)
      /\ NoDup (map ExpenseData.id rest)
      /\ Z.of_nat (List.length rest) =
         (Z.of_nat (List.length expenses) - (if removed then 1 else 0))%Z
      /\ ExpenseData.deleteExpense id0 rest = (false, rest)
      /\ forall updates, ExpenseData.updateExpense id0 updates rest = (None, rest))
  /\ (forall id0 incomeData,
      NoDup (map IncomeData.id incomeData) ->
      let (removed, rest) := IncomeData.deleteIncome id0 incomeData in
      ~ In id0 (map IncomeData.id rest)
      /\ (forall i, In i rest <-> In i incomeData /\ IncomeData.id i <> id0)
      /\ NoDup (map IncomeData.id rest)
      /\ Z.of_nat (List.length rest) =
         (Z.of_nat (List.length incomeData) - (if removed then 1 else 0))%Z
      /\ IncomeData.deleteIncome id0 rest = (false, rest)
      /\ forall updates, IncomeData.updateIncome id0 updates rest = (None, rest)).
Proof.
  split; intros id0 l Hnd.
  - rewrite DeleteFacts.deleteExpense_filter by assumption.
    pose proof (@DeleteFacts.filter_out_id _ ExpenseData.id id0 l) as Hout.
    pose proof (@DeleteFacts.one_with_id _ ExpenseData.id id0 l Hnd) as Hone.
    set (rest := List.filter _ l) in *.
    assert (Habs : findIndex (fun e => (ExpenseData.id e =? id0)%string) rest = (-1)%Z).
    { apply StoreFacts.findIndex_absent.
      apply (StoreOps.not_In_differs ExpenseData.id) in Hout.
      eapply Forall_impl; [|exact Hout]. intros e He. now apply String.eqb_neq. }
    split; [exact Hout|]. split; [|split; [|split; [lia|split]]].
    + intro e. unfold rest. rewrite filter_In, negb_true_iff, String.eqb_neq. tauto.
    + now apply DeleteFacts.NoDup_filter_ids.
    + unfold ExpenseData.deleteExpense. now rewrite Habs.
    + intro updates. unfold ExpenseData.updateExpense. now rewrite Habs.
  - rewrite DeleteFacts.deleteIncome_filter by assumption.
    pose proof (@DeleteFacts.filter_out_id _ IncomeData.id id0 l) as Hout.
    pose proof (@DeleteFacts.one_with_id _ IncomeData.id id0 l Hnd) as Hone.
    set (rest := List.filter _ l) in *.
    assert (Habs : findIndex (fun i => (IncomeData.id i =? id0)%string) rest = (-1)%Z).
    { apply StoreFacts.findIndex_absent.
      apply (StoreOps.not_In_differs IncomeData.id) in Hout.
      eapply Forall_impl; [|exact Hout]. intros e He. now apply String.eqb_neq. }
    split; [exact Hout|]. split; [|split; [|split; [lia|split]]].
    + intro e. unfold rest. rewrite filter_In, negb_true_iff, String.eqb_neq. tauto.
    + now apply DeleteFacts.NoDup_filter_ids.
    + unfold IncomeData.deleteIncome. now rewrite Habs.
    + intro updates. unfold IncomeData.updateIncome. now rewrite Habs.
Qed.

(** The unfiltered summary follows the store: [addExpense] raises the
    count by one and the total by the new amount, [deleteExpense] with a
    stored id lowers them by one and by the amount of the record it
    removes, and [updateExpense] keeps the count and replaces the old
    amount by the new one in the total. *)
Theorem summary_follows_the_store :
  (forall now expense expenses,
      let E := AggregateSpec.sumQ (map ExpenseData.amount expenses) in
      exists s s',
        ExpenseData.getExpenseSummary expenses None = Ok s
        /\ ExpenseData.getExpenseSummary
             (snd (ExpenseData.addExpense now expense expenses)) None = Ok s'
        /\ ExpenseData.expenseCount s' = S (ExpenseData.expenseCount s)
        /\ AggregateSpec.num_is (ExpenseData.totalExpenses s) E
        /\ AggregateSpec.num_is (ExpenseData.totalExpenses s')
             (E + ExpenseData.new_amount expense))
  /\ (forall id0 expenses,
      Exists (fun e => ExpenseData.id e = id0) expenses ->
      let E := AggregateSpec.sumQ (map ExpenseData.amount expenses) in
      exists e s s',
        In e expenses /\ ExpenseData.id e = id0
        /\ ExpenseData.getExpenseSummary expenses None = Ok s
        /\ ExpenseData.getExpenseSummary
             (snd (ExpenseData.deleteExpense id0 expenses)) None = Ok s'
        /\ S (ExpenseData.expenseCount s') = ExpenseData.expenseCount s
        /\ AggregateSpec.num_is (ExpenseData.totalExpenses s')
             (E - ExpenseData.amount e))
  /\ (forall id0 updates expenses,
      Exists (fun e => ExpenseData.id e = id0) expenses ->
      let E := AggregateSpec.sumQ (map ExpenseData.amount expenses) in
      exists e s s',
        In e expenses /\ ExpenseData.id e = id0
        /\ ExpenseData.getExpenseSummary expenses None = Ok s
        /\ ExpenseData.getExpenseSummary
             (snd (ExpenseData.updateExpense id0 updates expenses)) None = Ok s'
        /\ ExpenseData.expenseCount s' = ExpenseData.expenseCount s
        /\ AggregateSpec.num_is (ExpenseData.totalExpenses s')
             (E - ExpenseData.amount e
              + ExpenseData.amount (ExpenseData.spread e updates))).
Proof.
  assert (G : forall l,
             ExpenseData.getExpenseSummary l None =
             Ok (ExpenseData.summarize (sort ExpenseData.by_date_desc l)))
    by reflexivity.
  assert (T : forall l,
             AggregateSpec.num_is
               (ExpenseData.totalExpenses
                  (ExpenseData.summarize (sort ExpenseData.by_date_desc l)))
               (AggregateSpec.sumQ (map ExpenseData.amount l)))
    by (intro l; apply SummaryFacts.total_of_sorted).
  assert (C : forall l,
             ExpenseData.expenseCount
               (ExpenseData.summarize (sort ExpenseData.by_date_desc l))
             = List.length l)
    by (intro l; apply JSFacts.sort_length).
  split; [|split].
  - intros now x l E. rewrite !G. eexists. eexists.
    split; [reflexivity|]. split; [reflexivity|]. rewrite !C.
    split; [|split; [apply T|]].
    + unfold ExpenseData.addExpense. cbn [snd]. rewrite length_app. simpl. lia.
    + eapply SumFacts.num_is_eq; [apply T|].
      unfold ExpenseData.addExpense. cbn [snd]. rewrite map_app, SumFacts.sumQ_app.
      unfold E. simpl. ring.
  - intros id0 l H E.
    destruct (StoreOps.first_with_id _ H) as (l1 & x & l2 & -> & Hx & Hl1).
    assert (D : ExpenseData.deleteExpense id0 (l1 ++ x :: l2) = (true, l1 ++ l2)).
    { unfold ExpenseData.deleteExpense. cbv zeta.
      rewrite (@StoreOps.findIndex_first _ ExpenseData.id id0 l1 l2 x Hl1 Hx).
      destruct (Z.eqb_spec (Z.of_nat (List.length l1)) (-1)); [lia|].
      now rewrite StoreFacts.splice1_at. }
    rewrite D, !G. exists x. eexists. eexists.
    split; [apply in_or_app; right; now left|]. split; [exact Hx|].
    split; [reflexivity|]. split; [reflexivity|]. rewrite !C. split.
    + cbn [snd]. rewrite !length_app. simpl. lia.
    + eapply SumFacts.num_is_eq; [apply T|]. cbn [snd]. unfold E.
      rewrite !map_app, !SumFacts.sumQ_app. simpl. ring.
  - intros id0 updates l H E.
    destruct (StoreOps.first_with_id _ H) as (l1 & x & l2 & -> & Hx & Hl1).
    assert (U : ExpenseData.updateExpense id0 updates (l1 ++ x :: l2) =
                (Some (ExpenseData.spread x updates),
                 l1 ++ ExpenseData.spread x updates :: l2)).
    { unfold ExpenseData.updateExpense. cbv zeta.
      rewrite (@StoreOps.findIndex_first _ ExpenseData.id id0 l1 l2 x Hl1 Hx).
      destruct (Z.eqb_spec (Z.of_nat (List.length l1)) (-1)); [lia|].
      now rewrite StoreOps.index_at, StoreOps.set_index_at. }
    rewrite U, !G. exists x. eexists. eexists.
    split; [apply in_or_app; right; now left|]. split; [exact Hx|].
    split; [reflexivity|]. split; [reflexivity|]. rewrite !C. split.
    + cbn [snd]. rewrite !length_app. reflexivity.
    + eapply SumFacts.num_is_eq; [apply T|]. cbn [snd]. unfold E.
      rewrite !map_app, !SumFacts.sumQ_app. simpl. ring.
Qed.

(** For a limit that is not negative ([5] when none is given) and records
    with calendar dates, [getRecentExpenses], in the mock store and in the
    API-backed service, and [getRecentIncome] return [min(limit, count)]
    records, most recent first, and no record left out is later than one
    returned.  A negative limit counts from the end: the result then has
    [count + limit] records, or none. *)
Theorem recent_records_are_the_latest :
  (forall limit expenses,
      Forall FilterSpec.expense_dated expenses ->
      (0 <= RecentSpec.limit_of limit)%Z ->
      RecentSpec.latest ExpenseData.date (RecentSpec.limit_of limit) expenses
        (ExpenseData.getRecentExpenses limit expenses))
  /\ (forall limit expenses,
      Forall FilterSpec.expense_dated expenses ->
      (0 <= RecentSpec.limit_of limit)%Z ->
      RecentSpec.latest ExpenseData.date (RecentSpec.limit_of limit) expenses
        (ExpenseDataApi.getRecentExpenses true (ExpenseDataApi.Json expenses) limit))
  /\ (forall limit incomeData,
      Forall FilterSpec.income_ok incomeData ->
      (0 <= RecentSpec.limit_of limit)%Z ->
      RecentSpec.latest IncomeData.date (RecentSpec.limit_of limit) incomeData
        (IncomeData.getRecentIncome limit incomeData))
  /\ (forall n expenses,
      (n < 0)%Z ->
      List.length (ExpenseData.getRecentExpenses (Some n) expenses) =
      Z.to_nat (Z.of_nat (List.length expenses) + n)).
Proof.
  split; [|split; [|split]].
  - intros limit expenses Hd Hn.
    apply (RecentFacts.slice_sorted_latest ExpenseData.date); assumption.
  - intros limit expenses Hd Hn. unfold ExpenseDataApi.getRecentExpenses.
    rewrite ApiFacts.api_getExpenses_eq. cbn [FilterSpec.satisfies FilterSpec.conjunction].
    rewrite FilterFacts.filter_true.
    apply (RecentFacts.slice_sorted_latest ExpenseData.date); assumption.
  - intros limit incomeData Hd Hn.
    apply (RecentFacts.slice_sorted_latest IncomeData.date); assumption.
  - intros n expenses Hn. unfold ExpenseData.getRecentExpenses. cbv zeta.
    rewrite RecentFacts.slice_negative, JSFacts.sort_length by assumption. lia.
Qed.

(** On fully populated records, [getExpensesByDate] has one key for each
    date of a matching expense; under a date are the matching expenses of
    that date, in the order of the store, never an empty list; the keys
    are in strictly descending order, and the groups laid end to end are
    the result of [getExpenses] for the same filter. *)
Theorem expenses_grouped_by_date
  (expenses : list ExpenseData.Expense) (filter : option ExpenseData.ExpenseFilter) :
  Forall FilterSpec.expense_ok expenses ->
  exists sorted grouped,
    ExpenseData.getExpenses expenses filter = Ok sorted
    /\ ExpenseData.getExpensesByDate expenses filter = Ok grouped
    /\ (forall d, In d (AggregateSpec.keys grouped) <->
                  exists e, In e expenses /\ FilterSpec.satisfies filter e = true
                            /\ ExpenseData.date e = d)
    /\ (forall d l, get grouped d = Some l ->
          l <> []
          /\ l = FilterSpec.on_date d (List.filter (FilterSpec.satisfies filter) expenses))
    /\ AggregateSpec.descending fst grouped
    /\ GroupSpec.flatten grouped = sorted.
Proof.
  intro Hok. unfold ExpenseData.getExpensesByDate.
  rewrite ExpenseFacts.getExpenses_eq by now apply SummaryFacts.described_all.
  cbn [bind].
  set (kept := List.filter (FilterSpec.satisfies filter) expenses).
  set (sorted := sort ExpenseData.by_date_desc kept).
  exists sorted, (fold_left ExpenseData.push_by_date sorted []).
  split; [reflexivity|]. split; [reflexivity|].
  destruct (GroupFacts.grouped_loop sorted) as (_ & Hk & Hv).
  assert (Hs : FilterSpec.expenses_descending sorted).
  { apply (DateSort.sort_by_date_descending ExpenseData.date).
    apply SummaryFacts.Forall_filter, SummaryFacts.dated_all, Hok. }
  destruct (GroupFacts.runs_loop Hs) as (Hf & _ & Hd).
  split; [|split; [|split; [exact Hd|exact Hf]]].
  - intro d. rewrite Hk, in_map_iff. split.
    + intros (e & E & He). exists e. unfold sorted in He.
      rewrite JSFacts.sort_In in He. apply filter_In in He. tauto.
    + intros (e & He & Hsat & E). exists e. split; [assumption|].
      unfold sorted. rewrite JSFacts.sort_In. apply filter_In. tauto.
  - intros d l G. destruct (Hv _ _ G) as [-> Hne]. split; [assumption|].
    apply (DateSort.sort_by_date_stable ExpenseData.date).
Qed.

Lemma expenses_grouped_by_date_witness :
  exists sorted grouped,
    ExpenseData.getExpenses Samples.expenses (Some Samples.february_large) = Ok sorted
    /\ ExpenseData.getExpensesByDate Samples.expenses (Some Samples.february_large)
       = Ok grouped
    /\ (forall d, In d (AggregateSpec.keys grouped) <->
                  exists e, In e Samples.expenses
                            /\ FilterSpec.satisfies (Some Samples.february_large) e = true
                            /\ ExpenseData.date e = d)
    /\ (forall d l, get grouped d = Some l ->
          l <> []
          /\ l = FilterSpec.on_date d
                   (List.filter (FilterSpec.satisfies (Some Samples.february_large))
                      Samples.expenses))
    /\ AggregateSpec.descending fst grouped
    /\ GroupSpec.flatten grouped = sorted.
Proof.
  apply (@expenses_grouped_by_date Samples.expenses (Some Samples.february_large)).
  repeat constructor; discriminate.
Defined.

(** On income with calendar dates, [getIncome] returns exactly the
    records that satisfy the filter (date bounds, source up to case, amount
    bounds; an absent or empty text field imposes no constraint), most
    recent first, the records of one date in the order of the store; and
    filtering the result again with the same filter changes nothing. *)
Theorem getIncome_filters_and_sorts
  (incomeData : list IncomeData.Income) (filter : option IncomeData.IncomeFilter) :
  Forall FilterSpec.income_ok incomeData ->
  let out := IncomeData.getIncome incomeData filter in
  Permutation out (List.filter (FilterSpec.income_satisfies filter) incomeData)
  /\ (forall i, In i out <->
                In i incomeData /\ FilterSpec.income_satisfies filter i = true)
  /\ StronglySorted
       (fun a b => String.leb (IncomeData.date b) (IncomeData.date a) = true) out
  /\ (forall d,
        List.filter (fun i => (IncomeData.date i =? d)%string) out =
        List.filter (fun i => (IncomeData.date i =? d)%string)
          (List.filter (FilterSpec.income_satisfies filter) incomeData))
  /\ IncomeData.getIncome out filter = out.
Proof.
  intros Hok out. unfold out. rewrite !SummaryFacts.getIncome_eq.
  assert (Hd : Forall (fun i => is_iso_date (IncomeData.date i) = true)
                 (List.filter (FilterSpec.income_satisfies filter) incomeData))
    by apply SummaryFacts.Forall_filter, Hok.
  split; [apply JSFacts.sort_perm|]. split; [|split; [|split]].
  - intro i. rewrite JSFacts.sort_In. apply filter_In.
  - now apply (DateSort.sort_by_date_descending IncomeData.date).
  - intro d. apply (DateSort.sort_by_date_stable IncomeData.date).
  - rewrite FilterFacts.filter_all.
    + now apply (DateSort.sort_by_date_idem IncomeData.date).
    + apply JSFacts.sort_Forall, FilterFacts.filter_Forall.
Qed.

Lemma getIncome_filters_and_sorts_witness :
  let out := IncomeData.getIncome Samples.incomeData None in
  Permutation out (List.filter (FilterSpec.income_satisfies None) Samples.incomeData)
  /\ (forall i, In i out <->
                In i Samples.incomeData /\ FilterSpec.income_satisfies None i = true)
  /\ StronglySorted
       (fun a b => String.leb (IncomeData.date b) (IncomeData.date a) = true) out
  /\ (forall d,
        List.filter (fun i => (IncomeData.date i =? d)%string) out =
        List.filter (fun i => (IncomeData.date i =? d)%string)
          (List.filter (FilterSpec.income_satisfies None) Samples.incomeData))
  /\ IncomeData.getIncome out None = out.
Proof.
  apply (@getIncome_filters_and_sorts Samples.incomeData None).
  repeat constructor.
Defined.

(** For a signed-in user whose records were fetched, the API-backed
    [getExpenses] returns exactly the records that satisfy the filter,
    most recent first and stable within a date, for records with or without
    a description, and is idempotent; on records that have their
    descriptions the mock store returns the same list, the same summary and
    the same groups by date. *)
Theorem api_service_filters_and_agrees
  (expenses : list ExpenseData.Expense) (filter : option ExpenseData.ExpenseFilter) :
  Forall FilterSpec.expense_dated expenses ->
  let kept := List.filter (FilterSpec.satisfies filter) expenses in
  let out := ExpenseDataApi.getExpenses true (ExpenseDataApi.Json expenses) filter in
  Permutation out kept
  /\ (forall e, In e out <-> In e expenses /\ FilterSpec.satisfies filter e = true)
  /\ FilterSpec.expenses_descending out
  /\ (forall d, FilterSpec.on_date d out = FilterSpec.on_date d kept)
  /\ ExpenseDataApi.getExpenses true (ExpenseDataApi.Json out) filter = out
  /\ (Forall FilterSpec.described expenses ->
      ExpenseData.getExpenses expenses filter = Ok out
      /\ ExpenseData.getExpenseSummary expenses filter =
         Ok (ExpenseDataApi.getExpenseSummary true (ExpenseDataApi.Json expenses) filter)
      /\ ExpenseData.getExpensesByDate expenses filter =
         Ok (ExpenseDataApi.getExpensesByDate true (ExpenseDataApi.Json expenses) filter)).
Proof.
  intros Hd kept out.
  unfold ExpenseDataApi.getExpenseSummary, ExpenseDataApi.getExpensesByDate.
  fold out. unfold out. rewrite !ApiFacts.api_getExpenses_eq. fold kept.
  assert (Hk : Forall (fun e => is_iso_date (ExpenseData.date e) = true) kept)
    by apply SummaryFacts.Forall_filter, Hd.
  split; [apply JSFacts.sort_perm|]. split; [|split; [|split; [|split]]].
  - intro e. rewrite JSFacts.sort_In. apply filter_In.
  - now apply (DateSort.sort_by_date_descending ExpenseData.date).
  - intro d. apply (DateSort.sort_by_date_stable ExpenseData.date).
  - rewrite FilterFacts.filter_all.
    + now apply (DateSort.sort_by_date_idem ExpenseData.date).
    + apply JSFacts.sort_Forall, FilterFacts.filter_Forall.
  - intro Hdesc. unfold ExpenseData.getExpenseSummary, ExpenseData.getExpensesByDate.
    rewrite ExpenseFacts.getExpenses_eq by assumption. auto.
Qed.

Lemma api_service_filters_and_agrees_witness :
  let kept := List.filter (FilterSpec.satisfies (Some Samples.february_large))
                Samples.expenses in
  let out := ExpenseDataApi.getExpenses true (ExpenseDataApi.Json Samples.expenses)
               (Some Samples.february_large) in
  Permutation out kept
  /\ (forall e, In e out <->
                In e Samples.expenses
                /\ FilterSpec.satisfies (Some Samples.february_large) e = true)
  /\ FilterSpec.expenses_descending out
  /\ (forall d, FilterSpec.on_date d out = FilterSpec.on_date d kept)
  /\ ExpenseDataApi.getExpenses true (ExpenseDataApi.Json out)
       (Some Samples.february_large) = out
  /\ (Forall FilterSpec.described Samples.expenses ->
      ExpenseData.getExpenses Samples.expenses (Some Samples.february_large) = Ok out
      /\ ExpenseData.getExpenseSummary Samples.expenses (Some Samples.february_large) =
         Ok (ExpenseDataApi.getExpenseSummary true (ExpenseDataApi.Json Samples.expenses)
               (Some Samples.february_large))
      /\ ExpenseData.getExpensesByDate Samples.expenses (Some Samples.february_large) =
         Ok (ExpenseDataApi.getExpensesByDate true (ExpenseDataApi.Json Samples.expenses)
               (Some Samples.february_large))).
Proof.
  apply (@api_service_filters_and_agrees Samples.expenses (Some Samples.february_large)).
  repeat constructor.
Defined.

(** On expenses that have their descriptions and whose categories and
    months are not property names inherited from [Object.prototype],
    [getExpenseSummary] counts the matching expenses, totals their amounts,
    averages the total over the count when there is one, and tallies them
    by category and by month: one key for each category (month) of a
    matching expense, under it the sum of the amounts of that category
    (month); each tally adds up to the total. *)
Theorem expense_summary_breakdowns
  (expenses : list ExpenseData.Expense) (filter : option ExpenseData.ExpenseFilter) :
  Forall FilterSpec.described expenses ->
  AggregateSpec.plain_categories expenses ->
  AggregateSpec.plain_expense_months expenses ->
  let kept := List.filter (FilterSpec.satisfies filter) expenses in
  let total := AggregateSpec.sumQ (map ExpenseData.amount kept) in
  exists s,
    ExpenseData.getExpenseSummary expenses filter = Ok s
    /\ ExpenseData.expenseCount s = List.length kept
    /\ AggregateSpec.num_is (ExpenseData.totalExpenses s) total
    /\ (kept <> [] ->
        AggregateSpec.num_is (ExpenseData.averageExpense s)
          (total / inject_Z (Z.of_nat (List.length kept))))
    /\ AggregateSpec.tallied ExpenseData.category ExpenseData.amount kept
         (ExpenseData.byCategory s)
    /\ AggregateSpec.tallied AggregateSpec.expense_month ExpenseData.amount kept
         (ExpenseData.byMonth s)
    /\ AggregateSpec.obj_sum (ExpenseData.byCategory s) == total
    /\ AggregateSpec.obj_sum (ExpenseData.byMonth s) == total.
Proof.
  intros Hd _ _ kept total.
  rewrite AnalyticsFacts.getExpenseSummary_eq by assumption. fold kept.
  set (sorted := sort ExpenseData.by_date_desc kept).
  assert (Hp : Permutation sorted kept) by apply JSFacts.sort_perm.
  assert (Hc : AggregateSpec.tallied ExpenseData.category ExpenseData.amount kept
                 (ExpenseData.byCategory (ExpenseData.summarize sorted))).
  { apply (BreakdownFacts.tallied_perm Hp), TallyFacts.tally_tallied. }
  assert (Hm : AggregateSpec.tallied AggregateSpec.expense_month ExpenseData.amount kept
                 (ExpenseData.byMonth (ExpenseData.summarize sorted))).
  { apply (BreakdownFacts.tallied_perm Hp).
    apply (TallyFacts.tally_tallied AggregateSpec.expense_month). }
  assert (Ht : AggregateSpec.num_is
                 (ExpenseData.totalExpenses (ExpenseData.summarize sorted)) total)
    by apply SummaryFacts.total_of_sorted.
  eexists. split; [reflexivity|].
  split; [apply JSFacts.sort_length|]. split; [exact Ht|].
  split; [|split; [exact Hc|split; [exact Hm|split]]].
  - intro Hne. cbn [ExpenseData.averageExpense ExpenseData.summarize].
    rewrite <- (JSFacts.sort_length ExpenseData.by_date_desc kept). fold sorted.
    apply BreakdownFacts.num_is_average; [exact Ht|].
    unfold sorted. rewrite JSFacts.sort_length. destruct kept; [congruence|simpl; lia].
  - now apply BreakdownFacts.tallied_sum in Hc.
  - now apply BreakdownFacts.tallied_sum in Hm.
Qed.

Lemma expense_summary_breakdowns_witness :
  let kept := List.filter (FilterSpec.satisfies (Some Samples.february_large))
                Samples.expenses in
  let total := AggregateSpec.sumQ (map ExpenseData.amount kept) in
  exists s,
    ExpenseData.getExpenseSummary Samples.expenses (Some Samples.february_large) = Ok s
    /\ ExpenseData.expenseCount s = List.length kept
    /\ AggregateSpec.num_is (ExpenseData.totalExpenses s) total
    /\ (kept <> [] ->
        AggregateSpec.num_is (ExpenseData.averageExpense s)
          (total / inject_Z (Z.of_nat (List.length kept))))
    /\ AggregateSpec.tallied ExpenseData.category ExpenseData.amount kept
         (ExpenseData.byCategory s)
    /\ AggregateSpec.tallied AggregateSpec.expense_month ExpenseData.amount kept
         (ExpenseData.byMonth s)
    /\ AggregateSpec.obj_sum (ExpenseData.byCategory s) == total
    /\ AggregateSpec.obj_sum (ExpenseData.byMonth s) == total.
Proof.
  apply (@expense_summary_breakdowns Samples.expenses (Some Samples.february_large)).
  - repeat constructor; discriminate.
  - repeat constructor.
  - repeat constructor.
Defined.

(** On income whose months are not property names inherited from
    [Object.prototype] (the names of the sources never are),
    [getIncomeSummary] counts the matching income, totals the amounts,
    averages the total over the count when there is one, and tallies by
    source and by month; each tally adds up to the total. *)
Theorem income_summary_breakdowns
  (incomeData : list IncomeData.Income) (filter : option IncomeData.IncomeFilter) :
  AggregateSpec.plain_income_months incomeData ->
  let kept := List.filter (FilterSpec.income_satisfies filter) incomeData in
  let total := AggregateSpec.sumQ (map IncomeData.amount kept) in
  let s := IncomeData.getIncomeSummary incomeData filter in
  IncomeData.incomeCount s = List.length kept
  /\ AggregateSpec.num_is (IncomeData.totalIncome s) total
  /\ (kept <> [] ->
      AggregateSpec.num_is (IncomeData.averageIncome s)
        (total / inject_Z (Z.of_nat (List.length kept))))
  /\ AggregateSpec.tallied (fun i => IncomeData.source_name (IncomeData.source i))
       IncomeData.amount kept (IncomeData.bySource s)
  /\ AggregateSpec.tallied AggregateSpec.income_month IncomeData.amount kept
       (IncomeData.byMonth s)
  /\ AggregateSpec.obj_sum (IncomeData.bySource s) == total
  /\ AggregateSpec.obj_sum (IncomeData.byMonth s) == total.
Proof.
  intros _ kept total s. unfold s, IncomeData.getIncomeSummary.
  rewrite SummaryFacts.getIncome_eq. fold kept.
  set (sorted := sort IncomeData.by_date_desc kept).
  assert (Hp : Permutation sorted kept) by apply JSFacts.sort_perm.
  assert (Hc : AggregateSpec.tallied (fun i => IncomeData.source_name (IncomeData.source i))
                 IncomeData.amount kept
                 (IncomeData.bySource (IncomeData.summarize sorted))).
  { apply (BreakdownFacts.tallied_perm Hp).
    apply (TallyFacts.tally_tallied
             (fun i => IncomeData.source_name (IncomeData.source i))). }
  assert (Hm : AggregateSpec.tallied AggregateSpec.income_month IncomeData.amount kept
                 (IncomeData.byMonth (IncomeData.summarize sorted))).
  { apply (BreakdownFacts.tallied_perm Hp).
    apply (TallyFacts.tally_tallied AggregateSpec.income_month). }
  assert (Ht : AggregateSpec.num_is
                 (IncomeData.totalIncome (IncomeData.summarize sorted)) total)
    by apply SummaryFacts.total_of_sorted.
  split; [apply JSFacts.sort_length|]. split; [exact Ht|].
  split; [|split; [exact Hc|split; [exact Hm|split]]].
  - intro Hne. cbn [IncomeData.averageIncome IncomeData.summarize].
    rewrite <- (JSFacts.sort_length IncomeData.by_date_desc kept). fold sorted.
    apply BreakdownFacts.num_is_average; [exact Ht|].
    unfold sorted. rewrite JSFacts.sort_length. destruct kept; [congruence|simpl; lia].
  - now apply BreakdownFacts.tallied_sum in Hc.
  - now apply BreakdownFacts.tallied_sum in Hm.
Qed.

Lemma income_summary_breakdowns_witness :
  let kept := List.filter (FilterSpec.income_satisfies None) Samples.incomeData in
  let total := AggregateSpec.sumQ (map IncomeData.amount kept) in
  let s := IncomeData.getIncomeSummary Samples.incomeData None in
  IncomeData.incomeCount s = List.length kept
  /\ AggregateSpec.num_is (IncomeData.totalIncome s) total
  /\ (kept <> [] ->
      AggregateSpec.num_is (IncomeData.averageIncome s)
        (total / inject_Z (Z.of_nat (List.length kept))))
  /\ AggregateSpec.tallied (fun i => IncomeData.source_name (IncomeData.source i))
       IncomeData.amount kept (IncomeData.bySource s)
  /\ AggregateSpec.tallied AggregateSpec.income_month IncomeData.amount kept
       (IncomeData.byMonth s)
  /\ AggregateSpec.obj_sum (IncomeData.bySource s) == total
  /\ AggregateSpec.obj_sum (IncomeData.byMonth s) == total.
Proof.
  apply (@income_summary_breakdowns Samples.incomeData None).
  repeat constructor.
Defined.

(** On expenses that have their descriptions and whose categories are
    not property names inherited from [Object.prototype],
    [getSpendingByCategory] returns one entry for each category of a
    matching expense, with the sum of the amounts of that category, in
    descending order of the amounts; the amounts of the entries add up to
    the total of the matching expenses. *)
Theorem spending_by_category_entries
  (expenses : list ExpenseData.Expense) (filter : option ExpenseData.ExpenseFilter) :
  Forall FilterSpec.described expenses ->
  AggregateSpec.plain_categories expenses ->
  let kept := List.filter (FilterSpec.satisfies filter) expenses in
  exists out,
    Analytics.getSpendingByCategory expenses filter = Ok out
    /\ NoDup (map Analytics.category out)
    /\ (forall c, In c (map Analytics.category out) <->
                  In c (map ExpenseData.category kept))
    /\ Forall (fun entry =>
                 AggregateSpec.num_is (Analytics.amount entry)
                   (AggregateSpec.group_sum ExpenseData.category ExpenseData.amount
                      (Analytics.category entry) kept)) out
    /\ StronglySorted
         (fun a b => AggregateSpec.value (Analytics.amount b)
                     <= AggregateSpec.value (Analytics.amount a)) out
    /\ AggregateSpec.num_is (reduce_sum Analytics.amount out)
         (AggregateSpec.sumQ (map ExpenseData.amount kept)).
Proof.
  intros Hd _ kept. unfold Analytics.getSpendingByCategory.
  rewrite AnalyticsFacts.getExpenseSummary_eq by assumption. cbn [bind]. fold kept.
  set (sorted := sort ExpenseData.by_date_desc kept).
  assert (Hp : Permutation sorted kept) by apply JSFacts.sort_perm.
  assert (Hc : AggregateSpec.tallied ExpenseData.category ExpenseData.amount kept
                 (ExpenseData.byCategory (ExpenseData.summarize sorted))).
  { apply (BreakdownFacts.tallied_perm Hp), TallyFacts.tally_tallied. }
  set (o := ExpenseData.byCategory (ExpenseData.summarize sorted)) in *.
  set (total := ExpenseData.totalExpenses (ExpenseData.summarize sorted)).
  match goal with |- exists out, Ok (sort _ (map ?f _)) = _ /\ _ => set (entry := f) end.
  pose proof (BreakdownFacts.tallied_sum Hc) as Hsum.
  destruct Hc as (Hnd & Hk & Hv).
  assert (Hcat : map Analytics.category (map entry (entries o)) = AggregateSpec.keys o).
  { unfold entries, AggregateSpec.keys. rewrite map_map. apply map_ext. now intros [k n]. }
  assert (Hamt : Forall (fun e => AggregateSpec.num_is (Analytics.amount e)
                          (AggregateSpec.group_sum ExpenseData.category ExpenseData.amount
                             (Analytics.category e) kept))
                   (map entry (entries o))).
  { apply Forall_map, Forall_forall. intros [k n] Hin.
    apply UpsertFacts.entries_get in Hin; [|exact Hnd]. apply (Hv _ _ Hin). }
  assert (Hfin : Forall (fun e => is_finite (Analytics.amount e) = true)
                   (map entry (entries o))).
  { eapply Forall_impl; [|exact Hamt]. intros e He. eapply SumFacts.num_is_finite, He. }
  assert (Pout : Permutation (map Analytics.category
                                (sort Analytics.by_amount_desc (map entry (entries o))))
                   (AggregateSpec.keys o)).
  { rewrite <- Hcat. apply Permutation_map, JSFacts.sort_perm. }
  eexists. split; [reflexivity|]. split; [|split; [|split; [|split]]].
  - eapply Permutation_NoDup; [apply Permutation_sym, Pout|exact Hnd].
  - intro c. rewrite <- Hk. split; apply Permutation_in;
      [exact Pout|apply Permutation_sym, Pout].
  - now apply JSFacts.sort_Forall.
  - now apply (MonthFacts.sort_by_amount_desc Analytics.amount).
  - eapply SumFacts.num_is_eq.
    + apply SummaryFacts.reduce_sum_finite. now apply JSFacts.sort_Forall.
    + rewrite (SumFacts.sumQ_perm
                 (Permutation_map _ (JSFacts.sort_perm Analytics.by_amount_desc _))).
      rewrite <- Hsum. unfold AggregateSpec.obj_sum, entries. rewrite map_map.
      apply SummaryFacts.sumQ_ext, Forall_forall. now intros [k n] _.
Qed.

Lemma spending_by_category_entries_witness :
  let kept := List.filter (FilterSpec.satisfies (Some Samples.february_large))
                Samples.expenses in
  exists out,
    Analytics.getSpendingByCategory Samples.expenses (Some Samples.february_large) = Ok out
    /\ NoDup (map Analytics.category out)
    /\ (forall c, In c (map Analytics.category out) <->
                  In c (map ExpenseData.category kept))
    /\ Forall (fun entry =>
                 AggregateSpec.num_is (Analytics.amount entry)
                   (AggregateSpec.group_sum ExpenseData.category ExpenseData.amount
                      (Analytics.category entry) kept)) out
    /\ StronglySorted
         (fun a b => AggregateSpec.value (Analytics.amount b)
                     <= AggregateSpec.value (Analytics.amount a)) out
    /\ AggregateSpec.num_is (reduce_sum Analytics.amount out)
         (AggregateSpec.sumQ (map ExpenseData.amount kept)).
Proof.
  apply (@spending_by_category_entries Samples.expenses (Some Samples.february_large)).
  - repeat constructor; discriminate.
  - repeat constructor.
Defined.

(** The trend and the balance summary agree, on expenses that have their
    descriptions and records whose dates are not property names inherited
    from [Object.prototype]: for one filter, the income, the expenses and
    the balances of the points of [getSpendingTrends] add up to the total
    income, the total expenses and the balance of [getBalanceSummary]. *)
Theorem trend_points_add_up
  (expenses : list ExpenseData.Expense) (incomeData : list IncomeData.Income)
  (filter : option Analytics.TrendFilter) :
  Forall FilterSpec.described expenses ->
  AggregateSpec.plain_expense_dates expenses ->
  AggregateSpec.plain_income_dates incomeData ->
  let expenseFilter := option_map Analytics.as_ExpenseFilter filter in
  let incomeFilter := option_map Analytics.as_IncomeFilter filter in
  let E := AggregateSpec.expense_total expenses expenseFilter in
  let I := AggregateSpec.income_total incomeData incomeFilter in
  exists points summary,
    Analytics.getSpendingTrends expenses incomeData filter = Ok points
    /\ Analytics.getBalanceSummary expenses incomeData expenseFilter incomeFilter
       = Ok summary
    /\ AggregateSpec.num_is (reduce_sum Analytics.income points) I
    /\ AggregateSpec.num_is (Analytics.totalIncome summary) I
    /\ AggregateSpec.num_is (reduce_sum Analytics.expenses points) E
    /\ AggregateSpec.num_is (Analytics.totalExpenses summary) E
    /\ AggregateSpec.num_is (reduce_sum Analytics.trend_balance points) (I - E)
    /\ AggregateSpec.num_is (Analytics.balance summary) (I - E).
Proof.
  intros Hd _ _ expenseFilter incomeFilter E I.
  unfold Analytics.getSpendingTrends, Analytics.getBalanceSummary.
  rewrite AnalyticsFacts.getExpenseSummary_eq by assumption.
  rewrite ExpenseFacts.getExpenses_eq by assumption. cbn [bind].
  fold expenseFilter incomeFilter.
  pose proof (AnalyticsFacts.expense_summary_total expenseFilter expenses) as HE.
  pose proof (AnalyticsFacts.income_summary_total incomeFilter incomeData) as HI.
  fold E in HE. fold I in HI.
  set (es := sort ExpenseData.by_date_desc
               (List.filter (FilterSpec.satisfies expenseFilter) expenses)) in *.
  set (ys := IncomeData.getIncome incomeData incomeFilter).
  destruct (TrendFacts.day_table_loops es ys) as (Hnd & Hk & Hv).
  set (o := fold_left Analytics.add_day_income ys
              (fold_left Analytics.add_day_expense es [])) in *.
  match goal with |- exists _ _, Ok (sort _ (map ?f _)) = _ /\ _ => set (point := f) end.
  assert (Hp : Permutation (sort Analytics.by_date_asc (map point (entries o)))
                 (map point o)) by apply JSFacts.sort_perm.
  assert (SE : AggregateSpec.sumQ
                 (map (fun k => AggregateSpec.group_sum ExpenseData.date
                                  ExpenseData.amount k es)
                    (AggregateSpec.keys o)) == E).
  { rewrite BreakdownFacts.sum_of_groups.
    - apply SumFacts.sumQ_perm, Permutation_map, JSFacts.sort_perm.
    - exact Hnd.
    - intros x Hx. apply Hk. left. now apply in_map. }
  assert (SI : AggregateSpec.sumQ
                 (map (fun k => AggregateSpec.group_sum IncomeData.date
                                  IncomeData.amount k ys)
                    (AggregateSpec.keys o)) == I).
  { rewrite BreakdownFacts.sum_of_groups.
    - apply SumFacts.sumQ_perm, Permutation_map, SummaryFacts.getIncome_perm.
    - exact Hnd.
    - intros x Hx. apply Hk. right. now apply in_map. }
  assert (Hrow : forall kv, In kv o ->
            AggregateSpec.num_is (Analytics.day_expenses (snd kv))
              (AggregateSpec.group_sum ExpenseData.date ExpenseData.amount (fst kv) es)
            /\ AggregateSpec.num_is (Analytics.day_income (snd kv))
                 (AggregateSpec.group_sum IncomeData.date IncomeData.amount (fst kv) ys)).
  { intros [k d] Hin. apply (Hv k d). now apply UpsertFacts.entries_get. }
  eexists. eexists. split; [reflexivity|]. split; [reflexivity|].
  cbn [Analytics.totalIncome Analytics.totalExpenses Analytics.balance].
  split; [|split; [exact HI|split; [|split; [exact HE|split]]]].
  - eapply SumFacts.num_is_eq; [|exact SI].
    apply (@TableFacts.rows_sum _ _ o point _ Analytics.income _ Hp).
    intros [k d] Hin. apply (Hrow _ Hin).
  - eapply SumFacts.num_is_eq; [|exact SE].
    apply (@TableFacts.rows_sum _ _ o point _ Analytics.expenses _ Hp).
    intros [k d] Hin. apply (Hrow _ Hin).
  - apply SumFacts.num_is_eq
      with (q := AggregateSpec.sumQ
                   (map (fun k => AggregateSpec.group_sum IncomeData.date
                                    IncomeData.amount k ys
                                  - AggregateSpec.group_sum ExpenseData.date
                                      ExpenseData.amount k es)
                      (AggregateSpec.keys o)));
      [|now rewrite TableFacts.sumQ_minus, SI, SE].
    apply (@TableFacts.rows_sum _ _ o point _ Analytics.trend_balance
             (fun k => AggregateSpec.group_sum IncomeData.date IncomeData.amount k ys
                       - AggregateSpec.group_sum ExpenseData.date
                           ExpenseData.amount k es) Hp).
    intros [k d] Hin. destruct (Hrow _ Hin) as [He Hi].
    cbn [point Analytics.trend_balance fst snd] in *. now apply SumFacts.num_is_sub.
  - now apply SumFacts.num_is_sub.
Qed.

Lemma trend_points_add_up_witness :
  let expenseFilter := option_map Analytics.as_ExpenseFilter None in
  let incomeFilter := option_map Analytics.as_IncomeFilter None in
  let E := AggregateSpec.expense_total Samples.expenses expenseFilter in
  let I := AggregateSpec.income_total Samples.incomeData incomeFilter in
  exists points summary,
    Analytics.getSpendingTrends Samples.expenses Samples.incomeData None = Ok points
    /\ Analytics.getBalanceSummary Samples.expenses Samples.incomeData
         expenseFilter incomeFilter = Ok summary
    /\ AggregateSpec.num_is (reduce_sum Analytics.income points) I
    /\ AggregateSpec.num_is (Analytics.totalIncome summary) I
    /\ AggregateSpec.num_is (reduce_sum Analytics.expenses points) E
    /\ AggregateSpec.num_is (Analytics.totalExpenses summary) E
    /\ AggregateSpec.num_is (reduce_sum Analytics.trend_balance points) (I - E)
    /\ AggregateSpec.num_is (Analytics.balance summary) (I - E).
Proof.
  apply (@trend_points_add_up Samples.expenses Samples.incomeData None).
  - repeat constructor; discriminate.
  - repeat constructor.
  - repeat constructor.
Defined.

(** On records whose months, and expenses whose categories, are not
    property names inherited from [Object.prototype]: when the requested
    count is at least the number of months on record, [getMonthlyBreakdown]
    returns every month on record once, and the expenses, the income and
    the savings of its entries add up to the totals of the stored expenses,
    of the stored income, and to their difference. *)
Theorem months_add_up
  (expenses : list ExpenseData.Expense) (incomeData : list IncomeData.Income)
  (months : option Z) :
  AggregateSpec.plain_expense_months expenses ->
  AggregateSpec.plain_income_months incomeData ->
  AggregateSpec.plain_categories expenses ->
  (Z.of_nat (List.length (CoverSpec.months_on_record expenses incomeData))
   <= AggregateSpec.requested months)%Z ->
  let E := AggregateSpec.sumQ (map ExpenseData.amount expenses) in
  let I := AggregateSpec.sumQ (map IncomeData.amount incomeData) in
  exists out,
    Analytics.getMonthlyBreakdown expenses incomeData months = Ok out
    /\ Permutation (map Analytics.month out)
         (CoverSpec.months_on_record expenses incomeData)
    /\ AggregateSpec.num_is (reduce_sum Analytics.month_expenses out) E
    /\ AggregateSpec.num_is (reduce_sum Analytics.month_income out) I
    /\ AggregateSpec.num_is (reduce_sum Analytics.savings out) (I - E).
Proof.
  intros _ _ _ Hn E I. unfold Analytics.getMonthlyBreakdown.
  fold (AggregateSpec.requested months).
  change (ExpenseData.getExpenses expenses None)
    with (Ok (sort ExpenseData.by_date_desc expenses)).
  change (IncomeData.getIncome incomeData None)
    with (sort IncomeData.by_date_desc incomeData).
  cbn [bind].
  set (es := sort ExpenseData.by_date_desc expenses).
  set (ys := sort IncomeData.by_date_desc incomeData).
  assert (Pes : Permutation es expenses) by apply JSFacts.sort_perm.
  assert (Pys : Permutation ys incomeData) by apply JSFacts.sort_perm.
  destruct (MonthFacts.month_table_loops es ys) as (Hnd & Hk & Hv).
  set (o := fold_left Analytics.add_month_income ys
              (fold_left Analytics.add_month_expense es [])) in *.
  match goal with
  | |- context [map ?f (entries o)] => set (entry := f)
  end.
  set (every := sort Analytics.by_month_desc (map entry (entries o))).
  assert (Hp : Permutation every (map entry o)) by apply JSFacts.sort_perm.
  assert (Hmonths : Permutation (map Analytics.month every)
                      (CoverSpec.months_on_record expenses incomeData)).
  { eapply perm_trans; [apply Permutation_map, Hp|].
    rewrite map_map.
    replace (map (fun x => Analytics.month (entry x)) o) with (AggregateSpec.keys o)
      by (apply map_ext; now intros [k v]).
    apply NoDup_Permutation; [exact Hnd|apply NoDup_nodup|].
    intro m. unfold CoverSpec.months_on_record. rewrite nodup_In, in_app_iff, Hk.
    split; (intros [H|H]; [left|right]);
      (eapply Permutation_in; [|exact H]); apply Permutation_map;
      auto using Permutation_sym. }
  assert (Hall : slice0 every (AggregateSpec.requested months) = every).
  { assert (L : (0 <= AggregateSpec.requested months)%Z) by lia.
    rewrite MonthFacts.slice0_count by assumption. apply firstn_all2.
    apply Permutation_length in Hmonths. rewrite length_map in Hmonths. lia. }
  rewrite Hall. exists every. split; [reflexivity|]. split; [exact Hmonths|].
  assert (SE : AggregateSpec.sumQ
                 (map (fun k => AggregateSpec.group_sum AggregateSpec.expense_month
                                  ExpenseData.amount k es)
                    (AggregateSpec.keys o)) == E).
  { rewrite BreakdownFacts.sum_of_groups.
    - apply SumFacts.sumQ_perm, Permutation_map, Pes.
    - exact Hnd.
    - intros x Hx. apply Hk. left. now apply in_map. }
  assert (SI : AggregateSpec.sumQ
                 (map (fun k => AggregateSpec.group_sum AggregateSpec.income_month
                                  IncomeData.amount k ys)
                    (AggregateSpec.keys o)) == I).
  { rewrite BreakdownFacts.sum_of_groups.
    - apply SumFacts.sumQ_perm, Permutation_map, Pys.
    - exact Hnd.
    - intros x Hx. apply Hk. right. now apply in_map. }
  assert (Hrow : forall kv, In kv o ->
            AggregateSpec.num_is (Analytics.m_expenses (snd kv))
              (AggregateSpec.group_sum AggregateSpec.expense_month ExpenseData.amount
                 (fst kv) es)
            /\ AggregateSpec.num_is (Analytics.m_income (snd kv))
                 (AggregateSpec.group_sum AggregateSpec.income_month IncomeData.amount
                    (fst kv) ys)).
  { intros [k d] Hin. apply UpsertFacts.entries_get in Hin; [|exact Hnd].
    destruct (Hv k d Hin) as (He & Hi & _). auto. }
  split; [|split].
  - eapply SumFacts.num_is_eq; [|exact SE].
    apply (@TableFacts.rows_sum _ _ o entry _ Analytics.month_expenses _ Hp).
    intros [k d] Hin. apply (Hrow _ Hin).
  - eapply SumFacts.num_is_eq; [|exact SI].
    apply (@TableFacts.rows_sum _ _ o entry _ Analytics.month_income _ Hp).
    intros [k d] Hin. apply (Hrow _ Hin).
  - apply SumFacts.num_is_eq
      with (q := AggregateSpec.sumQ
                   (map (fun k => AggregateSpec.group_sum AggregateSpec.income_month
                                    IncomeData.amount k ys
                                  - AggregateSpec.group_sum AggregateSpec.expense_month
                                      ExpenseData.amount k es)
                      (AggregateSpec.keys o)));
      [|now rewrite TableFacts.sumQ_minus, SI, SE].
    apply (@TableFacts.rows_sum _ _ o entry _ Analytics.savings
             (fun k => AggregateSpec.group_sum AggregateSpec.income_month
                         IncomeData.amount k ys
                       - AggregateSpec.group_sum AggregateSpec.expense_month
                           ExpenseData.amount k es) Hp).
    intros [k d] Hin. destruct (Hrow _ Hin) as [He Hi].
    cbn [entry Analytics.savings fst snd] in *. now apply SumFacts.num_is_sub.
Qed.

Lemma months_add_up_witness :
  let E := AggregateSpec.sumQ (map ExpenseData.amount Samples.expenses) in
  let I := AggregateSpec.sumQ (map IncomeData.amount Samples.incomeData) in
  exists out,
    Analytics.getMonthlyBreakdown Samples.expenses Samples.incomeData None = Ok out
    /\ Permutation (map Analytics.month out)
         (CoverSpec.months_on_record Samples.expenses Samples.incomeData)
    /\ AggregateSpec.num_is (reduce_sum Analytics.month_expenses out) E
    /\ AggregateSpec.num_is (reduce_sum Analytics.month_income out) I
    /\ AggregateSpec.num_is (reduce_sum Analytics.savings out) (I - E).
Proof.
  apply (@months_add_up Samples.expenses Samples.incomeData None).
  - repeat constructor.
  - repeat constructor.
  - repeat constructor.
  - vm_compute. discriminate.
Defined.

(** For a year from 1000 to 9999 and a month from 1 to 12, on fully
    populated records, [getDailySpending] returns one entry for each day of
    that month on which there is an expense, with the sum of the amounts of
    that day, in ascending order of the days: the bounds [YYYY-MM-01] and
    [YYYY-MM-31] select the dates of the month, whatever its length. *)
Theorem daily_spending_of_a_month
  (expenses : list ExpenseData.Expense) (year month : Z) :
  Forall FilterSpec.expense_ok expenses ->
  (1000 <= year <= 9999)%Z -> (1 <= month <= 12)%Z ->
  exists out,
    Analytics.getDailySpending expenses year month = Ok out
    /\ Forall (DailySpec.day_entry expenses year month) out
    /\ (forall d e, In e expenses -> DailySpec.on_day year month d e = true ->
          exists entry, In entry out /\ Analytics.day entry = of_Z d)
    /\ StronglySorted
         (fun a b => AggregateSpec.value (Analytics.day a)
                     < AggregateSpec.value (Analytics.day b)) out.
Proof.
  intros Hok Hy Hm.
  assert (Hdated : Forall FilterSpec.expense_dated expenses)
    by now apply SummaryFacts.dated_all.
  unfold Analytics.getDailySpending. cbv zeta.
  fold (DailySpec.month_filter year month).
  rewrite ExpenseFacts.getExpenses_eq by now apply SummaryFacts.described_all.
  cbn [bind].
  set (kept := List.filter (FilterSpec.satisfies (Some (DailySpec.month_filter year month)))
                 expenses).
  set (key := fun e => key_of_int (Analytics.day_of e)).
  assert (Ht : AggregateSpec.tallied key ExpenseData.amount kept
                 (ExpenseData.tally key (fun e => Fin (ExpenseData.amount e))
                    (sort ExpenseData.by_date_desc kept) [])).
  { apply (BreakdownFacts.tallied_perm (JSFacts.sort_perm ExpenseData.by_date_desc kept)).
    apply (TallyFacts.tally_tallied key). }
  set (o := ExpenseData.tally key _ _ []) in *.
  match goal with |- exists out, Ok (sort _ (map ?f _)) = _ /\ _ => set (row := f) end.
  destruct Ht as (Hnd & Hk & Hv).
  (* every key is the text of a day of the month *)
  assert (Hkey : forall k, In k (AggregateSpec.keys o) ->
            exists d e, (1 <= d <= 31)%Z /\ k = String_of_Z d /\ In e expenses
                        /\ DailySpec.on_day year month d e = true).
  { intros k Hin. apply Hk, in_map_iff in Hin. destruct Hin as (e & <- & He).
    apply filter_In in He. destruct He as [He Hs].
    rewrite Forall_forall in Hdated.
    destruct (@DailyFacts.kept_day year month e Hy Hm (Hdated e He) Hs)
      as (d & Bd & Hd & E).
    exists d, e. auto. }
  assert (Hrow : forall kv, In kv o -> DailySpec.day_entry expenses year month (row kv)).
  { intros [k n] Hin.
    assert (Hink : In k (AggregateSpec.keys o))
      by (unfold AggregateSpec.keys; change k with (fst (k, n)); now apply in_map).
    destruct (Hkey k Hink) as (d & e & Bd & -> & He & Hd).
    exists d. split; [exact Bd|]. cbn [row Analytics.day Analytics.day_amount].
    destruct (@DailyFacts.day_key d Bd) as [-> _]. split; [reflexivity|].
    split; [now exists e|].
    apply UpsertFacts.entries_get in Hin; [|exact Hnd]. apply Hv in Hin.
    unfold AggregateSpec.group_sum in Hin. unfold key, kept in Hin.
    now rewrite DailyFacts.kept_on_day in Hin. }
  assert (Hp : Permutation (map row (own_entries o)) (map row o))
    by apply Permutation_map, DailyFacts.own_entries_perm.
  assert (Hrows : Forall (DailySpec.day_entry expenses year month)
                    (map row (own_entries o))).
  { apply Forall_forall. intros r Hr.
    apply (Permutation_in _ Hp), in_map_iff in Hr. destruct Hr as (kv & <- & Hin).
    now apply Hrow. }
  eexists. split; [reflexivity|]. split; [|split].
  - now apply JSFacts.sort_Forall.
  - intros d e He Hd. 
    assert (Hin : In (key e) (AggregateSpec.keys o)).
    { apply Hk, in_map. apply filter_In. split; [exact He|].
      unfold DailySpec.on_day in Hd.
      destruct (parse_date (ExpenseData.date e)) as [[[y m] d']|] eqn:P; [|discriminate].
      rewrite (@DailyFacts.month_filter_keeps year month e y m d' Hy Hm P).
      apply andb_true_iff in Hd. apply Hd. }
    assert (Ekey : key e = String_of_Z d /\ (1 <= d <= 31)%Z).
    { unfold DailySpec.on_day in Hd. unfold key.
      destruct (parse_date (ExpenseData.date e)) as [[[y m] d']|] eqn:P; [|discriminate].
      rewrite (@DailyFacts.day_of_date e y m d' P).
      apply andb_true_iff in Hd. destruct Hd as [_ Hd]. apply Z.eqb_eq in Hd. subst d'.
      split; [reflexivity|].
      pose proof (DateFacts.parse_date_calendar _ P) as (_ & _ & Bd).
      unfold DaysInMonth in Bd.
      destruct (m =? 2)%Z; [destruct (InLeapYear y)|destruct (_ || _)%bool]; lia. }
    destruct Ekey as [Ekey Bd].
    unfold AggregateSpec.keys in Hin. apply in_map_iff in Hin.
    destruct Hin as ([k n] & E & Hin). cbn [fst] in E. subst k.
    exists (row (key e, n)). split.
    + apply JSFacts.sort_In. apply (Permutation_in _ (Permutation_sym Hp)).
      now apply in_map.
    + cbn [row Analytics.day]. rewrite Ekey.
      now destruct (@DailyFacts.day_key d Bd) as [-> _].
  - apply (DailyFacts.sort_by_number_asc Analytics.day).
    + eapply Forall_impl; [|exact Hrows]. intros r (d & _ & E & _). now exists d.
    + eapply Permutation_NoDup; [apply Permutation_map, Permutation_sym, Hp|].
      rewrite map_map.
      apply (@DailyFacts.NoDup_map_finer _ _ _ fst (fun kv => Analytics.day (row kv)) o);
        [|exact Hnd].
      intros [k n] [k' n'] Hin Hin' E. cbn [fst].
      assert (Hink : In k (AggregateSpec.keys o))
        by (unfold AggregateSpec.keys; change k with (fst (k, n)); now apply in_map).
      assert (Hink' : In k' (AggregateSpec.keys o))
        by (unfold AggregateSpec.keys; change k' with (fst (k', n')); now apply in_map).
      destruct (Hkey k Hink) as (d & _ & Bd & -> & _).
      destruct (Hkey k' Hink') as (d' & _ & Bd' & -> & _).
      cbn [row Analytics.day] in E.
      destruct (@DailyFacts.day_key d Bd) as [E1 _].
      destruct (@DailyFacts.day_key d' Bd') as [E2 _].
      rewrite E1, E2 in E. cbn in E. injection E as ->. reflexivity.
Qed.

Lemma daily_spending_of_a_month_witness :
  exists out,
    Analytics.getDailySpending Samples.expenses 2026 2 = Ok out
    /\ Forall (DailySpec.day_entry Samples.expenses 2026 2) out
    /\ (forall d e, In e Samples.expenses -> DailySpec.on_day 2026 2 d e = true ->
          exists entry, In entry out /\ Analytics.day entry = of_Z d)
    /\ StronglySorted
         (fun a b => AggregateSpec.value (Analytics.day a)
                     < AggregateSpec.value (Analytics.day b)) out.
Proof.
  apply (@daily_spending_of_a_month Samples.expenses 2026 2).
  - repeat constructor; discriminate.
  - lia.
  - lia.
Defined.

(** The day sections of the daily view, for expenses with calendar dates:
    [sortedDates] lists every date of an expense once, most recent first;
    [groupByDate] holds under a date the expenses of that date in the
    order given, whose [dayTotal] is the sum of their amounts; and the day
    totals add up to the total of the expenses. *)
Theorem daily_sections (expenses : list ExpenseData.Expense) :
  Forall FilterSpec.expense_dated expenses ->
  let grouped := DailyTransactions.groupByDate expenses in
  let dates := DailyTransactions.sortedDates grouped in
  StronglySorted (fun a b => String.ltb b a = true) dates
  /\ (forall d, In d dates <-> In d (map ExpenseData.date expenses))
  /\ Forall (fun d =>
               exists dayExpenses,
                 get grouped d = Some dayExpenses
                 /\ dayExpenses <> []
                 /\ dayExpenses = FilterSpec.on_date d expenses
                 /\ AggregateSpec.num_is (DailyTransactions.dayTotal dayExpenses)
                      (AggregateSpec.group_sum ExpenseData.date ExpenseData.amount
                         d expenses)) dates
  /\ AggregateSpec.sumQ
       (map (fun d => AggregateSpec.group_sum ExpenseData.date ExpenseData.amount
                        d expenses) dates)
     == AggregateSpec.sumQ (map ExpenseData.amount expenses).
Proof.
  intros Hd grouped dates.
  destruct (GroupFacts.grouped_loop expenses) as (Hnd & Hk & Hv).
  fold (DailyTransactions.groupByDate expenses) in Hnd, Hk, Hv. fold grouped in Hnd, Hk, Hv.
  assert (Hp : Permutation dates (AggregateSpec.keys grouped)).
  { unfold dates, DailyTransactions.sortedDates.
    eapply perm_trans; [apply JSFacts.sort_perm|].
    apply Permutation_map, DailyFacts.own_entries_perm. }
  assert (Hin : forall d, In d dates <-> In d (map ExpenseData.date expenses)).
  { intro d. rewrite <- Hk. split; apply Permutation_in;
      [exact Hp|apply Permutation_sym, Hp]. }
  assert (Hnd' : NoDup dates)
    by (eapply Permutation_NoDup; [apply Permutation_sym, Hp|exact Hnd]).
  split; [|split; [exact Hin|split]].
  - apply SectionFacts.strictly_descending; [|exact Hnd'].
    apply (DateSort.sort_by_date_descending (fun s : string => s)).
    apply Forall_forall. intros d Hd'.
    assert (Hd'' : In d (AggregateSpec.keys grouped)).
    { eapply Permutation_in; [|exact Hd']. apply Permutation_map, DailyFacts.own_entries_perm. }
    apply Hk, in_map_iff in Hd''. destruct Hd'' as (e & <- & He).
    rewrite Forall_forall in Hd. now apply Hd.
  - apply Forall_forall. intros d Hd'.
    assert (Hd'' : In d (AggregateSpec.keys grouped))
      by (eapply Permutation_in; [exact Hp|exact Hd']).
    destruct (get grouped d) as [l|] eqn:G.
    + destruct (Hv _ _ G) as [-> Hne]. eexists. split; [reflexivity|].
      split; [exact Hne|]. split; [reflexivity|].
      apply (SumFacts.reduce_sum_is ExpenseData.amount).
    + apply ObjFacts.get_None in G. contradiction.
  - apply BreakdownFacts.sum_of_groups; [exact Hnd'|].
    intros x Hx. apply Hin. now apply in_map.
Qed.

Lemma daily_sections_witness :
  let grouped := DailyTransactions.groupByDate Samples.expenses in
  let dates := DailyTransactions.sortedDates grouped in
  StronglySorted (fun a b => String.ltb b a = true) dates
  /\ (forall d, In d dates <-> In d (map ExpenseData.date Samples.expenses))
  /\ Forall (fun d =>
               exists dayExpenses,
                 get grouped d = Some dayExpenses
                 /\ dayExpenses <> []
                 /\ dayExpenses = FilterSpec.on_date d Samples.expenses
                 /\ AggregateSpec.num_is (DailyTransactions.dayTotal dayExpenses)
                      (AggregateSpec.group_sum ExpenseData.date ExpenseData.amount
                         d Samples.expenses)) dates
  /\ AggregateSpec.sumQ
       (map (fun d => AggregateSpec.group_sum ExpenseData.date ExpenseData.amount
                        d Samples.expenses) dates)
     == AggregateSpec.sumQ (map ExpenseData.amount Samples.expenses).
Proof.
  apply (@daily_sections Samples.expenses). repeat constructor.
Defined.
